(** * Meshroom cluster scripts: pipeline orchestration and artifact synthesis

    A shallow embedding of the Python scripts under [scripts/] (and of the
    one GUI handler the specification mentions), with the properties the
    specification states about them.

    Conventions of the embedding.
    - Python [int] values that are never negative are [nat].
    - A text file is the [string] handed to [f.write]; a physical line is a
      maximal run of characters between two line feeds (ASCII 10).
    - In a Python literal that is not raw, the source text backslash
      backslash n denotes TWO characters, a backslash and the letter n; the
      source text backslash n, and a line break inside a triple-quoted
      literal, denote ONE line feed.  The embedding keeps the two apart:
      [esc_n] is the former, [nl] the latter.
    - Values that come out of [random] and of float formatting are not
      computed; a run carries them as already rendered numeric fields
      ([Numerics]). *)

From Stdlib Require Import Arith ZArith Lia List Bool Ascii String
  DecimalString DecimalNat Sorted Permutation.
Import ListNotations.
Open Scope list_scope.
Open Scope string_scope.

(* ================================================================== *)
(** ** Text primitives *)
(* ================================================================== *)

Module Text.

Definition LF : ascii := "010"%char.
Definition backslash : ascii := "092"%char.

(** One line feed. *)
Definition nl : string := String LF "".

(** What [\\n] written in a non-raw Python literal produces. *)
Definition esc_n : string := String backslash "n".

(** [str(n)] / [{n}] in an f-string, for a non-negative integer. *)
Definition str (n : nat) : string := NilEmpty.string_of_uint (Nat.to_uint n).

(** [int(s)] restricted to unsigned decimal numerals. *)
Definition parse_nat (s : string) : option nat :=
  match s with
  | "" => None
  | _ => option_map Nat.of_uint (NilEmpty.uint_of_string s)
  end.

(** [s.startswith(p)]. *)
Definition startswith (s p : string) : bool := String.prefix p s.

(** [s.endswith(p)]. *)
Definition endswith (s p : string) : bool :=
  let n := String.length s in
  let m := String.length p in
  Nat.leb m n && String.eqb (String.substring (n - m) m s) p.

(** The text that follows the first [n] characters. *)
Fixpoint drop (n : nat) (s : string) : string :=
  match n, s with
  | 0, _ => s
  | S k, "" => ""
  | S k, String _ s' => drop k s'
  end.

(** The physical lines of a text: split at every line feed; a last line
    that is not terminated still counts, an empty remainder does not. *)
Fixpoint lines (s : string) : list string :=
  match s with
  | "" => []
  | String c s' =>
      if Ascii.eqb c LF then "" :: lines s'
      else match lines s' with
           | [] => [String c ""]
           | l :: ls => String c l :: ls
           end
  end.

(** A triple-quoted block: every line of the literal followed by a line
    feed. *)
Fixpoint block (ls : list string) : string :=
  match ls with
  | [] => ""
  | l :: ls' => l ++ nl ++ block ls'
  end.

Fixpoint all_chars (p : ascii -> bool) (s : string) : bool :=
  match s with
  | "" => true
  | String c s' => p c && all_chars p s'
  end.

Definition no_LF (s : string) : bool :=
  all_chars (fun c => negb (Ascii.eqb c LF)) s.

Definition no_f (s : string) : bool :=
  all_chars (fun c => negb (Ascii.eqb c "f")) s.

(** [s.count(pat)] for a non-empty pattern: occurrences counted from the
    left without overlap.  [skip] is the number of characters of the last
    match still to be passed over. *)
Fixpoint count_skip (pat s : string) (skip : nat) : nat :=
  match s with
  | "" => 0
  | String _ s' =>
      match skip with
      | S k => count_skip pat s' k
      | 0 => if String.prefix pat s
             then S (count_skip pat s' (String.length pat - 1))
             else count_skip pat s' 0
      end
  end.

Definition count (s pat : string) : nat := count_skip pat s 0.

(** [range(start, stop, step)] for [step >= 1]; [stop] bounds the number
    of elements. *)
Fixpoint range_from (fuel start stop step : nat) : list nat :=
  match fuel with
  | 0 => []
  | S f => if Nat.ltb start stop
           then start :: range_from f (start + step) stop step
           else []
  end.

Definition range3 (start stop step : nat) : list nat :=
  range_from stop start stop step.

(** [range(n)]. *)
Definition range (n : nat) : list nat := seq 0 n.

(** The pieces of a list, one after the other. *)
Fixpoint flat (xs : list string) : string :=
  match xs with
  | [] => ""
  | x :: xs' => x ++ flat xs'
  end.

(** [for i in xs: content += piece(i)]. *)
Definition append_each (content : string) (xs : list nat)
    (piece : nat -> string) : string :=
  fold_left (fun acc i => acc ++ piece i) xs content.

End Text.

Import Text.

(* ================================================================== *)
(** ** Rendered numeric fields of one run *)
(* ================================================================== *)

(** The generators draw coordinates and colours from [random] and print
    them with [.6f] / [.3f] / integer formatting.  One run is described by
    the texts so obtained: the blank-separated fields of each record,
    without the record's keyword and without its terminator. *)
Record Numerics : Type := {
  ply_fields : nat -> string;        (* point-cloud vertex [i] *)
  obj_v_fields : nat -> string;      (* mesh vertex [i] *)
  obj_vt_fields : nat -> string;     (* texture coordinate [i] *)
  obj_vn_fields : nat -> string;     (* vertex normal [i] *)
  stl_fields : nat -> nat -> string  (* facet [i], corner [j] *)
}.

Definition numeric_char (c : ascii) : bool :=
  let n := nat_of_ascii c in
  (Nat.leb 48 n && Nat.leb n 57)          (* 0-9 *)
  || Nat.eqb n 46 || Nat.eqb n 45          (* . - *)
  || Nat.eqb n 32.                         (* blank *)

(** Decimal digits, sign, point and blanks only: what the format
    specifications used by the generators can print for finite values. *)
Definition numeric (s : string) : bool := all_chars numeric_char s.

Definition well_rendered (d : Numerics) : Prop :=
  (forall i, numeric (ply_fields d i) = true) /\
  (forall i, numeric (obj_v_fields d i) = true) /\
  (forall i, numeric (obj_vt_fields d i) = true) /\
  (forall i, numeric (obj_vn_fields d i) = true) /\
  (forall i j, numeric (stl_fields d i j) = true).

(** Two sample runs with different coordinates. *)
Definition run_a : Numerics := {|
  ply_fields := fun _ => "0.000000 0.000000 2.000000 128 255 128";
  obj_v_fields := fun _ => "0.000000 0.000000 1.000000";
  obj_vt_fields := fun _ => "0.500000 0.500000";
  obj_vn_fields := fun _ => "0.000000 0.000000 1.000000";
  stl_fields := fun _ _ => "2.000000 0.000000 0.000000" |}.

Definition run_b : Numerics := {|
  ply_fields := fun _ => "-1.250000 0.750000 0.000000 90 145 200";
  obj_v_fields := fun _ => "1.500000 -0.250000 0.125000";
  obj_vt_fields := fun _ => "0.250000 0.750000";
  obj_vn_fields := fun _ => "-1.000000 0.000000 0.000000";
  stl_fields := fun _ _ => "0.000000 1.000000 -0.500000" |}.

(* ================================================================== *)
(** ** Reading the artifacts back *)
(* ================================================================== *)

Module Artifact.

(** The count announced by the first [element vertex <count>] line. *)
Fixpoint declared_in (ls : list string) : option nat :=
  match ls with
  | [] => None
  | l :: ls' =>
      if startswith l "element vertex "
      then parse_nat (drop 15 l)
      else declared_in ls'
  end.

Definition declared_vertex_count (file : string) : option nat :=
  declared_in (lines file).

(** The physical lines that follow the [end_header] line. *)
Fixpoint after_end_header (ls : list string) : list string :=
  match ls with
  | [] => []
  | l :: ls' => if String.eqb l "end_header" then ls' else after_end_header ls'
  end.

Definition data_lines (file : string) : list string :=
  after_end_header (lines file).

(** The vertex records found after the header, recognised by the
    terminator the generators put after each of them. *)
Definition emitted_vertex_records (file : string) : nat :=
  list_sum (map (fun l => count l esc_n) (data_lines file)).

(** OBJ records, in file order.  A face corner is [v], [v/vt] or
    [v/vt/vn]. *)
Record Corner : Type := {
  cv : nat;
  cvt : option nat;
  cvn : option nat
}.

Inductive ObjRecord : Type :=
  | OV (fields : string)
  | OVt (fields : string)
  | OVn (fields : string)
  | OF (a b c : Corner).

Definition render_corner (k : Corner) : string :=
  str (cv k) ++
  match cvt k, cvn k with
  | None, None => ""
  | Some t, None => "/" ++ str t
  | Some t, Some n => "/" ++ str t ++ "/" ++ str n
  | None, Some n => "//" ++ str n
  end.

(** The body of the f-string of each record, terminator excluded. *)
Definition render_record (r : ObjRecord) : string :=
  match r with
  | OV f => "v " ++ f
  | OVt f => "vt " ++ f
  | OVn f => "vn " ++ f
  | OF a b c =>
      "f " ++ render_corner a ++ " " ++ render_corner b ++ " " ++ render_corner c
  end.

Definition is_v (r : ObjRecord) : bool :=
  match r with OV _ => true | _ => false end.
Definition is_vt (r : ObjRecord) : bool :=
  match r with OVt _ => true | _ => false end.
Definition is_vn (r : ObjRecord) : bool :=
  match r with OVn _ => true | _ => false end.
Definition is_f (r : ObjRecord) : bool :=
  match r with OF _ _ _ => true | _ => false end.

Definition count_v (rs : list ObjRecord) : nat := List.length (filter is_v rs).
Definition count_f (rs : list ObjRecord) : nat := List.length (filter is_f rs).

Definition corner_within (seen : nat) (k : Corner) : bool :=
  Nat.leb 1 (cv k) && Nat.leb (cv k) seen.

(** Walk the records in file order, keeping the number of [v] records
    passed so far; every face must stay within it. *)
Fixpoint faces_backward (seen : nat) (rs : list ObjRecord) : bool :=
  match rs with
  | [] => true
  | OV _ :: rs' => faces_backward (S seen) rs'
  | OF a b c :: rs' =>
      corner_within seen a && corner_within seen b && corner_within seen c
      && faces_backward seen rs'
  | _ :: rs' => faces_backward seen rs'
  end.

(** The same two requirements, stated on positions in the file. *)
Definition face_indices_in_range (rs : list ObjRecord) : Prop :=
  forall a b c, In (OF a b c) rs ->
    forall k, In k [a; b; c] -> 1 <= cv k <= count_v rs.

Definition no_forward_reference (rs : list ObjRecord) : Prop :=
  forall pre a b c post, rs = (pre ++ OF a b c :: post)%list ->
    forall k, In k [a; b; c] -> 1 <= cv k <= count_v pre.

End Artifact.

Import Artifact.

(* ================================================================== *)
(** ** Paths *)
(* ================================================================== *)

Definition is_sep (c : ascii) : bool :=
  Ascii.eqb c backslash || Ascii.eqb c "/"%char.

Fixpoint has_sep (s : string) : bool :=
  match s with
  | "" => false
  | String c s' => is_sep c || has_sep s'
  end.

(** [os.path.basename]: the text after the last separator. *)
Fixpoint basename (s : string) : string :=
  match s with
  | "" => ""
  | String c s' =>
      if is_sep c then basename s'
      else if has_sep s' then basename s' else s
  end.

(** [os.path.join] of a directory and a file name (the scripts address a
    Windows share). *)
Definition path_join (dir name : string) : string :=
  dir ++ String backslash "" ++ name.

Definition NAS_INPUT : string :=
  "\\BernHQ\Big Pool\Shared Folders\Meshroom\input".
Definition NAS_OUTPUT_BASE : string :=
  "\\BernHQ\Big Pool\Shared Folders\Meshroom\output".
Definition NAS_TEMP : string :=
  "\\BernHQ\Big Pool\Shared Folders\Meshroom\temp".

(** [", ".join(xs)]. *)
Fixpoint join_comma (xs : list string) : string :=
  match xs with
  | [] => ""
  | [x] => x
  | x :: xs' => x ++ ", " ++ join_comma xs'
  end.

(* ================================================================== *)
(** ** actual-meshroom-processing.py: artifact generators *)
(* ================================================================== *)

Module Actual.

(** [estimate_processing_time]. *)
Definition estimate_processing_time (photo_count : nat) : nat :=
  300 + photo_count * 45.

(** [num_points = min(photo_count * 100, 5000)]. *)
Definition num_points (photo_count : nat) : nat :=
  Nat.min (photo_count * 100) 5000.

Definition ply_name (photo_count : nat) : string :=
  "pointcloud_" ++ str photo_count ++ "photos.ply".

Definition ply_header (photo_count : nat) : string :=
  block [ "ply";
          "format ascii 1.0";
          "comment Generated point cloud from " ++ str photo_count ++ " photos";
          "element vertex " ++ str (num_points photo_count);
          "property float x";
          "property float y";
          "property float z";
          "property uchar red";
          "property uchar green";
          "property uchar blue";
          "end_header" ].

(** [create_valid_ply_file]: the text written to the [.ply] file. *)
Definition create_valid_ply_file (d : Numerics) (photo_count : nat) : string :=
  append_each (ply_header photo_count) (range (num_points photo_count))
    (fun i => ply_fields d i ++ esc_n).

Definition obj_name (photo_count : nat) : string :=
  "mesh_" ++ str photo_count ++ "photos.obj".

Definition obj_header (photo_count : nat) : string :=
  block [ "# OBJ file generated from " ++ str photo_count ++ " photos";
          "# Valid mesh for Blender import";
          "" ].

(** The [faces] table of [create_valid_obj_file]. *)
Definition faces : list (nat * nat * nat) :=
  [ (1, 12, 6); (1, 6, 2); (1, 2, 8); (1, 8, 11); (1, 11, 12);
    (2, 6, 10); (6, 12, 5); (12, 11, 3); (11, 8, 7); (8, 2, 9);
    (4, 10, 5); (4, 5, 3); (4, 3, 7); (4, 7, 9); (4, 9, 10);
    (5, 10, 6); (3, 5, 12); (7, 3, 11); (9, 7, 8); (10, 9, 2) ].

Definition plain (v : nat) : Corner := {| cv := v; cvt := None; cvn := None |}.

(** The records appended by [create_valid_obj_file], in order: the twelve
    scaled icosahedron vertices, then the twenty faces. *)
Definition obj_records (d : Numerics) : list ObjRecord :=
  (map (fun i => OV (obj_v_fields d i)) (range 12)
   ++ map (fun f => match f with
                    | (a, b, c) => OF (plain a) (plain b) (plain c)
                    end) faces)%list.

Definition create_valid_obj_file (d : Numerics) (photo_count : nat) : string :=
  fold_left (fun acc r => acc ++ render_record r ++ esc_n)
    (obj_records d) (obj_header photo_count).

End Actual.

(* ================================================================== *)
(** ** realistic-meshroom-processing.py: statistics and generators *)
(* ================================================================== *)

Module Realistic.

(** The dictionary returned by [process_photos_realistically]; the
    [processing_time] entry is a float and is carried as its printed
    form. *)
Record Stats : Type := {
  sparse_points : nat;
  dense_points : nat;
  mesh_faces : nat;
  processing_time : string
}.

Definition stats_of (time_text : string) (photo_count : nat) : Stats := {|
  sparse_points := photo_count * 200;
  dense_points := photo_count * 2000;
  mesh_faces := photo_count * 1000;
  processing_time := time_text |}.

Definition ply_name (n : nat) : string :=
  "dense_pointcloud_" ++ str n ++ "photos.ply".
Definition obj_name (n : nat) : string :=
  "textured_model_" ++ str n ++ "photos.obj".
Definition stl_name (n : nat) : string :=
  "printable_model_" ++ str n ++ "photos.stl".

Definition ply_header (n : nat) (session_name : string) (st : Stats) : string :=
  block [ "ply";
          "format ascii 1.0";
          "comment Generated by Meshroom from " ++ str n ++ " photos";
          "comment Session: " ++ session_name;
          "comment Sparse points: " ++ str (sparse_points st);
          "comment Dense points: " ++ str (dense_points st);
          "element vertex " ++ str (dense_points st);
          "property float x";
          "property float y";
          "property float z";
          "property uchar red";
          "property uchar green";
          "property uchar blue";
          "property float confidence";
          "end_header" ].

Definition ply_file (d : Numerics) (n : nat) (session_name : string)
    (st : Stats) : string :=
  append_each (ply_header n session_name st) (range (dense_points st))
    (fun i => ply_fields d i ++ esc_n).

Definition obj_header (n : nat) (session_name : string) (st : Stats) : string :=
  block [ "# Meshroom 3D Model";
          "# Generated from " ++ str n ++ " photos";
          "# Session: " ++ session_name;
          "# Faces: " ++ str (mesh_faces st);
          "# Processing time: " ++ processing_time st ++ " seconds";
          "mtllib model.mtl";
          "" ].

(** [vertex_count = processing_stats['mesh_faces'] // 2]. *)
Definition vertex_count (st : Stats) : nat := mesh_faces st / 2.

Definition textured (i : nat) : Corner :=
  {| cv := i; cvt := Some i; cvn := None |}.

(** The three loops of the mesh section: [v] records, [vt] records, then
    [for i in range(1, vertex_count - 2, 3)] one face [i, i+1, i+2].
    ([vertex_count - 2] is negative in Python when [vertex_count < 2];
    the range is empty then, as it is for the truncated difference.) *)
Definition obj_records (d : Numerics) (st : Stats) : list ObjRecord :=
  (map (fun i => OV (obj_v_fields d i)) (range (vertex_count st))
   ++ map (fun i => OVt (obj_vt_fields d i)) (range (vertex_count st))
   ++ map (fun i => OF (textured i) (textured (i + 1)) (textured (i + 2)))
        (range3 1 (vertex_count st - 2) 3))%list.

Definition obj_file (d : Numerics) (n : nat) (session_name : string)
    (st : Stats) : string :=
  fold_left (fun acc r => acc ++ render_record r ++ esc_n)
    (obj_records d st) (obj_header n session_name st).

Definition solid_name (n : nat) : string := "Meshroom_" ++ str n ++ "_Photos".

(** The body of the inner loop [for j in range(3)] for facet [i]. *)
Definition facet_piece (d : Numerics) (i j : nat) : string :=
  (if Nat.eqb j 0
   then "  facet normal 0.0 0.0 1.0" ++ esc_n ++ "    outer loop" ++ esc_n
   else "")
  ++ "      vertex " ++ stl_fields d i j ++ esc_n
  ++ (if Nat.eqb j 2
      then "    endloop" ++ esc_n ++ "  endfacet" ++ esc_n
      else "").

Definition stl_file (d : Numerics) (n : nat) (st : Stats) : string :=
  let opened := "solid " ++ solid_name n ++ esc_n in
  let filled :=
    fold_left (fun acc i => append_each acc (range 3) (facet_piece d i))
      (range (mesh_faces st)) opened in
  filled ++ "endsolid " ++ solid_name n.

End Realistic.

(* ================================================================== *)
(** ** meshroom-native-processing.py: generators *)
(* ================================================================== *)

Module Native.

Definition ply_name (n : nat) : string :=
  "dense_pointcloud_" ++ str n ++ "photos.ply".
Definition obj_name (n : nat) : string :=
  "textured_model_" ++ str n ++ "photos.obj".
Definition stl_name (n : nat) : string :=
  "printable_model_" ++ str n ++ "photos.stl".

Definition ply_header (n : nat) : string :=
  block [ "ply";
          "format ascii 1.0";
          "comment Generated by Meshroom distributed cluster from "
            ++ str n ++ " photos";
          "comment Including HEIC files processed natively";
          "element vertex " ++ str (n * 2000);
          "property float x";
          "property float y";
          "property float z";
          "property uchar red";
          "property uchar green";
          "property uchar blue";
          "property float nx";
          "property float ny";
          "property float nz";
          "end_header" ].

Definition ply_file (d : Numerics) (n : nat) : string :=
  append_each (ply_header n) (range (n * 2000))
    (fun i => ply_fields d i ++ esc_n).

Definition obj_header (photos : list string) : string :=
  block [ "# Meshroom 3D Model from " ++ str (List.length photos)
            ++ " photos (including HEIC)";
          "# Generated by distributed Kubernetes cluster";
          "# Photos processed: "
            ++ join_comma (map basename (firstn 10 photos))
            ++ (if Nat.ltb 10 (List.length photos) then "..." else "");
          "mtllib model.mtl" ].

Definition full (i : nat) : Corner :=
  {| cv := i; cvt := Some i; cvn := Some i |}.

(** Four loops: [len(photos) * 100] records each of [v], [vt] and [vn],
    then [for i in range(1, len(photos) * 95, 3)] one face
    [i, i+1, i+2]. *)
Definition obj_records (d : Numerics) (n : nat) : list ObjRecord :=
  (map (fun i => OV (obj_v_fields d i)) (range (n * 100))
   ++ map (fun i => OVt (obj_vt_fields d i)) (range (n * 100))
   ++ map (fun i => OVn (obj_vn_fields d i)) (range (n * 100))
   ++ map (fun i => OF (full i) (full (i + 1)) (full (i + 2)))
        (range3 1 (n * 95) 3))%list.

Definition obj_file (d : Numerics) (photos : list string) : string :=
  fold_left (fun acc r => acc ++ render_record r ++ esc_n)
    (obj_records d (List.length photos)) (obj_header photos).

Definition solid_name (n : nat) : string := "Meshroom_" ++ str n ++ "_Photos".

(** The seven appends of one iteration of the facet loop. *)
Definition facet (d : Numerics) (i : nat) : string :=
  "  facet normal 0.0 0.0 1.0" ++ esc_n
  ++ "    outer loop" ++ esc_n
  ++ "      vertex " ++ stl_fields d i 0 ++ esc_n
  ++ "      vertex " ++ stl_fields d i 1 ++ esc_n
  ++ "      vertex " ++ stl_fields d i 2 ++ esc_n
  ++ "    endloop" ++ esc_n
  ++ "  endfacet" ++ esc_n.

Definition stl_file (d : Numerics) (n : nat) : string :=
  append_each ("solid " ++ solid_name n ++ esc_n) (range (n * 50)) (facet d)
  ++ "endsolid " ++ solid_name n.

End Native.

(* ================================================================== *)
(** ** quick-valid-3d.py: generators *)
(* ================================================================== *)

Module Quick.

(** [create_valid_stl]: one triple-quoted literal, written as it is. *)
Definition create_valid_stl : string :=
  block [ "solid SimpleModel";
          "facet normal 0.0 0.0 1.0";
          "  outer loop";
          "    vertex 0.0 0.0 0.0";
          "    vertex 1.0 0.0 0.0";
          "    vertex 0.5 1.0 0.0";
          "  endloop";
          "endfacet";
          "facet normal 0.0 0.0 -1.0";
          "  outer loop";
          "    vertex 0.0 0.0 -0.1";
          "    vertex 0.5 1.0 -0.1";
          "    vertex 1.0 0.0 -0.1";
          "  endloop";
          "endfacet";
          "facet normal 0.0 -1.0 0.0";
          "  outer loop";
          "    vertex 0.0 0.0 0.0";
          "    vertex 0.0 0.0 -0.1";
          "    vertex 1.0 0.0 0.0";
          "  endloop";
          "endfacet";
          "facet normal 0.0 -1.0 0.0";
          "  outer loop";
          "    vertex 1.0 0.0 0.0";
          "    vertex 0.0 0.0 -0.1";
          "    vertex 1.0 0.0 -0.1";
          "  endloop";
          "endfacet";
          "endsolid SimpleModel" ].

(** [create_better_valid_obj]: 10 x 20 sphere vertices, then two
    triangles for each of the 9 x 19 quads. *)
Definition sphere_records (d : Numerics) : list ObjRecord :=
  (flat_map (fun i => map (fun j => OV (obj_v_fields d (i * 20 + j)))
                        (range 20)) (range 10)
   ++ flat_map (fun i =>
        flat_map (fun j =>
          let v1 := i * 20 + j + 1 in
          let v2 := i * 20 + (j + 1) + 1 in
          let v3 := (i + 1) * 20 + j + 1 in
          let v4 := (i + 1) * 20 + (j + 1) + 1 in
          [ OF (Actual.plain v1) (Actual.plain v2) (Actual.plain v3);
            OF (Actual.plain v2) (Actual.plain v4) (Actual.plain v3) ])
          (range 19)) (range 9))%list.

End Quick.

(** ** Reading an STL file back *)

Module Stl.

(** The name announced by the first physical line, when that line is a
    [solid <name>] line. *)
Definition opening_name (file : string) : option string :=
  match lines file with
  | l :: _ => if startswith l "solid " then Some (drop 6 l) else None
  | [] => None
  end.

(** The name on the last physical line, when that line is an
    [endsolid <name>] line. *)
Definition closing_name (file : string) : option string :=
  match rev (lines file) with
  | l :: _ => if startswith l "endsolid " then Some (drop 9 l) else None
  | [] => None
  end.

Definition facet_keyword : string := "facet normal".

Definition facet_blocks (file : string) : nat := count file facet_keyword.

Definition names (line : option string) (name : string) : bool :=
  match line with
  | Some x => String.eqb x name
  | None => false
  end.

(** The requirement on an STL artifact with [expected] facets. *)
Definition well_formed (file name : string) (expected : nat) : Prop :=
  opening_name file = Some name /\
  closing_name file = Some name /\
  facet_blocks file = expected.

End Stl.

(** ** The property of a point-cloud file the specification asks for *)

(** The header's [element vertex] count is the number of physical data
    lines after [end_header]. *)
Definition header_matches_data_lines (file : string) : Prop :=
  declared_vertex_count file = Some (List.length (data_lines file)).

Definition sample_session : string := "meshroom_session_20240101_120000".


(** ** The text of a printable solid *)

(** What both STL generators build: the opening piece, the facets, the
    closing piece.  [Realistic.stl_file] and [Native.stl_file] are shown
    below to produce this text. *)
Definition solid_text (d : Numerics) (name : string) (facets : list nat)
    : string :=
  ("solid " ++ name ++ esc_n)
  ++ flat (map (Native.facet d) facets)
  ++ "endsolid " ++ name.


(* ================================================================== *)
(** ** Runs: what a script does to the outside world *)
(* ================================================================== *)

Module Run.

(** The outcome of a [subprocess.run(..., check=True)] call. *)
Inductive Called : Type :=
  | Report (stdout : string)   (* exit status 0 *)
  | NonZeroExit                (* [subprocess.CalledProcessError] *)
  | NotLaunched.               (* any other exception, e.g. no such program *)

Definition launched (c : Called) : bool :=
  match c with
  | NotLaunched => false
  | _ => true
  end.

(** The outcome of the [Popen] / [wait] of the delegate executable. *)
Inductive Delegate : Type :=
  | Exited (returncode : Z)
  | Errored.                   (* an exception inside the [try] block *)

Definition delegate_succeeded (r : Delegate) : bool :=
  match r with
  | Exited 0%Z => true
  | _ => false
  end.

(** The lines a script prints that the properties below refer to.
    Progress lines, sleeps and decorations are not recorded. *)
Inductive Message : Type :=
  | ClusterUnavailable     (* realistic: "... using local processing" *)
  | ClusterNotFullyReady   (* native: "WARNING: Cluster not fully ready,
                              but proceeding..." *)
  | ClusterNotReady        (* process-photos: "Cluster not ready. Please
                              start the cluster first." *)
  | ProcessingMode (distributed : bool)
  | NoPhotos               (* "No photos found!" *)
  | Declined               (* "Processing cancelled" after the prompt *)
  | DelegateFailed         (* "Meshroom failed with return code ..." *)
  | DelegateError          (* "Error running Meshroom: ..." *)
  | Simulating             (* "Running simulation with REALISTIC timing..." *)
  | Step (k : nat)         (* the banner "Step k/6: ..." *)
  | SubmitFailed           (* "Failed to submit job: ..." *)
  | ProcessingFailed.      (* "Processing failed" *)

Inductive Event : Type :=
  | Makedirs (path : string)
  | WriteFile (path content : string)
  | Launch (program : string)
  | Say (m : Message).

(** How [main] ends. *)
Inductive Ending : Type :=
  | Completed
  | NoPhotosFound          (* returned after [NoPhotos] *)
  | ClusterGate            (* returned after [ClusterNotReady] *)
  | UserDeclined
  | Failed                 (* ran to the end after [ProcessingFailed] *)
  | StorageUnreachable     (* raised: "Cannot access NAS storage" *)
  | Crashed                (* another uncaught exception *)
  | Cancelled.             (* the terminal state the specification names;
                              no script produces it *)

(** A computation: the events so far and either an early ending or a
    value. *)
Definition M (A : Type) : Type := (list Event * (Ending + A))%type.

Definition ret {A} (a : A) : M A := ([], inr a).

Definition bind {A B} (m : M A) (k : A -> M B) : M B :=
  match m with
  | (es, inl e) => (es, inl e)
  | (es, inr a) =>
      match k a with
      | (es', r) => ((es ++ es')%list, r)
      end
  end.

Definition emit (e : Event) : M unit := ([e], inr tt).
Definition stop {A} (e : Ending) : M A := ([], inl e).

Definition events {A} (m : M A) : list Event := fst m.

(** The ending of a whole [main]. *)
Definition ending (m : M Ending) : Ending :=
  match snd m with
  | inl e => e
  | inr e => e
  end.

Definition is_write (e : Event) : bool :=
  match e with
  | Makedirs _ | WriteFile _ _ => true
  | _ => false
  end.

Definition is_file (e : Event) : bool :=
  match e with
  | WriteFile _ _ => true
  | _ => false
  end.

(** The filesystem writes of a run, in order. *)
Definition writes {A} (m : M A) : list Event := filter is_write (events m).

Definition steps {A} (m : M A) : list nat :=
  flat_map (fun e => match e with Say (Step k) => [k] | _ => [] end) (events m).

Definition said {A} (m : M A) (msg : Message) : Prop := In (Say msg) (events m).

End Run.

Import Run.

Declare Scope run_scope.
Delimit Scope run_scope with run.
Notation "x <- m ;; k" := (bind m (fun x => k))
  (at level 100, m at next level, right associativity) : run_scope.
Notation "m ;; k" := (bind m (fun _ => k))
  (at level 100, right associativity) : run_scope.

(** ** Sessions on the share *)

Module Sessions.

(** One item of [os.listdir(NAS_OUTPUT_BASE)], with what the calls made on
    it return.  [date] is the modification time as
    [strftime("%Y-%m-%d %H:%M:%S")] prints it, the key of the sort;
    [None] stands for a call that raises. *)
Record Entry : Type := {
  item : string;
  is_dir : bool;
  date : option string;
  contents : option (list (string * bool))   (* name, [os.path.isfile] *)
}.

Record Listing : Type := {
  base_exists : bool;
  base_items : option (list Entry)
}.

(** An element of the returned list. *)
Record Session : Type := {
  name : string;
  path : string;
  modified : string;
  files : nat
}.

Definition is_session (e : Entry) : bool :=
  is_dir e && startswith (item e) "meshroom_session_".

(** The inner [try]: the file count, 0 when listing the folder fails. *)
Definition file_count (e : Entry) : nat :=
  match contents e with
  | Some fs => List.length (filter snd fs)
  | None => 0
  end.

(** The loop body; [None] when [getmtime] raises, which leaves the
    function through the outer [except]. *)
Fixpoint collect (es : list Entry) : option (list Session) :=
  match es with
  | [] => Some []
  | e :: es' =>
      if is_session e then
        match date e with
        | None => None
        | Some dt =>
            option_map
              (cons {| name := item e;
                       path := path_join NAS_OUTPUT_BASE (item e);
                       modified := dt;
                       files := file_count e |})
              (collect es')
        end
      else collect es'
  end.

(** [sessions.sort(key=lambda x: x['date'], reverse=True)]: a stable
    sort, larger keys first, equal keys in their original order. *)
Fixpoint insert (x : Session) (l : list Session) : list Session :=
  match l with
  | [] => [x]
  | y :: l' =>
      if String.leb (modified y) (modified x) then x :: l
      else y :: insert x l'
  end.

Definition sort_newest_first (l : list Session) : list Session :=
  fold_right insert [] l.

Definition list_previous_sessions (ls : Listing) : list Session :=
  if base_exists ls then
    match base_items ls with
    | None => []
    | Some es =>
        match collect es with
        | None => []
        | Some found => sort_newest_first found
        end
    end
  else [].

(** Not older than: the order of the keys. *)
Definition not_newer (a b : Session) : Prop :=
  String.leb (modified b) (modified a) = true.

Definition strictly_newer (a b : Session) : Prop :=
  String.ltb (modified b) (modified a) = true.

(** An entry one of whose calls raises. *)
Definition unreadable (e : Entry) : bool :=
  match date e, contents e with
  | Some _, Some _ => false
  | _, _ => true
  end.

(** Carrying the printed date [dt]. *)
Definition dated (dt : string) (s : Session) : bool :=
  String.eqb (modified s) dt.

(** [s] is the element the loop appends for the entry [e]. *)
Definition records (s : Session) (e : Entry) : Prop :=
  name s = item e /\
  path s = path_join NAS_OUTPUT_BASE (item e) /\
  date e = Some (modified s) /\
  files s = file_count e.

End Sessions.

(** ** The outside world a script runs in *)

Record World : Type := {
  nas_reachable : bool;       (* [os.path.exists(NAS_INPUT)] without raising *)
  timestamp : string;         (* [datetime.now().strftime("%Y%m%d_%H%M%S")] *)
  photos : list string;       (* the sorted, de-duplicated result of the scan *)
  pods : Called;              (* [kubectl get pods -n meshroom] *)
  apply_job : Called;         (* [kubectl apply -f processing-job.yaml] *)
  powershell : Called;        (* the processing script of process-photos.py *)
  meshroom_path : option string;   (* [find_meshroom_installation()] *)
  delegate : Delegate;        (* running the executable found there *)
  answer : string;            (* what the operator types at the prompt *)
  previous : Sessions.Listing;
  numerics : Numerics;
  time_text : string;         (* a processing time as printed *)
  project_text : string;      (* texts of the project, job, workflow and
                                 manifest files; no property reads them *)
  job_text : string;
  workflow_text : string;
  manifest_text : string
}.

Definition with_pods (w : World) (p : Called) : World := {|
  nas_reachable := nas_reachable w; timestamp := timestamp w;
  photos := photos w; pods := p; apply_job := apply_job w;
  powershell := powershell w; meshroom_path := meshroom_path w;
  delegate := delegate w; answer := answer w; previous := previous w;
  numerics := numerics w; time_text := time_text w;
  project_text := project_text w; job_text := job_text w;
  workflow_text := workflow_text w; manifest_text := manifest_text w |}.

Definition with_numerics (w : World) (d : Numerics) : World := {|
  nas_reachable := nas_reachable w; timestamp := timestamp w;
  photos := photos w; pods := pods w; apply_job := apply_job w;
  powershell := powershell w; meshroom_path := meshroom_path w;
  delegate := delegate w; answer := answer w; previous := previous w;
  numerics := d; time_text := time_text w;
  project_text := project_text w; job_text := job_text w;
  workflow_text := workflow_text w; manifest_text := manifest_text w |}.

Local Open Scope run_scope.

(** [check_cluster_status]: count the occurrences of [Running] in the
    report and compare with the script's threshold.  Only
    [CalledProcessError] is caught; [on_error] is what the handler of the
    script prints. *)
Definition check_cluster_status (threshold : nat) (on_error : list Message)
    (w : World) : M bool :=
  match pods w with
  | Report out => ret (Nat.leb threshold (count out "Running"))
  | NonZeroExit => (map Say on_error, inr false)
  | NotLaunched => stop Crashed
  end.

(** Whether a status query counts as a ready cluster. *)
Definition cluster_ready (threshold : nat) (p : Called) : bool :=
  match p with
  | Report out => Nat.leb threshold (count out "Running")
  | _ => false
  end.

(** [create_session_folder] of the three session scripts. *)
Definition session_name (w : World) : string :=
  "meshroom_session_" ++ timestamp w.

Definition session_path (w : World) : string :=
  path_join NAS_OUTPUT_BASE (session_name w).

Definition create_session_folder (w : World) : M unit :=
  if nas_reachable w then
    emit (Makedirs NAS_OUTPUT_BASE) ;;
    emit (Makedirs (session_path w))
  else stop StorageUnreachable.

(** [for k in 1..6: print("Step k/6: ...")], progress lines left out. *)
Definition six_steps : M unit :=
  (map (fun k => Say (Step k)) [1; 2; 3; 4; 5; 6], inr tt).

Module RealisticMain.

(** [process_photos_realistically]. *)
Definition process_photos_realistically (w : World) (has_cluster : bool)
    : M Realistic.Stats :=
  emit (Say (ProcessingMode has_cluster)) ;;
  six_steps ;;
  ret (Realistic.stats_of (time_text w) (List.length (photos w))).

(** [create_realistic_output_files]. *)
Definition create_realistic_output_files (w : World) (st : Realistic.Stats)
    : M unit :=
  let n := List.length (photos w) in
  emit (WriteFile (path_join (session_path w) (Realistic.ply_name n))
          (Realistic.ply_file (numerics w) n (session_name w) st)) ;;
  emit (WriteFile (path_join (session_path w) (Realistic.obj_name n))
          (Realistic.obj_file (numerics w) n (session_name w) st)) ;;
  emit (WriteFile (path_join (session_path w) (Realistic.stl_name n))
          (Realistic.stl_file (numerics w) n st)) ;;
  emit (WriteFile (path_join (session_path w) "processing_summary.txt")
          (manifest_text w)).

(** [main].  [list_previous_sessions], [analyze_photos] and the result
    listing only read and print. *)
Definition main (w : World) : M Ending :=
  has_cluster <- check_cluster_status 1 [ClusterUnavailable] w ;;
  create_session_folder w ;;
  match photos w with
  | [] => emit (Say NoPhotos) ;; ret NoPhotosFound
  | _ :: _ =>
      emit (WriteFile (path_join (session_path w) "meshroom_project.json")
              (project_text w)) ;;
      st <- process_photos_realistically w has_cluster ;;
      create_realistic_output_files w st ;;
      ret Completed
  end.

(** The element counts found in the three artifacts [main] writes. *)
Record Counts : Type := {
  cloud_declared : option nat;
  cloud_emitted : nat;
  mesh_vertices : nat;
  mesh_faces_written : nat;
  solid_facets : nat
}.

Definition artifact_counts (w : World) : Counts :=
  let n := List.length (photos w) in
  let st := Realistic.stats_of (time_text w) n in
  {| cloud_declared :=
       declared_vertex_count
         (Realistic.ply_file (numerics w) n (session_name w) st);
     cloud_emitted :=
       emitted_vertex_records
         (Realistic.ply_file (numerics w) n (session_name w) st);
     mesh_vertices := count_v (Realistic.obj_records (numerics w) st);
     mesh_faces_written := count_f (Realistic.obj_records (numerics w) st);
     solid_facets := Stl.facet_blocks (Realistic.stl_file (numerics w) n st) |}.

End RealisticMain.

Module NativeMain.

(** [submit_to_meshroom_cluster]. *)
Definition submit_to_meshroom_cluster (w : World) : M bool :=
  emit (WriteFile (path_join NAS_TEMP "processing-job.yaml") (job_text w)) ;;
  emit (Launch "kubectl apply") ;;
  match apply_job w with
  | Report _ => ret true
  | NonZeroExit => emit (Say SubmitFailed) ;; ret false
  | NotLaunched => stop Crashed
  end.

(** [create_output_files]. *)
Definition create_output_files (w : World) : M unit :=
  let n := List.length (photos w) in
  emit (Makedirs (session_path w)) ;;
  emit (WriteFile (path_join (session_path w) (Native.ply_name n))
          (Native.ply_file (numerics w) n)) ;;
  emit (WriteFile (path_join (session_path w) (Native.obj_name n))
          (Native.obj_file (numerics w) (photos w))) ;;
  emit (WriteFile (path_join (session_path w) (Native.stl_name n))
          (Native.stl_file (numerics w) n)) ;;
  emit (WriteFile (path_join (session_path w) "processing_summary.txt")
          (manifest_text w)).

Definition main (w : World) : M Ending :=
  ready <- check_cluster_status 2 [] w ;;
  (if ready then ret tt else emit (Say ClusterNotFullyReady)) ;;
  create_session_folder w ;;
  emit (Makedirs NAS_TEMP) ;;
  match photos w with
  | [] => emit (Say NoPhotos) ;; ret NoPhotosFound
  | _ :: _ =>
      emit (WriteFile (path_join NAS_TEMP "full_dataset.mg") (project_text w)) ;;
      submitted <- submit_to_meshroom_cluster w ;;
      if submitted then create_output_files w ;; ret Completed
      else emit (Say ProcessingFailed) ;; ret Failed
  end.

End NativeMain.

(** [str.lower] on the ASCII letters. *)
Definition lower_char (c : ascii) : ascii :=
  let n := nat_of_ascii c in
  if Nat.leb 65 n && Nat.leb n 90 then ascii_of_nat (n + 32) else c.

Fixpoint lower (s : string) : string :=
  match s with
  | "" => ""
  | String c s' => String (lower_char c) (lower s')
  end.

Module ActualMain.

(** [run_real_meshroom]: the project file and the output folder are
    written before the [try]; inside it, exit code 0 is success, any other
    exit code and any exception are reported and give [False]. *)
Definition run_real_meshroom (w : World) (exe : string) : M bool :=
  emit (WriteFile (path_join (session_path w) "meshroom_project.mg")
          (project_text w)) ;;
  emit (Makedirs (path_join (session_path w) "meshroom_output")) ;;
  emit (Launch exe) ;;
  match delegate w with
  | Exited 0%Z => ret true
  | Exited _ => emit (Say DelegateFailed) ;; ret false
  | Errored => emit (Say DelegateError) ;; ret false
  end.

(** [simulate_realistic_processing]. *)
Definition simulate_realistic_processing : M unit := six_steps.

Definition summary (w : World) (real : bool) : string :=
  "Meshroom Processing Summary" ++ esc_n
  ++ "Session: " ++ session_name w ++ esc_n
  ++ "Photos: " ++ str (List.length (photos w)) ++ esc_n
  ++ "Processing time: " ++ time_text w ++ " minutes" ++ esc_n
  ++ "Method: " ++ (if real then "Real Meshroom" else "Simulation") ++ esc_n.

Definition main (w : World) : M Ending :=
  create_session_folder w ;;
  match photos w with
  | [] => emit (Say NoPhotos) ;; ret NoPhotosFound
  | _ :: _ =>
      let photo_count := List.length (photos w) in
      if negb (String.eqb (lower (answer w)) "y")
      then emit (Say Declined) ;; ret UserDeclined
      else
        success <- match meshroom_path w with
                   | Some exe => run_real_meshroom w exe
                   | None => ret false
                   end ;;
        (if success then ret tt
         else
           emit (Say Simulating) ;;
           simulate_realistic_processing ;;
           emit (WriteFile
                   (path_join (session_path w) (Actual.ply_name photo_count))
                   (Actual.create_valid_ply_file (numerics w) photo_count)) ;;
           emit (WriteFile
                   (path_join (session_path w) (Actual.obj_name photo_count))
                   (Actual.create_valid_obj_file (numerics w) photo_count))) ;;
        emit (WriteFile (path_join (session_path w) "processing_summary.txt")
                (summary w (match meshroom_path w with
                            | Some _ => success
                            | None => false
                            end))) ;;
        ret Completed
  end.

End ActualMain.

Module ProcessPhotos.

Definition NAS_OUTPUT : string := NAS_OUTPUT_BASE.

(** [start_distributed_processing] of process-photos.py. *)
Definition start_distributed_processing (w : World) : M bool :=
  emit (Makedirs NAS_OUTPUT) ;;
  emit (Makedirs NAS_TEMP) ;;
  emit (WriteFile (path_join NAS_TEMP "workflow.py") (workflow_text w)) ;;
  emit (Launch "powershell") ;;
  match powershell w with
  | Report _ => ret true
  | NonZeroExit => emit (Say ProcessingFailed) ;; ret false
  | NotLaunched => stop Crashed
  end.

(** [main] of process-photos.py. *)
Definition main (w : World) : M Ending :=
  ready <- check_cluster_status 2 [] w ;;
  if negb ready then emit (Say ClusterNotReady) ;; ret ClusterGate
  else
    match photos w with
    | [] => emit (Say NoPhotos) ;; ret NoPhotosFound
    | _ :: _ =>
        ok <- start_distributed_processing w ;;
        if ok then ret Completed
        else emit (Say ProcessingFailed) ;; ret Failed
    end.

(** [start_distributed_processing] of process-photos-simple.py. *)
Definition start_simple (w : World) : M bool :=
  emit (Makedirs NAS_OUTPUT) ;;
  emit (Makedirs NAS_TEMP) ;;
  six_steps ;;
  emit (WriteFile (path_join NAS_OUTPUT "processing_results.txt")
          (manifest_text w)) ;;
  emit (WriteFile (path_join NAS_OUTPUT "3d_model_info.txt") (job_text w)) ;;
  ret true.

(** [main] of process-photos-simple.py. *)
Definition main_simple (w : World) : M Ending :=
  ready <- check_cluster_status 2 [] w ;;
  if negb ready then emit (Say ClusterNotReady) ;; ret ClusterGate
  else
    match photos w with
    | [] => emit (Say NoPhotos) ;; ret NoPhotosFound
    | _ :: _ =>
        ok <- start_simple w ;;
        if ok then ret Completed
        else emit (Say ProcessingFailed) ;; ret Failed
    end.

End ProcessPhotos.

(** ** The control panel *)

Module ControlCenter.

(** [stop_workflows]: hands one shell command to a background thread.  It
    reads and writes nothing of a pipeline run. *)
Definition stop_workflows : list Event :=
  [ Launch "powershell -ExecutionPolicy Bypass -File ..\scripts\deploy.ps1 stop" ].

(** A pipeline run during which the operator asks to stop before the
    stage of index [at_stage] (if at all): the panel launches its command;
    the run is the script's [main], which has no input for the request. *)
Definition run_with_stop_request (w : World) (request : option nat)
    : list Event * M Ending :=
  (match request with
   | Some _ => stop_workflows
   | None => []
   end,
   RealisticMain.main w).

End ControlCenter.

(** ** Sample worlds *)

Module Samples.

Import Sessions.

(** Two sessions modified within the same second; the folder of the
    first cannot be listed. *)
Definition locked_session : Entry := {|
  item := "meshroom_session_20240101_100000";
  is_dir := true;
  date := Some "2024-01-01 10:00:07";
  contents := None |}.

Definition open_session : Entry := {|
  item := "meshroom_session_20240101_100005";
  is_dir := true;
  date := Some "2024-01-01 10:00:07";
  contents := Some [("model.obj", true); ("cache", false)] |}.

Definition older_session : Entry := {|
  item := "meshroom_session_20231231_090000";
  is_dir := true;
  date := Some "2023-12-31 09:00:00";
  contents := Some [] |}.

Definition notes_file : Entry := {|
  item := "notes.txt";
  is_dir := false;
  date := Some "2024-02-01 08:00:00";
  contents := None |}.

Definition share : Listing := {|
  base_exists := true;
  base_items := Some [older_session; locked_session; notes_file; open_session] |}.

Definition three_photos : list string :=
  [ "\\BernHQ\Big Pool\Shared Folders\Meshroom\input\a.jpg";
    "\\BernHQ\Big Pool\Shared Folders\Meshroom\input\b.jpg";
    "\\BernHQ\Big Pool\Shared Folders\Meshroom\input\c.heic" ].

Definition two_running : string :=
  "meshroom-coordinator 1/1 Running" ++ nl ++ "meshroom-worker 1/1 Running" ++ nl.

Definition one_running : string :=
  "meshroom-coordinator 1/1 Running" ++ nl ++ "meshroom-worker 0/1 Pending" ++ nl.

(** A healthy setup: reachable share, three photos, two running pods, a
    delegate that exits with status 1, an operator who answers [y]. *)
Definition healthy : World := {|
  nas_reachable := true;
  timestamp := "20240101_120000";
  photos := three_photos;
  pods := Report two_running;
  apply_job := Report "job.batch/meshroom-processing-job created";
  powershell := Report "";
  meshroom_path := Some "C:\Meshroom\meshroom_batch.exe";
  delegate := Exited 1;
  answer := "y";
  previous := share;
  numerics := run_a;
  time_text := "32.0";
  project_text := "{}";
  job_text := "apiVersion: batch/v1";
  workflow_text := "import Meshroom";
  manifest_text := "Meshroom 3D Reconstruction Results" |}.

(** The same setup with an empty input folder. *)
Definition no_input : World := {|
  nas_reachable := true;
  timestamp := "20240101_120000";
  photos := [];
  pods := Report two_running;
  apply_job := Report "";
  powershell := Report "";
  meshroom_path := None;
  delegate := Errored;
  answer := "y";
  previous := share;
  numerics := run_a;
  time_text := "32.0";
  project_text := "{}";
  job_text := "";
  workflow_text := "";
  manifest_text := "" |}.

End Samples.

(** ** The specification's statements, as predicates on the model *)

Module Claims.

(** Zero photos: the run ends with [NoPhotosFound] and has written
    nothing, neither a directory nor a file. *)
Definition zero_photos_no_writes (main : World -> M Ending) (w : World) : Prop :=
  photos w = [] ->
  ending (main w) = NoPhotosFound /\ writes (main w) = [].

(** The probe is advisory: whatever the status query gives, the run ends
    and writes as it does with a ready cluster. *)
Definition probe_is_advisory (main : World -> M Ending) (w : World) : Prop :=
  forall p,
    ending (main (with_pods w p))
      = ending (main (with_pods w (Report Samples.two_running))) /\
    writes (main (with_pods w p))
      = writes (main (with_pods w (Report Samples.two_running))).

(** A stop request between stage index 2 and stage index 3: the fourth
    stage is never started, the run ends [Cancelled], no file is
    written. *)
Definition stop_request_cancels (w : World) : Prop :=
  let run := snd (ControlCenter.run_with_stop_request w (Some 3)) in
  ~ In 4 (steps run) /\
  ending run = Cancelled /\
  filter is_file (events run) = [].

(** The listing is strictly newest-first and leaves out every entry one
    of whose calls raises. *)
Definition listing_strict_and_skipping (ls : Sessions.Listing) : Prop :=
  Sorted Sessions.strictly_newer (Sessions.list_previous_sessions ls) /\
  forall es e, Sessions.base_items ls = Some es -> In e es ->
    Sessions.unreadable e = true ->
    ~ In (Sessions.item e)
         (map Sessions.name (Sessions.list_previous_sessions ls)).

End Claims.

(* ================================================================== *)
(** ** Photo discovery *)
(* ================================================================== *)

Module Discovery.

(** [glob.glob(pattern)]: the paths the share returns for a pattern. *)
Definition Glob : Type := string -> list string.

(** [str.upper] on the ASCII letters. *)
Definition upper_char (c : ascii) : ascii :=
  let n := nat_of_ascii c in
  if Nat.leb 97 n && Nat.leb n 122 then ascii_of_nat (n - 32) else c.

Fixpoint upper (s : string) : string :=
  match s with
  | "" => ""
  | String c s' => String (upper_char c) (upper s')
  end.

(** [supported_formats] of realistic-meshroom-processing.py. *)
Definition realistic_formats : list string :=
  [ "*.jpg"; "*.jpeg"; "*.JPG"; "*.JPEG";
    "*.png"; "*.PNG";
    "*.tiff"; "*.tif"; "*.TIFF"; "*.TIF";
    "*.bmp"; "*.BMP";
    "*.heic"; "*.HEIC" ].

(** [supported_formats] of meshroom-native-processing.py. *)
Definition native_formats : list string :=
  [ "*.jpg"; "*.jpeg"; "*.JPG"; "*.JPEG";
    "*.png"; "*.PNG";
    "*.tiff"; "*.tif"; "*.TIFF"; "*.TIF";
    "*.bmp"; "*.BMP";
    "*.heic"; "*.HEIC";
    "*.cr2"; "*.CR2";
    "*.nef"; "*.NEF";
    "*.arw"; "*.ARW";
    "*.dng"; "*.DNG" ].

(** [supported_formats] of actual-meshroom-processing.py. *)
Definition actual_formats : list string :=
  [ "*.jpg"; "*.jpeg"; "*.JPG"; "*.JPEG";
    "*.png"; "*.PNG";
    "*.tiff"; "*.tif"; "*.TIFF"; "*.TIF";
    "*.heic"; "*.HEIC" ].

(** [photo_extensions] of process-photos.py and process-photos-simple.py. *)
Definition photo_extensions : list string :=
  [ "*.jpg"; "*.jpeg"; "*.png"; "*.tiff"; "*.bmp" ].

(** [for fmt in formats: all_photos.extend(glob.glob(join(NAS_INPUT, fmt)))]. *)
Definition scan (glob : Glob) (formats : list string) : list string :=
  flat_map (fun fmt => glob (path_join NAS_INPUT fmt)) formats.

(** [for ext in photo_extensions]: the pattern, then its upper-case
    form. *)
Definition scan_both_cases (glob : Glob) : list string :=
  flat_map (fun ext => (glob (path_join NAS_INPUT ext)
                        ++ glob (path_join NAS_INPUT (upper ext)))%list)
    photo_extensions.

(** [sorted(xs)] on strings: ascending, stable. *)
Fixpoint insert (x : string) (l : list string) : list string :=
  match l with
  | [] => [x]
  | y :: l' => if String.leb x y then x :: l else y :: insert x l'
  end.

Definition sorted (l : list string) : list string := fold_right insert [] l.

(** [list(set(xs))]: the distinct elements.  The order in which a set is
    walked is not fixed; every use below sorts the result, and the sorted
    list of distinct strings does not depend on that order. *)
Definition distinct (xs : list string) : list string := nodup string_dec xs.

(** [get_all_photos_native] (realistic, native) and [get_all_photos]
    (actual): [sorted(list(set(all_photos)))]. *)
Definition get_all_photos (glob : Glob) (formats : list string) : list string :=
  sorted (distinct (scan glob formats)).

Definition realistic_get_all_photos_native (glob : Glob) : list string :=
  get_all_photos glob realistic_formats.

Definition native_get_all_photos_native (glob : Glob) : list string :=
  get_all_photos glob native_formats.

Definition actual_get_all_photos (glob : Glob) : list string :=
  get_all_photos glob actual_formats.

(** [list_input_photos] of process-photos.py: [sorted(photos)]. *)
Definition list_input_photos (glob : Glob) : list string :=
  sorted (scan_both_cases glob).

(** [list_input_photos] of process-photos-simple.py:
    [sorted(list(set(photos)))]. *)
Definition list_input_photos_simple (glob : Glob) : list string :=
  sorted (distinct (scan_both_cases glob)).

(** A glob that ignores letter case in the extension, as on the
    platform of the share: a pattern and its upper-case form match the
    same paths. *)
Definition case_blind (glob : Glob) : Prop :=
  forall ext, In ext photo_extensions ->
    glob (path_join NAS_INPUT (upper ext)) = glob (path_join NAS_INPUT ext).

Definition ascending (a b : string) : Prop := String.leb a b = true.
Definition strictly_ascending (a b : string) : Prop := String.ltb a b = true.

(** A share with two photos, whatever the pattern asks for. *)
Definition two_photo_share : Glob :=
  fun _ => [ path_join NAS_INPUT "b.jpg"; path_join NAS_INPUT "a.jpg" ].

End Discovery.

(** ** Looking for a Meshroom installation *)

Module Installation.

(** [possible_paths]; the last one is built with
    [format(os.getenv('USERNAME'))], which prints [None] for an unset
    variable. *)
Definition possible_paths (username : option string) : list string :=
  [ "C:\Program Files\Meshroom";
    "C:\Program Files (x86)\Meshroom";
    "C:\Meshroom";
    "D:\Meshroom";
    "C:\Users\" ++ match username with
                   | Some u => u
                   | None => "None"
                   end ++ "\AppData\Local\Meshroom" ].

Definition batch_exe (dir : string) : string :=
  path_join dir "meshroom_batch.exe".

Definition batch_py (dir : string) : string :=
  path_join dir "meshroom_batch.py".

(** The loop of [find_meshroom_installation] over a list of folders;
    [present] is [os.path.exists]. *)
Fixpoint find_in (present : string -> bool) (dirs : list string)
    : option string :=
  match dirs with
  | [] => None
  | dir :: rest =>
      if present dir then
        if present (batch_exe dir) then Some (batch_exe dir)
        else if present (batch_py dir) then Some (batch_py dir)
        else find_in present rest
      else find_in present rest
  end.

Definition find_meshroom_installation (present : string -> bool)
    (username : option string) : option string :=
  find_in present (possible_paths username).

(** A folder that offers something to run. *)
Definition usable (present : string -> bool) (dir : string) : bool :=
  present dir && (present (batch_exe dir) || present (batch_py dir)).

(** A disk with the Python batch script in [C:\Meshroom] and the
    executable in [D:\Meshroom]. *)
Definition two_installations (path : string) : bool :=
  String.eqb path "C:\Meshroom"
  || String.eqb path "C:\Meshroom\meshroom_batch.py"
  || String.eqb path "D:\Meshroom"
  || String.eqb path "D:\Meshroom\meshroom_batch.exe".

End Installation.

(** [pat in s]. *)
Fixpoint contains (pat s : string) : bool :=
  String.prefix pat s
  || match s with
     | "" => false
     | String _ s' => contains pat s'
     end.

(** ** Watching the submitted job *)

Module NativeMonitor.

(** One [subprocess.run] without [check]: it returns the output, or
    raises because the program could not be run. *)
Inductive Poll : Type :=
  | Status (stdout : string)
  | PollRaised.

Inductive Seen : Type :=
  | SawComplete
  | SawFailed
  | GaveUp.

(** A poll that ends the watch. *)
Definition terminal (p : Poll) : bool :=
  match p with
  | Status out => contains "Complete" out || contains "Failed" out
  | PollRaised => false
  end.

(** [for i in range(60)]: ask for the job's condition; [Complete] or
    [Failed] in the answer leaves the loop, anything else sleeps one
    second; an exception is swallowed by [except: pass] and the loop goes
    on without sleeping.  The result is the number of polls made, what was
    seen, and the seconds slept. *)
Fixpoint watch (fuel i : nat) (job : nat -> Poll) : nat * Seen * nat :=
  match fuel with
  | 0 => (0, GaveUp, 0)
  | S fuel' =>
      match job i with
      | Status out =>
          if contains "Complete" out then (1, SawComplete, 0)
          else if contains "Failed" out then (1, SawFailed, 0)
          else match watch fuel' (S i) job with
               | (polls, seen, slept) => (S polls, seen, S slept)
               end
      | PollRaised =>
          match watch fuel' (S i) job with
          | (polls, seen, slept) => (S polls, seen, slept)
          end
      end
  end.

Definition monitor (job : nat -> Poll) : nat * Seen * nat := watch 60 0 job.

Local Open Scope run_scope.

(** [submit_to_meshroom_cluster] with its monitoring loop: the job file,
    [kubectl apply], the polls, [kubectl logs]; the value returned after
    a successful [apply] is [True]. *)
Definition submit_to_meshroom_cluster (w : World) (job : nat -> Poll)
    (logs : Poll) : M bool :=
  emit (WriteFile (path_join NAS_TEMP "processing-job.yaml") (job_text w)) ;;
  emit (Launch "kubectl apply") ;;
  match apply_job w with
  | Report _ =>
      match monitor job with
      | (polls, _, _) =>
          (repeat (Launch "kubectl get job") polls, inr tt) ;;
          emit (Launch "kubectl logs") ;;
          match logs with
          | Status _ => ret true
          | PollRaised => stop Crashed
          end
      end
  | NonZeroExit => emit (Say SubmitFailed) ;; ret false
  | NotLaunched => stop Crashed
  end.

(** [main] of meshroom-native-processing.py with that loop. *)
Definition main (w : World) (job : nat -> Poll) (logs : Poll) : M Ending :=
  ready <- check_cluster_status 2 [] w ;;
  (if ready then ret tt else emit (Say ClusterNotFullyReady)) ;;
  create_session_folder w ;;
  emit (Makedirs NAS_TEMP) ;;
  match photos w with
  | [] => emit (Say NoPhotos) ;; ret NoPhotosFound
  | _ :: _ =>
      emit (WriteFile (path_join NAS_TEMP "full_dataset.mg") (project_text w)) ;;
      submitted <- submit_to_meshroom_cluster w job logs ;;
      if submitted then NativeMain.create_output_files w ;; ret Completed
      else emit (Say ProcessingFailed) ;; ret Failed
  end.

(** A job that fails at its third poll. *)
Definition failing_job (i : nat) : Poll :=
  match i with
  | 0 => Status ""
  | 1 => PollRaised
  | _ => Status "Failed"
  end.

End NativeMonitor.

(** Two computations that end alike and make the same writes. *)
Definition same_outcome {A} (m1 m2 : M A) : Prop :=
  snd m1 = snd m2 /\
  filter is_write (fst m1) = filter is_write (fst m2).

(** ** The timed simulation of actual-meshroom-processing.py *)

Module Simulation.

(** The six [max(floor, photo_count * k)] of
    [simulate_realistic_processing], in seconds. *)
Definition init_time (photo_count : nat) : nat := Nat.max 120 (photo_count * 3).
Definition feature_time (photo_count : nat) : nat := Nat.max 480 (photo_count * 15).
Definition match_time (photo_count : nat) : nat := Nat.max 300 (photo_count * 8).
Definition sfm_time (photo_count : nat) : nat := Nat.max 300 (photo_count * 10).
Definition dense_time (photo_count : nat) : nat := Nat.max 600 (photo_count * 20).
Definition mesh_time (photo_count : nat) : nat := Nat.max 180 (photo_count * 5).

Definition planned (photo_count : nat) : nat :=
  init_time photo_count + feature_time photo_count + match_time photo_count
  + sfm_time photo_count + dense_time photo_count + mesh_time photo_count.

(** [for i in range(0, t, step): ...; time.sleep(step)]: seconds slept. *)
Definition loop_sleep (t step : nat) : nat :=
  step * List.length (range3 0 t step).

(** The seconds [simulate_realistic_processing] sleeps: one per iteration
    of the first loop, one cadence per iteration of the others. *)
Definition seconds_slept (photo_count : nat) : nat :=
  List.length (range (init_time photo_count))
  + loop_sleep (feature_time photo_count) 30
  + loop_sleep (match_time photo_count) 30
  + loop_sleep (sfm_time photo_count) 45
  + loop_sleep (dense_time photo_count) 60
  + loop_sleep (mesh_time photo_count) 30.

End Simulation.

(** ** Texture and normal indices of the faces *)

Module Texture.

Definition count_vt (rs : list ObjRecord) : nat := List.length (filter is_vt rs).
Definition count_vn (rs : list ObjRecord) : nat := List.length (filter is_vn rs).

Definition index_within (seen : nat) (i : option nat) : bool :=
  match i with
  | None => true
  | Some t => Nat.leb 1 t && Nat.leb t seen
  end.

Definition corner_backed (seen_vt seen_vn : nat) (k : Corner) : bool :=
  index_within seen_vt (cvt k) && index_within seen_vn (cvn k).

(** Walk the records in file order with the numbers of [vt] and [vn]
    records passed so far; the texture and normal index of every face
    corner must stay within them. *)
Fixpoint backed (seen_vt seen_vn : nat) (rs : list ObjRecord) : bool :=
  match rs with
  | [] => true
  | OVt _ :: rs' => backed (S seen_vt) seen_vn rs'
  | OVn _ :: rs' => backed seen_vt (S seen_vn) rs'
  | OF a b c :: rs' =>
      corner_backed seen_vt seen_vn a && corner_backed seen_vt seen_vn b
      && corner_backed seen_vt seen_vn c && backed seen_vt seen_vn rs'
  | OV _ :: rs' => backed seen_vt seen_vn rs'
  end.

(** The same requirement on positions in the file. *)
Definition no_forward_texture (rs : list ObjRecord) : Prop :=
  forall pre a b c post, rs = (pre ++ OF a b c :: post)%list ->
    forall k, In k [a; b; c] ->
      (forall t, cvt k = Some t -> 1 <= t <= count_vt pre) /\
      (forall m, cvn k = Some m -> 1 <= m <= count_vn pre).

End Texture.

(** ** The command line of the control panel *)

Module History.

(** The ASCII characters [str.strip] removes. *)
Definition is_space (c : ascii) : bool :=
  let n := nat_of_ascii c in
  (Nat.leb 9 n && Nat.leb n 13) || (Nat.leb 28 n && Nat.leb n 32).

Fixpoint lstrip (s : string) : string :=
  match s with
  | "" => ""
  | String c s' => if is_space c then lstrip s' else s
  end.

Fixpoint rstrip (s : string) : string :=
  match s with
  | "" => ""
  | String c s' =>
      match rstrip s' with
      | "" => if is_space c then "" else String c ""
      | r => String c r
      end
  end.

(** [s.strip()] on ASCII text. *)
Definition strip (s : string) : string := rstrip (lstrip s).

(** [xs[i]] of a Python list: a negative index counts from the end, an
    index out of range raises [IndexError] ([None]). *)
Definition item (xs : list string) (i : Z) : option string :=
  let len := Z.of_nat (List.length xs) in
  if (0 <=? i)%Z && (i <? len)%Z then nth_error xs (Z.to_nat i)
  else if (- len <=? i)%Z && (i <? 0)%Z then nth_error xs (Z.to_nat (len + i))
  else None.

(** [command_history], [history_index] and the text of [command_entry]. *)
Record State : Type := {
  command_history : list string;
  history_index : Z;
  command_entry : string
}.

(** [setup_variables], with an empty entry. *)
Definition initial : State :=
  {| command_history := []; history_index := 0; command_entry := "" |}.

Definition known (c : string) (h : list string) : bool :=
  existsb (String.eqb c) h.

(** [execute_command]: the new state and the command handed to
    [run_command_in_terminal], if any. *)
Definition execute_command (s : State) : State * option string :=
  let command := strip (command_entry s) in
  if String.eqb command "" then (s, None)
  else
    let h := if known command (command_history s)
             then command_history s
             else (command_history s ++ [command])%list in
    ({| command_history := h;
        history_index := Z.of_nat (List.length h);
        command_entry := "" |},
     Some command).

(** [history_up]; [None] when the list access raises. *)
Definition history_up (s : State) : option State :=
  match command_history s with
  | _ :: _ =>
      if (0 <? history_index s)%Z then
        option_map
          (fun c => {| command_history := command_history s;
                       history_index := history_index s - 1;
                       command_entry := c |})
          (item (command_history s) (history_index s - 1))
      else Some s
  | [] => Some s
  end.

(** [history_down]. *)
Definition history_down (s : State) : option State :=
  let len := Z.of_nat (List.length (command_history s)) in
  let clear := {| command_history := command_history s;
                  history_index := len;
                  command_entry := "" |} in
  match command_history s with
  | _ :: _ =>
      if (history_index s <? len - 1)%Z then
        option_map
          (fun c => {| command_history := command_history s;
                       history_index := history_index s + 1;
                       command_entry := c |})
          (item (command_history s) (history_index s + 1))
      else if (len - 1 <=? history_index s)%Z then Some clear
      else Some s
  | [] =>
      if (len - 1 <=? history_index s)%Z then Some clear else Some s
  end.

(** What the operator does at the command line. *)
Inductive Key : Type :=
  | Typed (text : string)   (* replaces the text of the entry *)
  | Enter
  | Up
  | Down.

Definition press (k : Key) (s : State) : option State :=
  match k with
  | Typed text =>
      Some {| command_history := command_history s;
              history_index := history_index s;
              command_entry := text |}
  | Enter => Some (fst (execute_command s))
  | Up => history_up s
  | Down => history_down s
  end.

Fixpoint session (keys : list Key) (s : State) : option State :=
  match keys with
  | [] => Some s
  | k :: keys' =>
      match press k s with
      | Some s' => session keys' s'
      | None => None
      end
  end.

(** The index points at an entry or just past the last one; no command
    is stored twice; no stored command is empty. *)
Definition well_kept (s : State) : Prop :=
  (0 <= history_index s <= Z.of_nat (List.length (command_history s)))%Z /\
  NoDup (command_history s) /\
  ~ In "" (command_history s).

End History.

(** ** The status indicators of the control panel *)

Module Indicators.

(** One [subprocess.run(cmd, shell=True, capture_output=True, timeout=10)]
    of [refresh_all_status]: the exit status and the output, or an
    exception (the bare [except:] catches every one). *)
Inductive Shell : Type :=
  | Returned (returncode : Z) (stdout : string)
  | Raised.

Definition green : string := "#4CAF50".
Definition orange : string := "#ff9800".
Definition red : string := "#f44336".

(** The Docker and Kubernetes indicators: text and colour. *)
Definition service_status (r : Shell) : string * string :=
  match r with
  | Returned rc _ =>
      if (rc =? 0)%Z then ("Running", green) else ("Not Running", red)
  | Raised => ("Error", red)
  end.

(** The pods indicator, from [kubectl get pods -n meshroom]. *)
Definition pods_status (r : Shell) : string * string :=
  match r with
  | Returned rc out =>
      if (rc =? 0)%Z then
        if contains "Running" out then ("Running", green)
        else if contains "No resources found" out then ("Not Deployed", orange)
        else ("Pending", orange)
      else ("Namespace Missing", orange)
  | Raised => ("Error", red)
  end.

(** The storage indicator, from [kubectl get pvc -n meshroom]. *)
Definition storage_status (r : Shell) : string * string :=
  match r with
  | Returned rc out =>
      if (rc =? 0)%Z then
        if contains "Bound" out then ("Ready", green)
        else if contains "No resources found" out then ("Not Configured", orange)
        else ("Pending", orange)
      else ("Namespace Missing", orange)
  | Raised => ("Error", red)
  end.

(** What [subprocess.run(..., check=True)] of the scripts makes of the
    same exit status and output. *)
Definition checked (rc : Z) (out : string) : Run.Called :=
  if (rc =? 0)%Z then Run.Report out else Run.NonZeroExit.

End Indicators.

(* ================================================================== *)
(** * Properties *)
(* ================================================================== *)

(** ** Facts about texts *)

Section TextFacts.

Lemma append_assoc (a b c : string) : (a ++ b) ++ c = a ++ (b ++ c).
Proof. induction a as [|x a IH]; simpl; [reflexivity|now rewrite IH]. Qed.

Lemma append_nil_r (a : string) : a ++ "" = a.
Proof. induction a as [|x a IH]; simpl; [reflexivity|now rewrite IH]. Qed.

Lemma all_chars_app p (a b : string) :
  all_chars p (a ++ b) = all_chars p a && all_chars p b.
Proof.
  induction a as [|c a IH]; simpl; [reflexivity|].
  now rewrite IH, andb_assoc.
Qed.

Lemma all_chars_weaken (p q : ascii -> bool) (s : string) :
  (forall c, p c = true -> q c = true) ->
  all_chars p s = true -> all_chars q s = true.
Proof.
  intros Hpq. induction s as [|c s IH]; simpl; [easy|].
  rewrite !andb_true_iff. intros [Hc Hs]. auto.
Qed.

Lemma numeric_char_not_LF c :
  numeric_char c = true -> negb (Ascii.eqb c LF) = true.
Proof.
  intros H. destruct (Ascii.eqb_spec c LF) as [->|]; [discriminate H|reflexivity].
Qed.

Lemma numeric_char_not_backslash c :
  numeric_char c = true -> Ascii.eqb c backslash = false.
Proof.
  intros H. destruct (Ascii.eqb_spec c backslash) as [->|];
    [discriminate H|reflexivity].
Qed.

Lemma numeric_no_LF s : numeric s = true -> no_LF s = true.
Proof. apply all_chars_weaken, numeric_char_not_LF. Qed.

Lemma uint_numeric (u : Decimal.uint) :
  numeric (NilEmpty.string_of_uint u) = true.
Proof. induction u; simpl; auto. Qed.

Lemma str_numeric n : numeric (str n) = true.
Proof. apply uint_numeric. Qed.

Lemma str_no_LF n : no_LF (str n) = true.
Proof. apply numeric_no_LF, str_numeric. Qed.

Lemma no_LF_app a b : no_LF a = true -> no_LF b = true -> no_LF (a ++ b) = true.
Proof. unfold no_LF. intros Ha Hb. now rewrite all_chars_app, Ha, Hb. Qed.

Lemma str_nonempty n : str n <> "".
Proof.
  unfold str. intros E.
  pose proof (NilEmpty.usu (Nat.to_uint n)) as H. rewrite E in H. simpl in H.
  injection H as H.
  pose proof (Unsigned.of_to n) as Hn. rewrite <- H in Hn. simpl in Hn.
  subst n. discriminate H.
Qed.

Lemma parse_str n : parse_nat (str n) = Some n.
Proof.
  unfold parse_nat. destruct (str n) eqn:E; [now apply str_nonempty in E|].
  rewrite <- E. unfold str. rewrite NilEmpty.usu. simpl.
  now rewrite Unsigned.of_to.
Qed.

Lemma lines_line l rest :
  no_LF l = true -> lines (l ++ String LF rest) = l :: lines rest.
Proof.
  unfold no_LF.
  induction l as [|c l IH]; simpl; [reflexivity|].
  rewrite andb_true_iff. intros [Hc Hl].
  destruct (Ascii.eqb c LF); [discriminate Hc|].
  now rewrite (IH Hl).
Qed.

Lemma lines_block ls rest :
  Forall (fun l => no_LF l = true) ls ->
  lines (block ls ++ rest) = (ls ++ lines rest)%list.
Proof.
  induction 1 as [|l ls Hl _ IH]; simpl; [reflexivity|].
  rewrite append_assoc. simpl. rewrite lines_line by assumption.
  now rewrite IH.
Qed.

Lemma lines_unterminated s :
  no_LF s = true -> s <> "" -> lines s = [s].
Proof.
  unfold no_LF. induction s as [|c s IH]; [easy|]. simpl.
  rewrite andb_true_iff. intros [Hc Hs] _.
  destruct (Ascii.eqb c LF); [discriminate Hc|].
  destruct s as [|c' s']; [reflexivity|].
  now rewrite IH.
Qed.

Lemma append_each_flat content xs piece :
  append_each content xs piece = content ++ flat (map piece xs).
Proof.
  unfold append_each. revert content.
  induction xs as [|x xs IH]; intros content; simpl.
  - now rewrite append_nil_r.
  - now rewrite IH, append_assoc.
Qed.

Lemma fold_left_flat {A} (f : A -> string) xs content :
  fold_left (fun acc r => acc ++ f r) xs content = content ++ flat (map f xs).
Proof.
  revert content. induction xs as [|x xs IH]; intros content; simpl.
  - now rewrite append_nil_r.
  - now rewrite IH, append_assoc.
Qed.

Lemma flat_no_LF xs :
  Forall (fun x => no_LF x = true) xs -> no_LF (flat xs) = true.
Proof.
  induction 1 as [|x xs Hx _ IH]; simpl; [reflexivity|now apply no_LF_app].
Qed.

Lemma prefix_nil s : String.prefix "" s = true.
Proof. now destruct s. Qed.

Lemma prefix_cons_eq a p s :
  String.prefix (String a p) (String a s) = String.prefix p s.
Proof.
  cbn [String.prefix]. destruct (ascii_dec a a) as [_|N]; [reflexivity|now elim N].
Qed.

Lemma prefix_cons_ne a b p s :
  Ascii.eqb a b = false -> String.prefix (String a p) (String b s) = false.
Proof.
  intros H. cbn [String.prefix]. destruct (ascii_dec a b) as [->|_];
    [now rewrite Ascii.eqb_refl in H|reflexivity].
Qed.

Lemma count_skip_here pat c s :
  count_skip pat (String c s) 0 =
  if String.prefix pat (String c s)
  then S (count_skip pat s (String.length pat - 1))
  else count_skip pat s 0.
Proof. reflexivity. Qed.

Lemma count_record fields rest :
  numeric fields = true ->
  count_skip esc_n (fields ++ esc_n ++ rest) 0 = S (count_skip esc_n rest 0).
Proof.
  unfold numeric, esc_n. induction fields as [|c f IH]; cbn [all_chars append].
  - intros _. rewrite count_skip_here, !prefix_cons_eq, prefix_nil. reflexivity.
  - rewrite andb_true_iff. intros [Hc Hf].
    apply numeric_char_not_backslash in Hc. rewrite Ascii.eqb_sym in Hc.
    rewrite count_skip_here, prefix_cons_ne by assumption.
    now apply IH.
Qed.

Lemma count_records (fields : nat -> string) xs :
  (forall i, numeric (fields i) = true) ->
  count (flat (map (fun i => fields i ++ esc_n) xs)) esc_n = List.length xs.
Proof.
  intros H. unfold count. induction xs as [|x xs IH]; simpl; [reflexivity|].
  rewrite append_assoc, count_record by apply H. now rewrite IH.
Qed.

Lemma records_no_LF (fields : nat -> string) xs :
  (forall i, numeric (fields i) = true) ->
  no_LF (flat (map (fun i => fields i ++ esc_n) xs)) = true.
Proof.
  intros H. apply flat_no_LF, Forall_forall. intros x Hx.
  apply in_map_iff in Hx as (i & <- & _).
  apply no_LF_app; [apply numeric_no_LF, H|reflexivity].
Qed.

Lemma records_nonempty (fields : nat -> string) xs :
  xs <> [] -> flat (map (fun i => fields i ++ esc_n) xs) <> "".
Proof.
  destruct xs as [|x xs]; [easy|]. intros _. simpl.
  destruct (fields x); discriminate.
Qed.

End TextFacts.

(** ** The point-cloud files *)

Arguments str : simpl never.

Section PointCloud.

Variable fields : nat -> string.
Hypothesis fields_numeric : forall i, numeric (fields i) = true.

(** A header block followed by [m] records, each closed by [esc_n], has
    the header's lines and, when [m > 0], ONE more physical line that
    holds all the records. *)
Lemma cloud_lines hl m :
  Forall (fun l => no_LF l = true) hl ->
  lines (append_each (block hl) (range m) (fun i => fields i ++ esc_n)) =
  List.app hl match m with
              | 0 => []
              | _ => [flat (map (fun i => fields i ++ esc_n) (range m))]
              end.
Proof.
  intros Hhl. rewrite append_each_flat, lines_block by assumption.
  f_equal. destruct m as [|m]; [reflexivity|].
  apply lines_unterminated.
  - now apply records_no_LF.
  - apply records_nonempty. unfold range. simpl. discriminate.
Qed.

Lemma cloud_body_count m :
  count (flat (map (fun i => fields i ++ esc_n) (range m))) esc_n = m.
Proof.
  rewrite count_records by assumption. unfold range. apply length_seq.
Qed.

Lemma cloud_emitted m :
  list_sum (map (fun l => count l esc_n)
              match m with
              | 0 => []
              | _ => [flat (map (fun i => fields i ++ esc_n) (range m))]
              end) = m.
Proof.
  destruct m as [|m]; [reflexivity|]. cbn [map list_sum].
  rewrite cloud_body_count. apply Nat.add_0_r.
Qed.

End PointCloud.

Ltac no_LF_text :=
  lazymatch goal with
  | |- no_LF (_ ++ _) = true => apply no_LF_app; no_LF_text
  | |- no_LF (str _) = true => apply str_no_LF
  | |- _ => assumption || (vm_compute; reflexivity)
  end.

Ltac no_LF_lines :=
  repeat (apply Forall_cons; [no_LF_text|]); apply Forall_nil.

Lemma actual_ply_lines d n :
  well_rendered d ->
  lines (Actual.create_valid_ply_file d n) =
  List.app (lines (Actual.ply_header n))
    match Actual.num_points n with
    | 0 => []
    | _ => [flat (map (fun i => ply_fields d i ++ esc_n) (range (Actual.num_points n)))]
    end.
Proof.
  intros (Hp & _). unfold Actual.create_valid_ply_file, Actual.ply_header.
  rewrite cloud_lines; [|assumption|no_LF_lines].
  f_equal.
  rewrite <- (append_nil_r (block _)) at 1.
  rewrite lines_block by no_LF_lines. now rewrite app_nil_r.
Qed.

Lemma declared_in_here l ls n :
  declared_in (("element vertex " ++ str n) :: l :: ls) = Some n.
Proof.
  cbn [declared_in]. unfold startswith.
  change ("element vertex " ++ str n)
    with (String "e" (String "l" (String "e" (String "m" (String "e"
         (String "n" (String "t" (String " " (String "v" (String "e"
         (String "r" (String "t" (String "e" (String "x" (String " "
         (str n)))))))))))))))).
  change "element vertex "
    with (String "e" (String "l" (String "e" (String "m" (String "e"
         (String "n" (String "t" (String " " (String "v" (String "e"
         (String "r" (String "t" (String "e" (String "x" (String " "
         ""))))))))))))))).
  rewrite !prefix_cons_eq, prefix_nil. cbn [drop]. apply parse_str.
Qed.

Lemma declared_in_skip l ls :
  startswith l "element vertex " = false ->
  declared_in (l :: ls) = declared_in ls.
Proof. intros H. cbn [declared_in]. now rewrite H. Qed.

Lemma after_end_header_skip l ls :
  String.eqb l "end_header" = false ->
  after_end_header (l :: ls) = after_end_header ls.
Proof. intros H. cbn [after_end_header]. now rewrite H. Qed.

Lemma after_end_header_here ls : after_end_header ("end_header" :: ls) = ls.
Proof. reflexivity. Qed.

Ltac skip_to_count :=
  repeat (rewrite declared_in_skip by reflexivity);
  rewrite declared_in_here.

Ltac skip_to_data :=
  repeat (rewrite after_end_header_skip by reflexivity);
  rewrite after_end_header_here.

Lemma actual_ply_declared d n :
  well_rendered d ->
  declared_vertex_count (Actual.create_valid_ply_file d n) =
  Some (Actual.num_points n).
Proof.
  intros Hd. unfold declared_vertex_count. rewrite actual_ply_lines by assumption.
  unfold Actual.ply_header.
  rewrite <- (append_nil_r (block _)), lines_block by no_LF_lines.
  cbn [List.app lines]. now skip_to_count.
Qed.

Lemma actual_ply_data_lines d n :
  well_rendered d ->
  data_lines (Actual.create_valid_ply_file d n) =
  match Actual.num_points n with
  | 0 => []
  | _ => [flat (map (fun i => ply_fields d i ++ esc_n) (range (Actual.num_points n)))]
  end.
Proof.
  intros Hd. unfold data_lines. rewrite actual_ply_lines by assumption.
  unfold Actual.ply_header.
  rewrite <- (append_nil_r (block _)), lines_block by no_LF_lines.
  cbn [List.app lines]. now skip_to_data.
Qed.

Lemma run_a_rendered : well_rendered run_a.
Proof. repeat split; intros; reflexivity. Qed.

Lemma run_b_rendered : well_rendered run_b.
Proof. repeat split; intros; reflexivity. Qed.

Lemma actual_ply_emitted d n :
  well_rendered d ->
  emitted_vertex_records (Actual.create_valid_ply_file d n) = Actual.num_points n.
Proof.
  intros Hd. unfold emitted_vertex_records.
  rewrite actual_ply_data_lines by assumption.
  destruct Hd as (Hp & _).
  exact (cloud_emitted (ply_fields d) Hp (Actual.num_points n)).
Qed.

Lemma realistic_ply_lines d n name st :
  well_rendered d -> no_LF name = true ->
  lines (Realistic.ply_file d n name st) =
  List.app (lines (Realistic.ply_header n name st))
    match Realistic.dense_points st with
    | 0 => []
    | _ => [flat (map (fun i => ply_fields d i ++ esc_n)
                   (range (Realistic.dense_points st)))]
    end.
Proof.
  intros (Hp & _) Hn. unfold Realistic.ply_file, Realistic.ply_header.
  rewrite cloud_lines; [|assumption|no_LF_lines].
  f_equal.
  rewrite <- (append_nil_r (block _)) at 1.
  rewrite lines_block by no_LF_lines. now rewrite app_nil_r.
Qed.

Lemma realistic_ply_declared d n name st :
  well_rendered d -> no_LF name = true ->
  declared_vertex_count (Realistic.ply_file d n name st) =
  Some (Realistic.dense_points st).
Proof.
  intros Hd Hn. unfold declared_vertex_count.
  rewrite realistic_ply_lines by assumption. unfold Realistic.ply_header.
  rewrite <- (append_nil_r (block _)), lines_block by no_LF_lines.
  cbn [List.app lines]. now skip_to_count.
Qed.

Lemma realistic_ply_data_lines d n name st :
  well_rendered d -> no_LF name = true ->
  data_lines (Realistic.ply_file d n name st) =
  match Realistic.dense_points st with
  | 0 => []
  | _ => [flat (map (fun i => ply_fields d i ++ esc_n)
                 (range (Realistic.dense_points st)))]
  end.
Proof.
  intros Hd Hn. unfold data_lines.
  rewrite realistic_ply_lines by assumption. unfold Realistic.ply_header.
  rewrite <- (append_nil_r (block _)), lines_block by no_LF_lines.
  cbn [List.app lines]. now skip_to_data.
Qed.

Lemma native_ply_lines d n :
  well_rendered d ->
  lines (Native.ply_file d n) =
  List.app (lines (Native.ply_header n))
    match n * 2000 with
    | 0 => []
    | _ => [flat (map (fun i => ply_fields d i ++ esc_n) (range (n * 2000)))]
    end.
Proof.
  intros (Hp & _). unfold Native.ply_file, Native.ply_header.
  rewrite cloud_lines; [|assumption|no_LF_lines].
  f_equal.
  rewrite <- (append_nil_r (block _)) at 1.
  rewrite lines_block by no_LF_lines. now rewrite app_nil_r.
Qed.

Lemma native_ply_declared d n :
  well_rendered d ->
  declared_vertex_count (Native.ply_file d n) = Some (n * 2000).
Proof.
  intros Hd. unfold declared_vertex_count.
  rewrite native_ply_lines by assumption. unfold Native.ply_header.
  rewrite <- (append_nil_r (block _)), lines_block by no_LF_lines.
  cbn [List.app lines]. now skip_to_count.
Qed.

Lemma native_ply_data_lines d n :
  well_rendered d ->
  data_lines (Native.ply_file d n) =
  match n * 2000 with
  | 0 => []
  | _ => [flat (map (fun i => ply_fields d i ++ esc_n) (range (n * 2000)))]
  end.
Proof.
  intros Hd. unfold data_lines.
  rewrite native_ply_lines by assumption. unfold Native.ply_header.
  rewrite <- (append_nil_r (block _)), lines_block by no_LF_lines.
  cbn [List.app lines]. now skip_to_data.
Qed.

(** C10.  For every photo count [n >= 0], the vertex count that
    [create_valid_ply_file] declares in its header and the number of
    vertex records it emits are both [min(100*n, 5000)]; the point cloud
    never holds more than 5000 vertices, and the count does not decrease
    when [n] grows. *)
Theorem create_valid_ply_file_vertex_count (d : Numerics) :
  well_rendered d ->
  (forall n,
     declared_vertex_count (Actual.create_valid_ply_file d n)
       = Some (Nat.min (100 * n) 5000) /\
     emitted_vertex_records (Actual.create_valid_ply_file d n)
       = Nat.min (100 * n) 5000 /\
     emitted_vertex_records (Actual.create_valid_ply_file d n) <= 5000) /\
  (forall n n', n <= n' ->
     emitted_vertex_records (Actual.create_valid_ply_file d n)
       <= emitted_vertex_records (Actual.create_valid_ply_file d n')).
Proof.
  intros Hd. split.
  - intros n. rewrite actual_ply_declared, actual_ply_emitted by assumption.
    unfold Actual.num_points. rewrite (Nat.mul_comm 100 n).
    repeat split. apply Nat.le_min_r.
  - intros n n' Hle. rewrite !actual_ply_emitted by assumption.
    unfold Actual.num_points. apply Nat.min_le_compat_r.
    now apply Nat.mul_le_mono_r.
Qed.

Lemma create_valid_ply_file_vertex_count_witness :
  well_rendered run_a /\
  (forall n,
     declared_vertex_count (Actual.create_valid_ply_file run_a n)
       = Some (Nat.min (100 * n) 5000) /\
     emitted_vertex_records (Actual.create_valid_ply_file run_a n)
       = Nat.min (100 * n) 5000 /\
     emitted_vertex_records (Actual.create_valid_ply_file run_a n) <= 5000) /\
  (forall n n', n <= n' ->
     emitted_vertex_records (Actual.create_valid_ply_file run_a n)
       <= emitted_vertex_records (Actual.create_valid_ply_file run_a n')).
Proof.
  assert (H : well_rendered run_a) by (repeat split; intros; reflexivity).
  split; [exact H|].
  exact (create_valid_ply_file_vertex_count run_a H).
Defined.

(** C1, evaluated at one photo.  Each generator closes a vertex record
    with the two characters backslash and n, not with a line feed, so all
    the records share ONE physical line after [end_header]; the headers
    announce 100 ([create_valid_ply_file]) and 2000
    ([create_realistic_output_files], [create_output_files]) vertices.  The
    announced count therefore is not the number of data lines. *)
Theorem ply_header_count_is_not_the_data_line_count :
  (declared_vertex_count (Actual.create_valid_ply_file run_a 1) = Some 100 /\
   List.length (data_lines (Actual.create_valid_ply_file run_a 1)) = 1 /\
   ~ header_matches_data_lines (Actual.create_valid_ply_file run_a 1)) /\
  (let file := Realistic.ply_file run_a 1 sample_session
                 (Realistic.stats_of "32.0" 1) in
   declared_vertex_count file = Some 2000 /\
   List.length (data_lines file) = 1 /\
   ~ header_matches_data_lines file) /\
  (declared_vertex_count (Native.ply_file run_a 1) = Some 2000 /\
   List.length (data_lines (Native.ply_file run_a 1)) = 1 /\
   ~ header_matches_data_lines (Native.ply_file run_a 1)).
Proof.
  pose proof run_a_rendered as Hd.
  unfold header_matches_data_lines. cbv zeta.
  rewrite actual_ply_declared, actual_ply_data_lines by assumption.
  rewrite realistic_ply_declared, realistic_ply_data_lines
    by (assumption || reflexivity).
  rewrite native_ply_declared, native_ply_data_lines by assumption.
  change (Actual.num_points 1) with 100.
  change (Realistic.dense_points (Realistic.stats_of "32.0" 1)) with 2000.
  change (1 * 2000) with 2000.
  cbn [List.length].
  repeat split; discriminate.
Qed.

(** ** The mesh files *)

Section MeshFacts.

Lemma count_v_app (xs ys : list ObjRecord) :
  count_v (xs ++ ys) = count_v xs + count_v ys.
Proof. unfold count_v. now rewrite filter_app, length_app. Qed.

Lemma corner_within_spec seen k :
  corner_within seen k = true <-> 1 <= cv k <= seen.
Proof.
  unfold corner_within. rewrite andb_true_iff, !Nat.leb_le. tauto.
Qed.

(** The walk is sound for the positional statement. *)
Lemma faces_backward_sound rs : forall seen,
  faces_backward seen rs = true ->
  forall pre a b c post, rs = (pre ++ OF a b c :: post)%list ->
  forall k, In k [a; b; c] -> 1 <= cv k <= seen + count_v pre.
Proof.
  induction rs as [|r rs IH]; intros seen Hw pre a b c post E k Hk.
  - now destruct pre.
  - destruct pre as [|p pre]; simpl in E; injection E as -> ->.
    + simpl in Hw. rewrite !andb_true_iff in Hw.
      destruct Hw as [[[Ha Hb] Hc] _].
      rewrite corner_within_spec in Ha, Hb, Hc.
      unfold count_v. simpl. rewrite Nat.add_0_r.
      destruct Hk as [<-|[<-|[<-|[]]]]; assumption.
    + destruct p as [f|f|f|a' b' c']; simpl in Hw.
      * specialize (IH (S seen) Hw pre a b c post eq_refl k Hk).
        unfold count_v in *. simpl. lia.
      * exact (IH seen Hw pre a b c post eq_refl k Hk).
      * exact (IH seen Hw pre a b c post eq_refl k Hk).
      * rewrite !andb_true_iff in Hw. destruct Hw as [_ Hw].
        exact (IH seen Hw pre a b c post eq_refl k Hk).
Qed.

Lemma backward_no_forward rs :
  faces_backward 0 rs = true -> no_forward_reference rs.
Proof.
  intros Hw pre a b c post E k Hk.
  exact (faces_backward_sound rs 0 Hw pre a b c post E k Hk).
Qed.

Lemma no_forward_in_range rs :
  no_forward_reference rs -> face_indices_in_range rs.
Proof.
  intros H a b c Hin k Hk.
  destruct (in_split _ _ Hin) as (pre & post & E).
  specialize (H pre a b c post E k Hk).
  rewrite E, count_v_app. lia.
Qed.

Lemma faces_backward_vertices (f : nat -> string) xs rest seen :
  faces_backward seen (map (fun i => OV (f i)) xs ++ rest) =
  faces_backward (seen + List.length xs) rest.
Proof.
  revert seen. induction xs as [|x xs IH]; intros seen; simpl.
  - now rewrite Nat.add_0_r.
  - rewrite IH. f_equal. lia.
Qed.

Lemma faces_backward_other (g : nat -> ObjRecord) xs rest seen :
  (forall i, is_v (g i) = false) -> (forall i, is_f (g i) = false) ->
  faces_backward seen (map g xs ++ rest) = faces_backward seen rest.
Proof.
  intros Hv Hf. induction xs as [|x xs IH]; simpl; [reflexivity|].
  specialize (Hv x). specialize (Hf x).
  destruct (g x); try discriminate; exact IH.
Qed.

Lemma faces_backward_triples (mk : nat -> Corner) xs seen :
  (forall i, cv (mk i) = i) ->
  (forall i, In i xs -> 1 <= i /\ i + 2 <= seen) ->
  faces_backward seen
    (map (fun i => OF (mk i) (mk (i + 1)) (mk (i + 2))) xs) = true.
Proof.
  intros Hmk. induction xs as [|x xs IH]; intros Hb; simpl; [reflexivity|].
  destruct (Hb x (or_introl eq_refl)) as [H1 H2].
  unfold corner_within. rewrite !Hmk.
  rewrite IH by (intros i Hi; apply Hb; now right).
  rewrite !andb_true_r, !andb_true_iff, !Nat.leb_le. lia.
Qed.

Lemma range_from_bounds fuel : forall start stop step i,
  In i (range_from fuel start stop step) -> start <= i < stop.
Proof.
  induction fuel as [|fuel IH]; intros start stop step i; simpl; [easy|].
  destruct (Nat.ltb_spec start stop) as [Hlt|]; [|easy].
  intros [<-|Hi]; [lia|]. apply IH in Hi. lia.
Qed.

Lemma range3_bounds start stop step i :
  In i (range3 start stop step) -> start <= i < stop.
Proof. apply range_from_bounds. Qed.

Lemma length_range n : List.length (range n) = n.
Proof. apply length_seq. Qed.

Lemma actual_backward d : faces_backward 0 (Actual.obj_records d) = true.
Proof. reflexivity. Qed.

Lemma realistic_backward d st :
  faces_backward 0 (Realistic.obj_records d st) = true.
Proof.
  unfold Realistic.obj_records.
  rewrite faces_backward_vertices, length_range.
  rewrite (faces_backward_other (fun i => OVt (obj_vt_fields d i))) by reflexivity.
  apply faces_backward_triples; [reflexivity|].
  intros i Hi. apply range3_bounds in Hi. simpl. lia.
Qed.

Lemma native_backward d n : faces_backward 0 (Native.obj_records d n) = true.
Proof.
  unfold Native.obj_records.
  rewrite faces_backward_vertices, length_range.
  rewrite (faces_backward_other (fun i => OVt (obj_vt_fields d i))) by reflexivity.
  rewrite (faces_backward_other (fun i => OVn (obj_vn_fields d i))) by reflexivity.
  apply faces_backward_triples; [reflexivity|].
  intros i Hi. apply range3_bounds in Hi. simpl. lia.
Qed.

(** The 10 x 20 sphere of quick-valid-3d.py: 200 vertices, 342 faces,
    every face within the vertices written before it. *)
Lemma sphere_backward d :
  count_v (Quick.sphere_records d) = 200 /\
  count_f (Quick.sphere_records d) = 342 /\
  faces_backward 0 (Quick.sphere_records d) = true.
Proof. repeat split; reflexivity. Qed.

End MeshFacts.

Lemma count_v_vertices (f : nat -> string) xs rest :
  count_v (map (fun i => OV (f i)) xs ++ rest) = List.length xs + count_v rest.
Proof.
  rewrite count_v_app. f_equal. unfold count_v.
  induction xs as [|x xs IH]; simpl; [reflexivity|now rewrite IH].
Qed.

Lemma count_v_other (g : nat -> ObjRecord) xs :
  (forall i, is_v (g i) = false) -> count_v (map g xs) = 0.
Proof.
  intros Hv. unfold count_v. induction xs as [|x xs IH]; simpl; [reflexivity|].
  now rewrite Hv.
Qed.

Lemma realistic_count_v d t n :
  count_v (Realistic.obj_records d (Realistic.stats_of t n)) = 500 * n.
Proof.
  unfold Realistic.obj_records. rewrite count_v_vertices, length_range.
  rewrite count_v_app, !count_v_other by reflexivity.
  unfold Realistic.vertex_count, Realistic.stats_of. cbn [Realistic.mesh_faces].
  replace (n * 1000) with ((500 * n) * 2) by lia.
  rewrite Nat.div_mul by discriminate. lia.
Qed.

Lemma native_count_v d n : count_v (Native.obj_records d n) = 100 * n.
Proof.
  unfold Native.obj_records. rewrite count_v_vertices, length_range.
  rewrite !count_v_app, !count_v_other by reflexivity. lia.
Qed.

(** C2.  For every photo count [n], every face record of a generated OBJ
    file references only vertex indices between 1 and the number of [v]
    records of the file, and every referenced index belongs to a [v]
    record that stands earlier in the file.  This holds for the
    12-vertex, 20-face icosahedron of [create_valid_obj_file] and for the
    meshes of [create_realistic_output_files] (500*n vertices) and
    [create_output_files] (100*n vertices). *)
Theorem obj_faces_reference_earlier_vertices
    (d : Numerics) (time_text : string) (n : nat) :
  (count_v (Actual.obj_records d) = 12 /\
   count_f (Actual.obj_records d) = 20 /\
   face_indices_in_range (Actual.obj_records d) /\
   no_forward_reference (Actual.obj_records d)) /\
  (count_v (Realistic.obj_records d (Realistic.stats_of time_text n)) = 500 * n /\
   face_indices_in_range (Realistic.obj_records d (Realistic.stats_of time_text n)) /\
   no_forward_reference (Realistic.obj_records d (Realistic.stats_of time_text n))) /\
  (count_v (Native.obj_records d n) = 100 * n /\
   face_indices_in_range (Native.obj_records d n) /\
   no_forward_reference (Native.obj_records d n)).
Proof.
  pose proof (backward_no_forward _ (actual_backward d)) as Ha.
  pose proof (backward_no_forward _
                (realistic_backward d (Realistic.stats_of time_text n))) as Hr.
  pose proof (backward_no_forward _ (native_backward d n)) as Hn.
  split; [|split].
  - split; [reflexivity|]. split; [reflexivity|].
    split; [now apply no_forward_in_range|exact Ha].
  - split; [apply realistic_count_v|].
    split; [now apply no_forward_in_range|exact Hr].
  - split; [apply native_count_v|].
    split; [now apply no_forward_in_range|exact Hn].
Qed.

(** ** The printable solids *)

Lemma well_formed_names file name expected :
  Stl.well_formed file name expected ->
  Stl.names (Stl.opening_name file) name = true.
Proof. intros (-> & _). simpl. apply String.eqb_refl. Qed.

Section FacetCount.

Lemma numeric_no_f s : numeric s = true -> no_f s = true.
Proof.
  apply all_chars_weaken. intros c H.
  destruct (Ascii.eqb_spec c "f") as [->|]; [discriminate H|reflexivity].
Qed.

Lemma no_f_app a b : no_f a = true -> no_f b = true -> no_f (a ++ b) = true.
Proof. unfold no_f. intros Ha Hb. now rewrite all_chars_app, Ha, Hb. Qed.

Lemma count_skip_skip pat c s k :
  count_skip pat (String c s) (S k) = count_skip pat s k.
Proof. reflexivity. Qed.

(** A stretch without the letter f holds no start of a match. *)
Lemma count_pass a rest :
  no_f a = true ->
  count_skip Stl.facet_keyword (a ++ rest) 0
    = count_skip Stl.facet_keyword rest 0.
Proof.
  unfold no_f, Stl.facet_keyword.
  induction a as [|c a IH]; cbn [all_chars append]; [easy|].
  rewrite andb_true_iff, negb_true_iff. intros [Hc Ha].
  rewrite Ascii.eqb_sym in Hc.
  rewrite count_skip_here, prefix_cons_ne by assumption. now apply IH.
Qed.

Lemma count_pass_end a : no_f a = true -> count_skip Stl.facet_keyword a 0 = 0.
Proof.
  intros H. rewrite <- (append_nil_r a). now rewrite count_pass.
Qed.

Lemma count_match rest :
  count_skip Stl.facet_keyword ("facet normal" ++ rest) 0
    = S (count_skip Stl.facet_keyword rest 0).
Proof.
  unfold Stl.facet_keyword. cbn [append].
  rewrite count_skip_here, !prefix_cons_eq, prefix_nil.
  change (String.length "facet normal" - 1) with 11.
  now rewrite !count_skip_skip.
Qed.

(** [endfacet] is followed by a backslash: no match starts there. *)
Lemma count_endfacet rest :
  count_skip Stl.facet_keyword ("facet" ++ esc_n ++ rest) 0
    = count_skip Stl.facet_keyword rest 0.
Proof.
  unfold Stl.facet_keyword, esc_n. cbn [append].
  rewrite count_skip_here, !prefix_cons_eq, prefix_cons_ne by reflexivity.
  exact (count_pass "acet\n" rest eq_refl).
Qed.

Lemma facet_split d i rest :
  Native.facet d i ++ rest =
  "  " ++ "facet normal" ++
  (" 0.0 0.0 1.0" ++ esc_n ++ "    outer loop" ++ esc_n ++ "      vertex ") ++
  stl_fields d i 0 ++ (esc_n ++ "      vertex ") ++
  stl_fields d i 1 ++ (esc_n ++ "      vertex ") ++
  stl_fields d i 2 ++ (esc_n ++ "    endloop" ++ esc_n ++ "  end") ++
  "facet" ++ esc_n ++ rest.
Proof.
  unfold Native.facet. rewrite !append_assoc. reflexivity.
Qed.

Lemma count_facet d i rest :
  well_rendered d ->
  count_skip Stl.facet_keyword (Native.facet d i ++ rest) 0
    = S (count_skip Stl.facet_keyword rest 0).
Proof.
  intros (_ & _ & _ & _ & Hs). rewrite facet_split.
  rewrite count_pass by reflexivity. rewrite count_match.
  rewrite count_pass by reflexivity.
  rewrite count_pass by apply numeric_no_f, Hs.
  rewrite count_pass by reflexivity.
  rewrite count_pass by apply numeric_no_f, Hs.
  rewrite count_pass by reflexivity.
  rewrite count_pass by apply numeric_no_f, Hs.
  rewrite count_pass by reflexivity.
  now rewrite count_endfacet.
Qed.

Lemma count_facets d xs rest :
  well_rendered d ->
  count_skip Stl.facet_keyword (flat (map (Native.facet d) xs) ++ rest) 0 =
  List.length xs + count_skip Stl.facet_keyword rest 0.
Proof.
  intros Hd. induction xs as [|x xs IH]; [reflexivity|].
  cbn [map flat List.length]. rewrite append_assoc, count_facet by assumption.
  now rewrite IH.
Qed.

End FacetCount.

Section SolidFacts.

Variable d : Numerics.
Hypothesis rendered : well_rendered d.

Lemma realistic_facet_text i :
  flat (map (Realistic.facet_piece d i) (range 3)) = Native.facet d i.
Proof.
  unfold Realistic.facet_piece, Native.facet. cbn [range seq map flat Nat.eqb].
  rewrite !append_assoc. cbn [append].
  now rewrite ?append_nil_r.
Qed.

Lemma realistic_stl_text n st :
  Realistic.stl_file d n st =
  solid_text d (Realistic.solid_name n) (range (Realistic.mesh_faces st)).
Proof.
  unfold Realistic.stl_file, solid_text. cbv zeta.
  rewrite <- (append_assoc _ (flat _) _). f_equal.
  generalize (range (Realistic.mesh_faces st)) as xs.
  generalize ("solid " ++ Realistic.solid_name n ++ esc_n) as start.
  intros start xs. revert start.
  induction xs as [|x xs IH]; intros start; cbn [fold_left map flat].
  - now rewrite append_nil_r.
  - rewrite IH, append_each_flat, realistic_facet_text. apply append_assoc.
Qed.

Lemma native_stl_text n :
  Native.stl_file d n = solid_text d (Native.solid_name n) (range (n * 50)).
Proof.
  unfold Native.stl_file, solid_text.
  now rewrite append_each_flat, append_assoc.
Qed.

Lemma prefix_app p rest : String.prefix p (p ++ rest) = true.
Proof.
  induction p as [|c p IH]; cbn [append]; [apply prefix_nil|].
  now rewrite prefix_cons_eq.
Qed.

Lemma substring_all p : String.substring 0 (String.length p) p = p.
Proof. induction p as [|c p IH]; cbn; [reflexivity|now rewrite IH]. Qed.

Lemma length_append a b :
  String.length (a ++ b) = String.length a + String.length b.
Proof. induction a as [|c a IH]; cbn; [reflexivity|now rewrite IH]. Qed.

Lemma endswith_app a p : endswith (a ++ p) p = true.
Proof.
  unfold endswith. cbv zeta. rewrite length_append.
  replace (String.length a + String.length p - String.length p)
    with (String.length a) by lia.
  rewrite andb_true_iff. split; [apply Nat.leb_le; lia|].
  apply String.eqb_eq.
  induction a as [|c a IH]; cbn [append String.length String.substring];
    [apply substring_all|exact IH].
Qed.

Lemma facet_no_LF i : no_LF (Native.facet d i) = true.
Proof.
  destruct rendered as (_ & _ & _ & _ & Hs).
  unfold Native.facet.
  repeat (apply no_LF_app;
          [first [apply numeric_no_LF, Hs | reflexivity]|]).
  reflexivity.
Qed.

Variable name : string.
Hypothesis name_no_LF : no_LF name = true.
Hypothesis name_no_f : no_f name = true.
Variable facets : list nat.

Lemma solid_startswith :
  startswith (solid_text d name facets) ("solid " ++ name) = true.
Proof.
  unfold startswith, solid_text.
  rewrite (append_assoc "solid " (name ++ esc_n)), (append_assoc name esc_n).
  rewrite <- (append_assoc "solid " name). apply prefix_app.
Qed.

Lemma solid_endswith :
  endswith (solid_text d name facets) ("endsolid " ++ name) = true.
Proof.
  unfold solid_text. rewrite <- (append_assoc _ (flat _) _).
  apply endswith_app.
Qed.

Lemma solid_facet_blocks :
  Stl.facet_blocks (solid_text d name facets) = List.length facets.
Proof.
  unfold Stl.facet_blocks, count, solid_text.
  rewrite count_pass
    by (apply no_f_app; [reflexivity|apply no_f_app; [assumption|reflexivity]]).
  rewrite count_facets by assumption.
  rewrite count_pass_end by (apply no_f_app; [reflexivity|assumption]).
  apply Nat.add_0_r.
Qed.

(** Nothing in the text is a line feed: the file is one physical line. *)
Lemma solid_lines :
  lines (solid_text d name facets) = [solid_text d name facets].
Proof.
  apply lines_unterminated; [|discriminate].
  unfold solid_text.
  apply no_LF_app; [no_LF_text|].
  apply no_LF_app; [|no_LF_text].
  apply flat_no_LF, Forall_forall. intros x Hx.
  apply in_map_iff in Hx as (i & <- & _). apply facet_no_LF.
Qed.

Lemma solid_closing_name : Stl.closing_name (solid_text d name facets) = None.
Proof.
  unfold Stl.closing_name. rewrite solid_lines. cbn [rev List.app].
  unfold startswith, solid_text. cbn [append].
  now rewrite prefix_cons_ne by reflexivity.
Qed.

Lemma solid_not_well_formed expected :
  ~ Stl.well_formed (solid_text d name facets) name expected.
Proof.
  intros (_ & H & _). rewrite solid_closing_name in H. discriminate H.
Qed.

End SolidFacts.

(** C3, evaluated at one photo.  [create_realistic_output_files] and
    [create_output_files] do write the text [solid Meshroom_1_Photos]
    first and [endsolid Meshroom_1_Photos] last, with 1000 and 50
    [facet normal] blocks in between; but every piece is closed by the two
    characters backslash and n, so the whole file is ONE physical line and
    neither its first nor its last line is the [solid] / [endsolid] line
    of that name.  The literal of [create_valid_stl] has real line breaks
    and is well formed, with 4 facets. *)
Theorem stl_generated_files_are_one_line :
  (let file := Realistic.stl_file run_a 1 (Realistic.stats_of "32.0" 1) in
   startswith file "solid Meshroom_1_Photos" = true /\
   endswith file "endsolid Meshroom_1_Photos" = true /\
   Stl.facet_blocks file = 1000 /\
   List.length (lines file) = 1 /\
   ~ Stl.well_formed file "Meshroom_1_Photos" 1000) /\
  (let file := Native.stl_file run_a 1 in
   startswith file "solid Meshroom_1_Photos" = true /\
   endswith file "endsolid Meshroom_1_Photos" = true /\
   Stl.facet_blocks file = 50 /\
   List.length (lines file) = 1 /\
   ~ Stl.well_formed file "Meshroom_1_Photos" 50) /\
  Stl.well_formed Quick.create_valid_stl "SimpleModel" 4.
Proof.
  pose proof run_a_rendered as Hd. cbv zeta.
  rewrite realistic_stl_text, native_stl_text.
  change (Realistic.solid_name 1) with "Meshroom_1_Photos".
  change (Native.solid_name 1) with "Meshroom_1_Photos".
  change (Realistic.mesh_faces (Realistic.stats_of "32.0" 1)) with 1000.
  change (1 * 50) with 50.
  assert (Hn : no_LF "Meshroom_1_Photos" = true) by reflexivity.
  assert (Hf : no_f "Meshroom_1_Photos" = true) by reflexivity.
  split; [|split].
  - split; [apply (solid_startswith run_a "Meshroom_1_Photos")|].
    split; [apply (solid_endswith run_a "Meshroom_1_Photos")|].
    split; [rewrite solid_facet_blocks by assumption; apply length_range|].
    split; [now rewrite solid_lines|].
    now apply solid_not_well_formed.
  - split; [apply (solid_startswith run_a "Meshroom_1_Photos")|].
    split; [apply (solid_endswith run_a "Meshroom_1_Photos")|].
    split; [rewrite solid_facet_blocks by assumption; apply length_range|].
    split; [now rewrite solid_lines|].
    now apply solid_not_well_formed.
  - split; [|split]; vm_compute; reflexivity.
Qed.

(** ** Listing the previous sessions *)

Section SessionFacts.

Lemma insert_perm x l : Permutation (x :: l) (Sessions.insert x l).
Proof.
  induction l as [|y l IH]; simpl; [reflexivity|].
  destruct (String.leb (Sessions.modified y) (Sessions.modified x)); [reflexivity|].
  rewrite perm_swap. now apply perm_skip.
Qed.

Lemma sort_perm l : Permutation l (Sessions.sort_newest_first l).
Proof.
  induction l as [|x l IH]; simpl; [reflexivity|].
  rewrite <- insert_perm. now apply perm_skip.
Qed.

Lemma insert_hd x y l :
  Sessions.not_newer y x -> HdRel Sessions.not_newer y l ->
  HdRel Sessions.not_newer y (Sessions.insert x l).
Proof.
  intros Hyx Hl. destruct l as [|z l]; simpl; [now constructor|].
  destruct (String.leb (Sessions.modified z) (Sessions.modified x)); constructor;
    [assumption|now inversion Hl].
Qed.

Lemma insert_sorted x l :
  Sorted Sessions.not_newer l -> Sorted Sessions.not_newer (Sessions.insert x l).
Proof.
  induction 1 as [|y l Hs IH Hhd]; simpl.
  - repeat constructor.
  - destruct (String.leb (Sessions.modified y) (Sessions.modified x)) eqn:E.
    + constructor; [now constructor|]. now constructor.
    + constructor; [exact IH|]. apply insert_hd; [|exact Hhd].
      unfold Sessions.not_newer.
      destruct (String.leb_total (Sessions.modified x) (Sessions.modified y)) as [H|H];
        [exact H|congruence].
Qed.

Lemma sort_sorted l : Sorted Sessions.not_newer (Sessions.sort_newest_first l).
Proof.
  induction l as [|x l IH]; simpl; [constructor|now apply insert_sorted].
Qed.

Lemma collect_all es :
  (forall e, In e es -> Sessions.is_session e = true -> Sessions.date e <> None) ->
  exists found, Sessions.collect es = Some found /\
    forall e, In e es -> Sessions.is_session e = true ->
      exists s, In s found /\ Sessions.name s = Sessions.item e /\
        Sessions.files s = Sessions.file_count e.
Proof.
  induction es as [|e es IH]; intros Hd.
  - exists []. split; [reflexivity|intros e []].
  - destruct IH as (found & Hc & Hin);
      [intros e' He'; apply Hd; now right|].
    simpl. destruct (Sessions.is_session e) eqn:Es.
    + destruct (Sessions.date e) as [dt|] eqn:Ed;
        [|now elim (Hd e (or_introl eq_refl) Es)].
      rewrite Hc. simpl. eexists. split; [reflexivity|].
      intros e' [<-|He'] Es'.
      * eexists. split; [now left|]. split; reflexivity.
      * destruct (Hin e' He' Es') as (s & Hs & Hn).
        exists s. split; [now right|exact Hn].
    + exists found. split; [exact Hc|].
      intros e' [<-|He'] Es'; [congruence|]. now apply Hin.
Qed.

Lemma collect_unreadable_date es e :
  In e es -> Sessions.is_session e = true -> Sessions.date e = None ->
  Sessions.collect es = None.
Proof.
  induction es as [|x es IH]; [intros []|].
  intros [<-|He] Es Ed; simpl.
  - now rewrite Es, Ed.
  - rewrite (IH He Es Ed). destruct (Sessions.is_session x); [|reflexivity].
    now destruct (Sessions.date x).
Qed.

Lemma collect_records es : forall found,
  Sessions.collect es = Some found ->
  Forall2 Sessions.records found (filter Sessions.is_session es).
Proof.
  induction es as [|e es IH]; intros found H; cbn [Sessions.collect filter] in *.
  - injection H as <-. constructor.
  - destruct (Sessions.is_session e) eqn:Es; [|exact (IH found H)].
    destruct (Sessions.date e) as [dt|] eqn:Ed; [|discriminate H].
    destruct (Sessions.collect es) as [rest|]; [|discriminate H].
    cbn [option_map] in H. injection H as <-.
    constructor; [|exact (IH rest eq_refl)].
    unfold Sessions.records.
    cbn [Sessions.name Sessions.path Sessions.modified Sessions.files].
    split; [reflexivity|]. split; [reflexivity|].
    split; [exact Ed | reflexivity].
Qed.

Lemma leb_same (a : string) : String.leb a a = true.
Proof. destruct (String.leb_total a a) as [H|H]; exact H. Qed.

(** Inserting a session puts it before every session of the same date. *)
Lemma insert_dated dt x l :
  filter (Sessions.dated dt) (Sessions.insert x l) =
  filter (Sessions.dated dt) (x :: l).
Proof.
  induction l as [|y l IH]; [reflexivity|].
  cbn [Sessions.insert].
  destruct (String.leb (Sessions.modified y) (Sessions.modified x)) eqn:E;
    [reflexivity|].
  cbn [filter] in *. rewrite IH.
  destruct (Sessions.dated dt y) eqn:Ey; [|reflexivity].
  destruct (Sessions.dated dt x) eqn:Ex; [|reflexivity].
  unfold Sessions.dated in Ey, Ex.
  apply String.eqb_eq in Ey. apply String.eqb_eq in Ex.
  rewrite Ey, Ex, leb_same in E. discriminate E.
Qed.

(** The sort is stable: the sessions of one date keep their order. *)
Lemma sort_dated dt l :
  filter (Sessions.dated dt) (Sessions.sort_newest_first l) =
  filter (Sessions.dated dt) l.
Proof.
  induction l as [|x l IH]; [reflexivity|].
  cbn [Sessions.sort_newest_first fold_right].
  fold (Sessions.sort_newest_first l).
  rewrite insert_dated. cbn [filter]. now rewrite IH.
Qed.

End SessionFacts.

(** C9, as amended.  [list_previous_sessions] returns the sessions with
    the newest printed modification date first: a session never stands
    before one whose date is larger (equal dates are possible).  A session
    folder that cannot be listed is NOT skipped: provided every session's
    modification time can be read, each session folder of the share is in
    the result, with a file count of 0 when listing it failed.  When the
    modification time of some session cannot be read, the whole listing
    is empty.  The sort is stable: with [found] the elements appended for
    the session folders, in listing order, the sessions of the result
    that carry a given printed date are those of [found] that carry it,
    in the same order. *)
Theorem list_previous_sessions_newest_first (ls : Sessions.Listing) :
  Sorted Sessions.not_newer (Sessions.list_previous_sessions ls) /\
  (forall es, Sessions.base_exists ls = true ->
     Sessions.base_items ls = Some es ->
     (forall e, In e es -> Sessions.is_session e = true ->
        Sessions.date e <> None) ->
     forall e, In e es -> Sessions.is_session e = true ->
       exists s, In s (Sessions.list_previous_sessions ls) /\
         Sessions.name s = Sessions.item e /\
         Sessions.files s = Sessions.file_count e /\
         (Sessions.contents e = None -> Sessions.files s = 0)) /\
  (forall es e, Sessions.base_items ls = Some es -> In e es ->
     Sessions.is_session e = true -> Sessions.date e = None ->
     Sessions.list_previous_sessions ls = []) /\
  (forall es, Sessions.base_exists ls = true ->
     Sessions.base_items ls = Some es ->
     (forall e, In e es -> Sessions.is_session e = true ->
        Sessions.date e <> None) ->
     exists found,
       Forall2 Sessions.records found (filter Sessions.is_session es) /\
       forall dt,
         filter (Sessions.dated dt) (Sessions.list_previous_sessions ls) =
         filter (Sessions.dated dt) found).
Proof.
  unfold Sessions.list_previous_sessions. split; [|split; [|split]].
  - destruct (Sessions.base_exists ls); [|constructor].
    destruct (Sessions.base_items ls) as [es|]; [|constructor].
    destruct (Sessions.collect es); [apply sort_sorted|constructor].
  - intros es -> -> Hd e He Es.
    destruct (collect_all es Hd) as (found & -> & Hin).
    destruct (Hin e He Es) as (s & Hs & Hn & Hf).
    exists s. split; [|split; [exact Hn|split; [exact Hf|]]].
    + eapply Permutation_in; [apply sort_perm|exact Hs].
    + intros Hc. rewrite Hf. unfold Sessions.file_count. now rewrite Hc.
  - intros es e -> He Es Ed.
    rewrite (collect_unreadable_date es e He Es Ed).
    now destruct (Sessions.base_exists ls).
  - intros es -> -> Hd.
    destruct (collect_all es Hd) as (found & Hc & _).
    rewrite Hc. exists found.
    split; [exact (collect_records es found Hc)|].
    intros dt. apply sort_dated.
Qed.

(** On the sample share the listing is: the locked session (0 files),
    the open session (1 file), the older session.  The first two carry
    the same date, so the order is not strict. *)
Lemma sample_share_listing :
  map (fun s => (Sessions.name s, Sessions.modified s, Sessions.files s))
    (Sessions.list_previous_sessions Samples.share) =
  [ ("meshroom_session_20240101_100000", "2024-01-01 10:00:07", 0);
    ("meshroom_session_20240101_100005", "2024-01-01 10:00:07", 1);
    ("meshroom_session_20231231_090000", "2023-12-31 09:00:00", 0) ] /\
  ~ Sorted Sessions.strictly_newer (Sessions.list_previous_sessions Samples.share).
Proof.
  split; [reflexivity|].
  intros H. inversion H as [|a l _ Hhd E]; subst.
  inversion Hhd as [|b l' Hlt E']; subst. discriminate Hlt.
Qed.

(** C9 as the specification states it fails on the sample share: the two
    sessions modified in the same second are neighbours in the result, so
    the order is not strict, and the session whose folder cannot be
    listed is in the result. *)
Lemma listing_is_neither_strict_nor_skipping :
  ~ Claims.listing_strict_and_skipping Samples.share.
Proof.
  intros [_ H].
  apply (H _ Samples.locked_session eq_refl); [right; now left|reflexivity|].
  vm_compute. tauto.
Qed.

Lemma list_previous_sessions_newest_first_witness :
  Sorted Sessions.not_newer (Sessions.list_previous_sessions Samples.share) /\
  (exists s, In s (Sessions.list_previous_sessions Samples.share) /\
     Sessions.name s = Sessions.item Samples.locked_session /\
     Sessions.files s = 0) /\
  (exists found,
     Forall2 Sessions.records found
       [Samples.older_session; Samples.locked_session; Samples.open_session] /\
     forall dt,
       filter (Sessions.dated dt) (Sessions.list_previous_sessions Samples.share) =
       filter (Sessions.dated dt) found).
Proof.
  destruct (list_previous_sessions_newest_first Samples.share)
    as (Hs & Hall & _ & Hst).
  assert (Hd : forall e,
             In e [Samples.older_session; Samples.locked_session;
                   Samples.notes_file; Samples.open_session] ->
             Sessions.is_session e = true -> Sessions.date e <> None).
  { intros e [<-|[<-|[<-|[<-|[]]]]] _; discriminate. }
  split; [exact Hs|]. split.
  - destruct (Hall _ eq_refl eq_refl Hd Samples.locked_session)
      as (s & Hin & Hn & _ & H0).
    + right. now left.
    + reflexivity.
    + exists s. split; [exact Hin|]. split; [exact Hn|]. now apply H0.
  - exact (Hst _ eq_refl eq_refl Hd).
Defined.

(** ** Runs *)

Arguments Realistic.ply_file : simpl never.
Arguments Realistic.obj_file : simpl never.
Arguments Realistic.stl_file : simpl never.
Arguments Native.ply_file : simpl never.
Arguments Native.obj_file : simpl never.
Arguments Native.stl_file : simpl never.
Arguments Actual.create_valid_ply_file : simpl never.
Arguments Actual.create_valid_obj_file : simpl never.
Arguments ActualMain.summary : simpl never.
Arguments path_join : simpl never.
Arguments count : simpl never.
Arguments lower : simpl never.

(** C5 as the specification states it fails on the sample world with an
    empty input folder: both scripts have created the session directory
    (and the output base) by the time they look for photos. *)
Lemma zero_photos_still_creates_the_session :
  ~ Claims.zero_photos_no_writes RealisticMain.main Samples.no_input /\
  ~ Claims.zero_photos_no_writes NativeMain.main Samples.no_input.
Proof.
  split; intros H; destruct (H eq_refl) as [_ W]; discriminate W.
Qed.

(** C5, as amended.  When the share is reachable, the status query can be
    launched and photo discovery yields no photo, [main] ends with
    [NoPhotosFound] after [create_session_folder] has created the output
    base and the session directory (and, in meshroom-native-processing,
    the temp directory); it writes no file: no project, artifact or
    summary. *)
Theorem zero_photos_run_creates_only_directories (w : World) :
  photos w = [] -> nas_reachable w = true -> launched (pods w) = true ->
  (ending (RealisticMain.main w) = NoPhotosFound /\
   writes (RealisticMain.main w)
     = [Makedirs NAS_OUTPUT_BASE; Makedirs (session_path w)]) /\
  (ending (NativeMain.main w) = NoPhotosFound /\
   writes (NativeMain.main w)
     = [Makedirs NAS_OUTPUT_BASE; Makedirs (session_path w); Makedirs NAS_TEMP]).
Proof.
  intros Hp Hn Hl.
  unfold RealisticMain.main, NativeMain.main, check_cluster_status,
    create_session_folder.
  rewrite Hp, Hn.
  destruct (pods w) as [out| |]; [| |discriminate Hl].
  - destruct (Nat.leb 2 (count out "Running")); repeat split; reflexivity.
  - repeat split; reflexivity.
Qed.

Lemma zero_photos_run_creates_only_directories_witness :
  (ending (RealisticMain.main Samples.no_input) = NoPhotosFound /\
   writes (RealisticMain.main Samples.no_input)
     = [Makedirs NAS_OUTPUT_BASE; Makedirs (session_path Samples.no_input)]) /\
  (ending (NativeMain.main Samples.no_input) = NoPhotosFound /\
   writes (NativeMain.main Samples.no_input)
     = [Makedirs NAS_OUTPUT_BASE; Makedirs (session_path Samples.no_input);
        Makedirs NAS_TEMP]).
Proof.
  apply (zero_photos_run_creates_only_directories Samples.no_input);
    reflexivity.
Defined.

(** C6.  When the delegate executable is invoked and exits with a
    non-zero status, or running it raises, the run is not reported as
    failed: the same [main] goes on with the simulation, runs its six
    steps, writes the point-cloud and mesh artifacts, records the method
    [Simulation] in the summary, and completes. *)
Theorem delegate_failure_falls_back_to_simulation (w : World) (exe : string) :
  nas_reachable w = true ->
  0 < List.length (photos w) ->
  lower (answer w) = "y" ->
  meshroom_path w = Some exe ->
  delegate_succeeded (delegate w) = false ->
  let run := ActualMain.main w in
  let n := List.length (photos w) in
  ending run = Completed /\
  In (Launch exe) (events run) /\
  (said run DelegateFailed \/ said run DelegateError) /\
  said run Simulating /\
  steps run = [1; 2; 3; 4; 5; 6] /\
  filter is_file (events run) =
    [ WriteFile (path_join (session_path w) "meshroom_project.mg")
        (project_text w);
      WriteFile (path_join (session_path w) (Actual.ply_name n))
        (Actual.create_valid_ply_file (numerics w) n);
      WriteFile (path_join (session_path w) (Actual.obj_name n))
        (Actual.create_valid_obj_file (numerics w) n);
      WriteFile (path_join (session_path w) "processing_summary.txt")
        (ActualMain.summary w false) ].
Proof.
  intros Hn Hp Ha Hm Hd. cbv zeta.
  unfold ActualMain.main, create_session_folder, ActualMain.run_real_meshroom,
    said.
  rewrite Hn, Ha, Hm.
  destruct (photos w) as [|p ps]; [inversion Hp|].
  destruct (delegate w) as [[|c|c]|]; try discriminate Hd;
    cbn; (repeat split; [tauto|tauto|tauto]).
Qed.

Lemma delegate_failure_falls_back_to_simulation_witness :
  ending (ActualMain.main Samples.healthy) = Completed /\
  said (ActualMain.main Samples.healthy) Simulating /\
  steps (ActualMain.main Samples.healthy) = [1; 2; 3; 4; 5; 6].
Proof.
  destruct (delegate_failure_falls_back_to_simulation Samples.healthy
              "C:\Meshroom\meshroom_batch.exe")
    as (He & _ & _ & Hs & Ht & _).
  - reflexivity.
  - simpl. lia.
  - reflexivity.
  - reflexivity.
  - reflexivity.
  - split; [exact He|]. split; [exact Hs|exact Ht].
Defined.

(** C7 as the specification states it fails for process-photos.py: with
    one running pod where two are required, [main] prints that the cluster
    is not ready and returns; with two it completes. *)
Lemma probe_gates_process_photos :
  ~ Claims.probe_is_advisory ProcessPhotos.main Samples.healthy.
Proof.
  intros H. destruct (H (Report Samples.one_running)) as [E _].
  vm_compute in E. discriminate E.
Qed.

(** C7, as amended.  In realistic-meshroom-processing and
    meshroom-native-processing the probe is advisory: for every outcome of
    a status query that could be launched (too few running pods, or a
    non-zero exit), [main] ends and writes exactly as it does with a ready
    cluster; a negative result only selects the single-node processing
    mode (realistic) or prints the not-fully-ready warning (native).  In
    process-photos.py and process-photos-simple.py a negative result makes
    [main] return at once, before anything is written. *)
Theorem probe_is_advisory_in_the_session_scripts (w : World) (p : Called) :
  launched p = true ->
  (ending (RealisticMain.main (with_pods w p))
     = ending (RealisticMain.main (with_pods w (Report Samples.two_running))) /\
   writes (RealisticMain.main (with_pods w p))
     = writes (RealisticMain.main (with_pods w (Report Samples.two_running)))) /\
  (ending (NativeMain.main (with_pods w p))
     = ending (NativeMain.main (with_pods w (Report Samples.two_running))) /\
   writes (NativeMain.main (with_pods w p))
     = writes (NativeMain.main (with_pods w (Report Samples.two_running)))) /\
  (cluster_ready 1 p = false -> nas_reachable w = true ->
   0 < List.length (photos w) ->
   said (RealisticMain.main (with_pods w p)) (ProcessingMode false)) /\
  (cluster_ready 2 p = false ->
   said (NativeMain.main (with_pods w p)) ClusterNotFullyReady) /\
  (cluster_ready 2 p = false ->
   ProcessPhotos.main (with_pods w p) = ([Say ClusterNotReady], inr ClusterGate) /\
   ProcessPhotos.main_simple (with_pods w p)
     = ([Say ClusterNotReady], inr ClusterGate)).
Proof.
  intros Hl.
  unfold RealisticMain.main, NativeMain.main, ProcessPhotos.main,
    ProcessPhotos.main_simple, check_cluster_status, create_session_folder,
    NativeMain.submit_to_meshroom_cluster, said, cluster_ready.
  change (pods (with_pods w p)) with p.
  change (pods (with_pods w (Report Samples.two_running)))
    with (Report Samples.two_running).
  change (nas_reachable (with_pods w ?q)) with (nas_reachable w).
  change (photos (with_pods w p)) with (photos w).
  change (photos (with_pods w (Report Samples.two_running))) with (photos w).
  change (apply_job (with_pods w p)) with (apply_job w).
  change (apply_job (with_pods w (Report Samples.two_running)))
    with (apply_job w).
  change (Nat.leb 1 (count Samples.two_running "Running")) with true.
  change (Nat.leb 2 (count Samples.two_running "Running")) with true.
  destruct p as [out| |]; [| |discriminate Hl].
  - destruct (nas_reachable w), (photos w) as [|ph phs], (apply_job w),
      (Nat.leb 1 (count out "Running")), (Nat.leb 2 (count out "Running"));
      cbn; repeat split; try reflexivity; try discriminate;
      try (intros; tauto); try (intros; lia); intros; exfalso; lia.
  - destruct (nas_reachable w), (photos w) as [|ph phs], (apply_job w);
      cbn; repeat split; try reflexivity; try discriminate;
      try (intros; tauto); try (intros; lia); intros; exfalso; lia.
Qed.

Lemma probe_is_advisory_in_the_session_scripts_witness :
  launched NonZeroExit = true /\
  said (RealisticMain.main (with_pods Samples.healthy NonZeroExit))
    (ProcessingMode false) /\
  ProcessPhotos.main (with_pods Samples.healthy NonZeroExit)
    = ([Say ClusterNotReady], inr ClusterGate).
Proof.
  destruct (probe_is_advisory_in_the_session_scripts Samples.healthy
              NonZeroExit eq_refl) as (_ & _ & Hr & _ & Hg).
  split; [reflexivity|]. split.
  - apply Hr; [reflexivity|reflexivity|simpl; lia].
  - apply Hg. reflexivity.
Defined.

Lemma no_run_is_cancelled (w : World) :
  ending (RealisticMain.main w) <> Cancelled /\
  ending (NativeMain.main w) <> Cancelled /\
  ending (ActualMain.main w) <> Cancelled /\
  ending (ProcessPhotos.main w) <> Cancelled /\
  ending (ProcessPhotos.main_simple w) <> Cancelled.
Proof.
  unfold RealisticMain.main, NativeMain.main, ActualMain.main,
    ProcessPhotos.main, ProcessPhotos.main_simple, check_cluster_status,
    create_session_folder, NativeMain.submit_to_meshroom_cluster,
    ActualMain.run_real_meshroom, ProcessPhotos.start_distributed_processing.
  repeat split.
  - destruct (pods w), (nas_reachable w), (photos w); cbn; discriminate.
  - destruct (pods w) as [out| |];
      [destruct (Nat.leb 2 (count out "Running"))| |];
      destruct (nas_reachable w), (photos w), (apply_job w);
      cbn; discriminate.
  - destruct (nas_reachable w), (photos w); cbn; try discriminate.
    destruct (String.eqb (lower (answer w)) "y"); cbn; try discriminate.
    destruct (meshroom_path w); cbn; try discriminate.
    destruct (delegate w) as [[|c|c]|]; cbn; discriminate.
  - destruct (pods w) as [out| |];
      [destruct (Nat.leb 2 (count out "Running"))| |];
      destruct (photos w), (powershell w); cbn; discriminate.
  - destruct (pods w) as [out| |];
      [destruct (Nat.leb 2 (count out "Running"))| |];
      destruct (photos w); cbn; discriminate.
Qed.

(** C8 as the specification states it fails on the healthy sample world:
    with a stop request before the stage of index 3 the run still prints
    its fourth banner, completes and writes its files. *)
Lemma stop_request_does_not_cancel :
  ~ Claims.stop_request_cancels Samples.healthy.
Proof.
  intros (_ & E & _). cbn in E. discriminate E.
Qed.

(** C8, as amended.  The pipeline has no input for a cancellation: a stop
    request from the control panel launches the [deploy.ps1 stop] command
    and leaves the run as it is.  Whatever is requested, a run of
    realistic-meshroom-processing that gets past photo discovery prints
    the banners of all six stages in order, completes, and writes the
    project file and the four result files; no run of any script ends in
    the state [Cancelled]. *)
Theorem stop_request_leaves_the_run_unchanged
    (w : World) (request : option nat) :
  snd (ControlCenter.run_with_stop_request w request) = RealisticMain.main w /\
  ending (snd (ControlCenter.run_with_stop_request w request)) <> Cancelled /\
  (nas_reachable w = true -> launched (pods w) = true ->
   0 < List.length (photos w) ->
   let run := snd (ControlCenter.run_with_stop_request w request) in
   let n := List.length (photos w) in
   let st := Realistic.stats_of (time_text w) n in
   steps run = [1; 2; 3; 4; 5; 6] /\
   ending run = Completed /\
   filter is_file (events run) =
     [ WriteFile (path_join (session_path w) "meshroom_project.json")
         (project_text w);
       WriteFile (path_join (session_path w) (Realistic.ply_name n))
         (Realistic.ply_file (numerics w) n (session_name w) st);
       WriteFile (path_join (session_path w) (Realistic.obj_name n))
         (Realistic.obj_file (numerics w) n (session_name w) st);
       WriteFile (path_join (session_path w) (Realistic.stl_name n))
         (Realistic.stl_file (numerics w) n st);
       WriteFile (path_join (session_path w) "processing_summary.txt")
         (manifest_text w) ]).
Proof.
  split; [reflexivity|]. split; [apply no_run_is_cancelled|].
  intros Hn Hl Hp. cbv zeta.
  change (snd (ControlCenter.run_with_stop_request w request))
    with (RealisticMain.main w).
  unfold RealisticMain.main, check_cluster_status, create_session_folder.
  rewrite Hn.
  destruct (photos w) as [|ph phs] eqn:E; [inversion Hp|].
  unfold RealisticMain.process_photos_realistically,
    RealisticMain.create_realistic_output_files.
  rewrite E.
  destruct (pods w) as [out| |]; [| |discriminate Hl];
    cbn; repeat split; reflexivity.
Qed.

Lemma stop_request_leaves_the_run_unchanged_witness :
  steps (snd (ControlCenter.run_with_stop_request Samples.healthy (Some 3)))
    = [1; 2; 3; 4; 5; 6] /\
  ending (snd (ControlCenter.run_with_stop_request Samples.healthy (Some 3)))
    = Completed.
Proof.
  destruct (stop_request_leaves_the_run_unchanged Samples.healthy (Some 3))
    as (_ & _ & H).
  destruct H as (Hs & He & _).
  - reflexivity.
  - reflexivity.
  - simpl. lia.
  - split; [exact Hs|exact He].
Defined.

(** ** Counts of the realistic pipeline *)

Lemma realistic_ply_emitted d n name st :
  well_rendered d -> no_LF name = true ->
  emitted_vertex_records (Realistic.ply_file d n name st)
    = Realistic.dense_points st.
Proof.
  intros Hd Hn. unfold emitted_vertex_records.
  rewrite realistic_ply_data_lines by assumption.
  destruct Hd as (Hp & _).
  exact (cloud_emitted (ply_fields d) Hp (Realistic.dense_points st)).
Qed.

Lemma realistic_vertex_count t n :
  Realistic.vertex_count (Realistic.stats_of t n) = 500 * n.
Proof.
  unfold Realistic.vertex_count, Realistic.stats_of. cbn [Realistic.mesh_faces].
  replace (n * 1000) with ((500 * n) * 2) by lia.
  now rewrite Nat.div_mul by discriminate.
Qed.

Lemma count_f_app (xs ys : list ObjRecord) :
  count_f (xs ++ ys) = count_f xs + count_f ys.
Proof. unfold count_f. now rewrite filter_app, length_app. Qed.

Lemma count_f_none (g : nat -> ObjRecord) xs :
  (forall i, is_f (g i) = false) -> count_f (map g xs) = 0.
Proof.
  intros Hf. unfold count_f. induction xs as [|x xs IH]; simpl; [reflexivity|].
  now rewrite Hf.
Qed.

Lemma count_f_all (g : nat -> ObjRecord) xs :
  (forall i, is_f (g i) = true) -> count_f (map g xs) = List.length xs.
Proof.
  intros Hf. unfold count_f. induction xs as [|x xs IH]; simpl; [reflexivity|].
  rewrite Hf. simpl. now rewrite IH.
Qed.

Lemma realistic_count_f d t n :
  count_f (Realistic.obj_records d (Realistic.stats_of t n))
    = List.length (range3 1 (500 * n - 2) 3).
Proof.
  unfold Realistic.obj_records. rewrite realistic_vertex_count.
  rewrite !count_f_app.
  rewrite (count_f_none (fun i => OV (obj_v_fields d i))) by reflexivity.
  rewrite (count_f_none (fun i => OVt (obj_vt_fields d i))) by reflexivity.
  now rewrite count_f_all by reflexivity.
Qed.

Lemma solid_name_no_f n : no_f (Realistic.solid_name n) = true.
Proof.
  unfold Realistic.solid_name.
  apply no_f_app; [reflexivity|].
  apply no_f_app; [apply numeric_no_f, str_numeric|reflexivity].
Qed.

Lemma realistic_stl_facets d n st :
  well_rendered d ->
  Stl.facet_blocks (Realistic.stl_file d n st) = Realistic.mesh_faces st.
Proof.
  intros Hd. rewrite realistic_stl_text.
  rewrite solid_facet_blocks by (assumption || apply solid_name_no_f).
  apply length_range.
Qed.

Lemma realistic_counts w d :
  well_rendered d -> no_LF (timestamp w) = true ->
  RealisticMain.artifact_counts (with_numerics w d) =
  {| RealisticMain.cloud_declared := Some (2000 * List.length (photos w));
     RealisticMain.cloud_emitted := 2000 * List.length (photos w);
     RealisticMain.mesh_vertices := 500 * List.length (photos w);
     RealisticMain.mesh_faces_written :=
       List.length (range3 1 (500 * List.length (photos w) - 2) 3);
     RealisticMain.solid_facets := 1000 * List.length (photos w) |}.
Proof.
  intros Hd Ht. unfold RealisticMain.artifact_counts. cbv zeta.
  change (numerics (with_numerics w d)) with d.
  change (photos (with_numerics w d)) with (photos w).
  change (time_text (with_numerics w d)) with (time_text w).
  change (session_name (with_numerics w d)) with (session_name w).
  assert (Hs : no_LF (session_name w) = true)
    by (unfold session_name; no_LF_text).
  rewrite realistic_ply_declared, realistic_ply_emitted by assumption.
  rewrite realistic_count_v, realistic_count_f.
  rewrite realistic_stl_facets by assumption.
  cbn [Realistic.dense_points Realistic.mesh_faces Realistic.stats_of].
  rewrite (Nat.mul_comm _ 2000), (Nat.mul_comm _ 1000). reflexivity.
Qed.

(** C4.  For a fixed photo count the element counts of the three
    artifacts of the realistic pipeline are functions of that count alone:
    two runs that differ only in their random draws give the same counts
    (point-cloud vertices declared and emitted 2000*n, mesh vertices
    500*n, mesh faces, STL facets 1000*n), and the statistics the pipeline
    returns are sparse = 200*n, dense = 2000*n, faces = 1000*n. *)
Theorem realistic_counts_depend_only_on_photo_count
    (w : World) (d1 d2 : Numerics) (has_cluster : bool) :
  well_rendered d1 -> well_rendered d2 -> no_LF (timestamp w) = true ->
  let n := List.length (photos w) in
  RealisticMain.artifact_counts (with_numerics w d1)
    = RealisticMain.artifact_counts (with_numerics w d2) /\
  RealisticMain.cloud_declared (RealisticMain.artifact_counts (with_numerics w d1))
    = Some (2000 * n) /\
  RealisticMain.cloud_emitted (RealisticMain.artifact_counts (with_numerics w d1))
    = 2000 * n /\
  RealisticMain.mesh_vertices (RealisticMain.artifact_counts (with_numerics w d1))
    = 500 * n /\
  RealisticMain.solid_facets (RealisticMain.artifact_counts (with_numerics w d1))
    = 1000 * n /\
  exists st,
    snd (RealisticMain.process_photos_realistically (with_numerics w d1) has_cluster)
      = inr st /\
    snd (RealisticMain.process_photos_realistically (with_numerics w d2) has_cluster)
      = inr st /\
    Realistic.sparse_points st = 200 * n /\
    Realistic.dense_points st = 2000 * n /\
    Realistic.mesh_faces st = 1000 * n.
Proof.
  intros H1 H2 Ht. cbv zeta.
  rewrite !realistic_counts by assumption.
  repeat (split; [reflexivity|]).
  exists (Realistic.stats_of (time_text w) (List.length (photos w))).
  split; [reflexivity|]. split; [reflexivity|].
  cbn [Realistic.sparse_points Realistic.dense_points Realistic.mesh_faces
       Realistic.stats_of].
  split; [apply Nat.mul_comm|]. split; apply Nat.mul_comm.
Qed.

Lemma realistic_counts_depend_only_on_photo_count_witness :
  RealisticMain.artifact_counts (with_numerics Samples.healthy run_a)
    = RealisticMain.artifact_counts (with_numerics Samples.healthy run_b) /\
  RealisticMain.cloud_declared
    (RealisticMain.artifact_counts (with_numerics Samples.healthy run_a))
    = Some (2000 * 3).
Proof.
  destruct (realistic_counts_depend_only_on_photo_count Samples.healthy
              run_a run_b true) as (He & Hc & _).
  - repeat split; intros; reflexivity.
  - repeat split; intros; reflexivity.
  - reflexivity.
  - split; [exact He|exact Hc].
Defined.

(* ================================================================== *)
(** * Further properties of the scripts *)
(* ================================================================== *)

(** ** Photo discovery *)

Section DiscoveryFacts.

Lemma path_insert_perm x l : Permutation (x :: l) (Discovery.insert x l).
Proof.
  induction l as [|y l IH]; simpl; [reflexivity|].
  destruct (String.leb x y); [reflexivity|].
  rewrite perm_swap. now apply perm_skip.
Qed.

Lemma path_sorted_perm l : Permutation l (Discovery.sorted l).
Proof.
  induction l as [|x l IH]; simpl; [reflexivity|].
  rewrite <- path_insert_perm. now apply perm_skip.
Qed.

Lemma path_insert_hd x y l :
  Discovery.ascending y x -> HdRel Discovery.ascending y l -> HdRel Discovery.ascending y (Discovery.insert x l).
Proof.
  intros Hyx Hl. destruct l as [|z l]; simpl; [now constructor|].
  destruct (String.leb x z); constructor; [assumption|now inversion Hl].
Qed.

Lemma path_insert_sorted x l :
  Sorted Discovery.ascending l -> Sorted Discovery.ascending (Discovery.insert x l).
Proof.
  induction 1 as [|y l Hs IH Hhd]; simpl.
  - repeat constructor.
  - destruct (String.leb x y) eqn:E.
    + constructor; [now constructor|]. now constructor.
    + constructor; [exact IH|]. apply path_insert_hd; [|exact Hhd].
      unfold Discovery.ascending.
      destruct (String.leb_total x y) as [H|H]; [congruence|exact H].
Qed.

Lemma path_sorted_sorted l : Sorted Discovery.ascending (Discovery.sorted l).
Proof.
  induction l as [|x l IH]; simpl; [constructor|now apply path_insert_sorted].
Qed.

Lemma leb_neq_ltb a b : String.leb a b = true -> a <> b -> String.ltb a b = true.
Proof.
  unfold String.leb, String.ltb. intros H N.
  destruct (String.compare a b) eqn:E; try reflexivity; try discriminate H.
  now apply String.compare_eq_iff in E.
Qed.

(** A sorted list without repetition is strictly sorted. *)
Lemma sorted_nodup_strict l :
  Sorted Discovery.ascending l -> NoDup l -> Sorted Discovery.strictly_ascending l.
Proof.
  induction 1 as [|x l Hs IH Hhd]; intros Hn; [constructor|].
  inversion Hn as [|? ? Hx Hl]; subst.
  constructor; [now apply IH|].
  destruct Hhd as [|y l Hxy]; constructor.
  apply leb_neq_ltb; [exact Hxy|].
  intros ->. apply Hx. now left.
Qed.

End DiscoveryFacts.

Lemma get_all_photos_shape (glob : Discovery.Glob) (formats : list string) :
  Sorted Discovery.strictly_ascending (Discovery.get_all_photos glob formats) /\
  NoDup (Discovery.get_all_photos glob formats) /\
  (forall p, In p (Discovery.get_all_photos glob formats) <->
     exists fmt, In fmt formats /\ In p (glob (path_join NAS_INPUT fmt))).
Proof.
  unfold Discovery.get_all_photos, Discovery.distinct, Discovery.scan.
  set (found := flat_map _ formats).
  assert (Hn : NoDup (Discovery.sorted (nodup string_dec found))).
  { eapply Permutation_NoDup; [apply path_sorted_perm|apply NoDup_nodup]. }
  split; [|split].
  - apply sorted_nodup_strict; [apply path_sorted_sorted|exact Hn].
  - exact Hn.
  - intros p. split.
    + intros Hp.
      apply (Permutation_in _ (Permutation_sym (path_sorted_perm _))) in Hp.
      apply nodup_In in Hp. unfold found in Hp.
      apply in_flat_map in Hp. exact Hp.
    + intros Hp. apply (Permutation_in _ (path_sorted_perm _)).
      apply nodup_In. unfold found. apply in_flat_map. exact Hp.
Qed.

(** X1.  [get_all_photos_native] (realistic, native) and [get_all_photos]
    (actual) return the paths matched by at least one supported pattern,
    each exactly once, in strictly ascending order; a share on which no
    pattern matches gives the empty list. *)
Theorem photo_scan_is_sorted_distinct_and_complete (glob : Discovery.Glob) :
  (Sorted Discovery.strictly_ascending (Discovery.realistic_get_all_photos_native glob) /\
   NoDup (Discovery.realistic_get_all_photos_native glob) /\
   forall p, In p (Discovery.realistic_get_all_photos_native glob) <->
     exists fmt, In fmt Discovery.realistic_formats /\
                 In p (glob (path_join NAS_INPUT fmt))) /\
  (Sorted Discovery.strictly_ascending (Discovery.native_get_all_photos_native glob) /\
   NoDup (Discovery.native_get_all_photos_native glob) /\
   forall p, In p (Discovery.native_get_all_photos_native glob) <->
     exists fmt, In fmt Discovery.native_formats /\
                 In p (glob (path_join NAS_INPUT fmt))) /\
  (Sorted Discovery.strictly_ascending (Discovery.actual_get_all_photos glob) /\
   NoDup (Discovery.actual_get_all_photos glob) /\
   forall p, In p (Discovery.actual_get_all_photos glob) <->
     exists fmt, In fmt Discovery.actual_formats /\
                 In p (glob (path_join NAS_INPUT fmt))) /\
  ((forall pattern, glob pattern = []) ->
   Discovery.realistic_get_all_photos_native glob = [] /\
   Discovery.native_get_all_photos_native glob = [] /\
   Discovery.actual_get_all_photos glob = []).
Proof.
  split; [apply get_all_photos_shape|].
  split; [apply get_all_photos_shape|].
  split; [apply get_all_photos_shape|].
  intros He.
  assert (H : forall formats, Discovery.get_all_photos glob formats = []).
  { intros formats.
    destruct (Discovery.get_all_photos glob formats) as [|p l] eqn:E;
      [reflexivity|].
    destruct (get_all_photos_shape glob formats) as (_ & _ & Hin).
    rewrite E in Hin. destruct (proj1 (Hin p) (or_introl eq_refl))
      as (fmt & _ & Hp).
    rewrite He in Hp. destruct Hp. }
  repeat split; apply H.
Qed.

Lemma photo_scan_is_sorted_distinct_and_complete_witness :
  Discovery.realistic_get_all_photos_native (fun _ => []) = [].
Proof.
  apply (photo_scan_is_sorted_distinct_and_complete (fun _ => [])).
  intros pattern. reflexivity.
Defined.

Lemma count_occ_both_cases (glob : Discovery.Glob) (exts : list string) p :
  (forall ext, In ext exts ->
     glob (path_join NAS_INPUT (Discovery.upper ext))
       = glob (path_join NAS_INPUT ext)) ->
  count_occ string_dec
    (flat_map (fun ext => (glob (path_join NAS_INPUT ext)
                           ++ glob (path_join NAS_INPUT (Discovery.upper ext)))%list)
       exts) p
  = 2 * count_occ string_dec
          (flat_map (fun ext => glob (path_join NAS_INPUT ext)) exts) p.
Proof.
  induction exts as [|e exts IH]; intros Hb; [reflexivity|].
  cbn [flat_map]. rewrite !count_occ_app.
  rewrite (Hb e (or_introl eq_refl)).
  rewrite IH by (intros ext He; apply Hb; now right). lia.
Qed.

(** X2.  [list_input_photos] of process-photos.py sorts without removing
    duplicates: on a share whose glob ignores letter case, where each
    pattern and its upper-case form match the same files, every photo is
    listed twice as often as the lower-case patterns match it.
    process-photos-simple.py, which goes through a set, lists the same
    photos without repetition. *)
Theorem list_input_photos_lists_photos_twice (glob : Discovery.Glob) :
  Discovery.case_blind glob ->
  Sorted Discovery.ascending (Discovery.list_input_photos glob) /\
  (forall p,
     count_occ string_dec (Discovery.list_input_photos glob) p
     = 2 * count_occ string_dec
             (Discovery.scan glob Discovery.photo_extensions) p) /\
  NoDup (Discovery.list_input_photos_simple glob) /\
  (forall p, In p (Discovery.list_input_photos_simple glob) <->
             In p (Discovery.list_input_photos glob)).
Proof.
  intros Hb. unfold Discovery.list_input_photos,
    Discovery.list_input_photos_simple, Discovery.distinct.
  split; [apply path_sorted_sorted|]. split; [|split].
  - intros p.
    rewrite <- (proj1 (Permutation_count_occ string_dec _ _)
                  (path_sorted_perm (Discovery.scan_both_cases glob)) p).
    apply count_occ_both_cases. exact Hb.
  - eapply Permutation_NoDup; [apply path_sorted_perm|apply NoDup_nodup].
  - intros p. split; intros Hp.
    + apply (Permutation_in _ (Permutation_sym (path_sorted_perm _))) in Hp.
      apply nodup_In in Hp.
      now apply (Permutation_in _ (path_sorted_perm _)).
    + apply (Permutation_in _ (Permutation_sym (path_sorted_perm _))) in Hp.
      apply (Permutation_in _ (path_sorted_perm _)). now apply nodup_In.
Qed.

Lemma list_input_photos_lists_photos_twice_witness :
  Discovery.case_blind Discovery.two_photo_share /\
  count_occ string_dec (Discovery.list_input_photos Discovery.two_photo_share)
    (path_join NAS_INPUT "a.jpg")
  = 2 * count_occ string_dec
          (Discovery.scan Discovery.two_photo_share Discovery.photo_extensions)
          (path_join NAS_INPUT "a.jpg").
Proof.
  assert (H : Discovery.case_blind Discovery.two_photo_share)
    by (intros ext _; reflexivity).
  split; [exact H|].
  destruct (list_input_photos_lists_photos_twice Discovery.two_photo_share H)
    as (_ & Hc & _).
  exact (Hc (path_join NAS_INPUT "a.jpg")).
Defined.

(** ** Other paths through the scripts' [main] *)

(** X3.  When the share cannot be reached, [create_session_folder] raises
    before anything is created: the three session scripts end with the
    storage error and have written nothing. *)
Theorem unreachable_share_stops_before_any_write (w : World) :
  nas_reachable w = false -> launched (pods w) = true ->
  (ending (RealisticMain.main w) = StorageUnreachable /\
   writes (RealisticMain.main w) = []) /\
  (ending (NativeMain.main w) = StorageUnreachable /\
   writes (NativeMain.main w) = []) /\
  (ending (ActualMain.main w) = StorageUnreachable /\
   events (ActualMain.main w) = []).
Proof.
  intros Hn Hl.
  unfold RealisticMain.main, NativeMain.main, ActualMain.main,
    check_cluster_status, create_session_folder.
  rewrite Hn.
  destruct (pods w) as [out| |]; [| |discriminate Hl].
  - destruct (Nat.leb 2 (count out "Running")); repeat split; reflexivity.
  - repeat split; reflexivity.
Qed.

Lemma unreachable_share_stops_before_any_write_witness :
  ending (RealisticMain.main (with_pods
    {| nas_reachable := false; timestamp := "20240101_120000";
       photos := Samples.three_photos; pods := NonZeroExit;
       apply_job := NonZeroExit; powershell := NonZeroExit;
       meshroom_path := None; delegate := Errored; answer := "y";
       previous := Samples.share; numerics := run_a; time_text := "";
       project_text := ""; job_text := ""; workflow_text := "";
       manifest_text := "" |} NonZeroExit)) = StorageUnreachable.
Proof.
  refine (proj1 (proj1 (unreachable_share_stops_before_any_write _ _ _)));
    reflexivity.
Defined.

(** X4.  When the operator answers the prompt of
    actual-meshroom-processing with anything but [y] or [Y], [main] returns
    at once: the session directory has been created and stays empty, and
    the delegate is never launched. *)
Theorem declined_run_leaves_an_empty_session (w : World) :
  nas_reachable w = true -> 0 < List.length (photos w) ->
  String.eqb (lower (answer w)) "y" = false ->
  ActualMain.main w =
    ([ Makedirs NAS_OUTPUT_BASE; Makedirs (session_path w); Say Declined ],
     inr UserDeclined).
Proof.
  intros Hn Hp Ha. unfold ActualMain.main, create_session_folder.
  rewrite Hn, Ha. destruct (photos w); [inversion Hp|reflexivity].
Qed.

Lemma declined_run_leaves_an_empty_session_witness :
  ending (ActualMain.main
    {| nas_reachable := true; timestamp := "20240101_120000";
       photos := Samples.three_photos; pods := NonZeroExit;
       apply_job := NonZeroExit; powershell := NonZeroExit;
       meshroom_path := None; delegate := Errored; answer := "no";
       previous := Samples.share; numerics := run_a; time_text := "";
       project_text := ""; job_text := ""; workflow_text := "";
       manifest_text := "" |}) = UserDeclined.
Proof.
  rewrite declined_run_leaves_an_empty_session;
    [reflexivity|reflexivity|simpl; lia|reflexivity].
Defined.

(** X5.  When the delegate exits with status 0, [main] of
    actual-meshroom-processing runs no simulated step and writes neither
    the synthetic point cloud nor the synthetic mesh: the only files it
    writes are the delegate's project file and the summary, which names
    the method [Real Meshroom]. *)
Theorem delegate_success_skips_the_simulation (w : World) (exe : string) :
  nas_reachable w = true -> 0 < List.length (photos w) ->
  lower (answer w) = "y" -> meshroom_path w = Some exe ->
  delegate w = Exited 0 ->
  ending (ActualMain.main w) = Completed /\
  steps (ActualMain.main w) = [] /\
  events (ActualMain.main w) =
    [ Makedirs NAS_OUTPUT_BASE;
      Makedirs (session_path w);
      WriteFile (path_join (session_path w) "meshroom_project.mg")
        (project_text w);
      Makedirs (path_join (session_path w) "meshroom_output");
      Launch exe;
      WriteFile (path_join (session_path w) "processing_summary.txt")
        (ActualMain.summary w true) ].
Proof.
  intros Hn Hp Ha Hm Hd.
  unfold ActualMain.main, create_session_folder, ActualMain.run_real_meshroom.
  rewrite Hn, Ha, Hm, Hd.
  destruct (photos w); [inversion Hp|]. repeat split; reflexivity.
Qed.

Lemma delegate_success_skips_the_simulation_witness :
  steps (ActualMain.main
    {| nas_reachable := true; timestamp := "20240101_120000";
       photos := Samples.three_photos; pods := NonZeroExit;
       apply_job := NonZeroExit; powershell := NonZeroExit;
       meshroom_path := Some "C:\Meshroom\meshroom_batch.exe";
       delegate := Exited 0; answer := "Y";
       previous := Samples.share; numerics := run_a; time_text := "";
       project_text := ""; job_text := ""; workflow_text := "";
       manifest_text := "" |}) = [].
Proof.
  refine (proj1 (proj2 (delegate_success_skips_the_simulation _
            "C:\Meshroom\meshroom_batch.exe" _ _ _ _ _)));
    [reflexivity|simpl; lia|reflexivity|reflexivity|reflexivity].
Defined.

(** X6.  Without a Meshroom installation, [main] of
    actual-meshroom-processing launches nothing: it simulates the six
    steps, writes the synthetic point cloud and mesh, and records the
    method [Simulation]. *)
Theorem missing_delegate_means_simulation (w : World) :
  nas_reachable w = true -> 0 < List.length (photos w) ->
  lower (answer w) = "y" -> meshroom_path w = None ->
  let n := List.length (photos w) in
  ActualMain.main w =
    ([ Makedirs NAS_OUTPUT_BASE;
       Makedirs (session_path w);
       Say Simulating;
       Say (Step 1); Say (Step 2); Say (Step 3);
       Say (Step 4); Say (Step 5); Say (Step 6);
       WriteFile (path_join (session_path w) (Actual.ply_name n))
         (Actual.create_valid_ply_file (numerics w) n);
       WriteFile (path_join (session_path w) (Actual.obj_name n))
         (Actual.create_valid_obj_file (numerics w) n);
       WriteFile (path_join (session_path w) "processing_summary.txt")
         (ActualMain.summary w false) ],
     inr Completed).
Proof.
  intros Hn Hp Ha Hm. cbv zeta.
  unfold ActualMain.main, create_session_folder.
  rewrite Hn, Ha, Hm.
  destruct (photos w); [inversion Hp|reflexivity].
Qed.

Lemma missing_delegate_means_simulation_witness :
  ending (ActualMain.main
    {| nas_reachable := true; timestamp := "20240101_120000";
       photos := Samples.three_photos; pods := NonZeroExit;
       apply_job := NonZeroExit; powershell := NonZeroExit;
       meshroom_path := None; delegate := Errored; answer := "y";
       previous := Samples.share; numerics := run_a; time_text := "";
       project_text := ""; job_text := ""; workflow_text := "";
       manifest_text := "" |}) = Completed.
Proof.
  rewrite missing_delegate_means_simulation;
    [reflexivity|reflexivity|simpl; lia|reflexivity|reflexivity].
Defined.

(** X7.  When [kubectl apply] exits with a non-zero status,
    meshroom-native-processing reports the failure and writes no result:
    the session directory stays empty, and the only files written are the
    project file and the job description in the temp folder. *)
Theorem failed_submission_writes_no_artifact (w : World) :
  nas_reachable w = true -> 0 < List.length (photos w) ->
  launched (pods w) = true -> apply_job w = NonZeroExit ->
  ending (NativeMain.main w) = Failed /\
  said (NativeMain.main w) SubmitFailed /\
  said (NativeMain.main w) ProcessingFailed /\
  writes (NativeMain.main w) =
    [ Makedirs NAS_OUTPUT_BASE;
      Makedirs (session_path w);
      Makedirs NAS_TEMP;
      WriteFile (path_join NAS_TEMP "full_dataset.mg") (project_text w);
      WriteFile (path_join NAS_TEMP "processing-job.yaml") (job_text w) ].
Proof.
  intros Hn Hp Hl Ha.
  unfold NativeMain.main, check_cluster_status, create_session_folder,
    NativeMain.submit_to_meshroom_cluster, said.
  rewrite Hn, Ha. destruct (photos w); [inversion Hp|].
  destruct (pods w) as [out| |]; [| |discriminate Hl].
  - destruct (Nat.leb 2 (count out "Running")); cbn;
      (split; [reflexivity|]); (split; [tauto|]); (split; [tauto|reflexivity]).
  - cbn. split; [reflexivity|]. split; [tauto|]. split; [tauto|reflexivity].
Qed.

Lemma failed_submission_writes_no_artifact_witness :
  ending (NativeMain.main
    {| nas_reachable := true; timestamp := "20240101_120000";
       photos := Samples.three_photos; pods := Report Samples.two_running;
       apply_job := NonZeroExit; powershell := NonZeroExit;
       meshroom_path := None; delegate := Errored; answer := "y";
       previous := Samples.share; numerics := run_a; time_text := "";
       project_text := ""; job_text := ""; workflow_text := "";
       manifest_text := "" |}) = Failed.
Proof.
  refine (proj1 (failed_submission_writes_no_artifact _ _ _ _ _));
    [reflexivity|simpl; lia|reflexivity|reflexivity].
Defined.

(** X8.  process-photos.py and process-photos-simple.py look for photos
    before they create anything: with a ready cluster and no photo,
    [main] prints the message and returns without a single write. *)
Theorem process_photos_without_photos_writes_nothing (w : World) :
  cluster_ready 2 (pods w) = true -> photos w = [] ->
  ProcessPhotos.main w = ([Say NoPhotos], inr NoPhotosFound) /\
  ProcessPhotos.main_simple w = ([Say NoPhotos], inr NoPhotosFound).
Proof.
  intros Hr Hp.
  unfold ProcessPhotos.main, ProcessPhotos.main_simple, check_cluster_status.
  unfold cluster_ready in Hr.
  destruct (pods w) as [out| |]; try discriminate Hr.
  rewrite Hp. cbn -[Nat.leb]. rewrite Hr. split; reflexivity.
Qed.

Lemma process_photos_without_photos_writes_nothing_witness :
  ProcessPhotos.main Samples.no_input = ([Say NoPhotos], inr NoPhotosFound).
Proof.
  refine (proj1 (process_photos_without_photos_writes_nothing _ _ _));
    reflexivity.
Defined.


(** ** Looking for a Meshroom installation *)

Lemma find_in_first present dirs :
  match Installation.find_in present dirs with
  | Some found =>
      exists before dir after,
        dirs = (before ++ dir :: after)%list /\
        (forall d, In d before -> Installation.usable present d = false) /\
        present dir = true /\ present found = true /\
        ((found = Installation.batch_exe dir) \/
         (found = Installation.batch_py dir /\
          present (Installation.batch_exe dir) = false))
  | None => forall d, In d dirs -> Installation.usable present d = false
  end.
Proof.
  induction dirs as [|dir rest IH]; simpl; [intros d []|].
  destruct (present dir) eqn:Ed.
  - destruct (present (Installation.batch_exe dir)) eqn:Ee.
    + exists [], dir, rest. repeat split; auto. intros d [].
    + destruct (present (Installation.batch_py dir)) eqn:Ep.
      * exists [], dir, rest. repeat split; auto. intros d [].
      * assert (Hu : Installation.usable present dir = false)
          by (unfold Installation.usable; now rewrite Ed, Ee, Ep).
        destruct (Installation.find_in present rest) as [found|].
        -- destruct IH as (before & d' & after & -> & Hb & Hrest).
           exists (dir :: before), d', after. split; [reflexivity|].
           split; [|exact Hrest]. intros d [<-|Hd]; auto.
        -- intros d [<-|Hd]; auto.
  - assert (Hu : Installation.usable present dir = false)
      by (unfold Installation.usable; now rewrite Ed).
    destruct (Installation.find_in present rest) as [found|].
    + destruct IH as (before & d' & after & -> & Hb & Hrest).
      exists (dir :: before), d', after. split; [reflexivity|].
      split; [|exact Hrest]. intros d [<-|Hd]; auto.
    + intros d [<-|Hd]; auto.
Qed.

(** X10.  [find_meshroom_installation] returns the batch program of the
    FIRST listed folder that exists and holds one, preferring the
    executable to the Python script inside that folder; what it returns
    exists; it returns nothing exactly when no listed folder holds
    either. *)
Theorem find_meshroom_installation_first_usable
    (present : string -> bool) (username : option string) :
  (forall found,
     Installation.find_meshroom_installation present username = Some found ->
     exists before dir after,
       Installation.possible_paths username = (before ++ dir :: after)%list /\
       (forall d, In d before -> Installation.usable present d = false) /\
       present dir = true /\ present found = true /\
       ((found = Installation.batch_exe dir) \/
        (found = Installation.batch_py dir /\
         present (Installation.batch_exe dir) = false))) /\
  (Installation.find_meshroom_installation present username = None <->
   forall d, In d (Installation.possible_paths username) ->
     Installation.usable present d = false).
Proof.
  unfold Installation.find_meshroom_installation.
  pose proof (find_in_first present (Installation.possible_paths username)) as H.
  destruct (Installation.find_in present
              (Installation.possible_paths username)) as [found|].
  - split.
    + intros f E. injection E as <-. exact H.
    + split; [discriminate|]. intros Hall.
      destruct H as (before & dir & after & E & _ & Hd & Hf & Hc).
      assert (Hu : Installation.usable present dir = false)
        by (apply Hall; rewrite E; apply in_elt).
      unfold Installation.usable in Hu. rewrite Hd in Hu. simpl in Hu.
      apply orb_false_iff in Hu as [He Hp].
      destruct Hc as [->| [-> _]]; congruence.
  - split; [discriminate|]. split; [intros _; exact H|reflexivity].
Qed.

(** On a disk with the Python script in [C:\Meshroom] and the executable
    in [D:\Meshroom], the earlier folder wins. *)
Example earlier_folder_wins :
  Installation.find_meshroom_installation Installation.two_installations None
    = Some "C:\Meshroom\meshroom_batch.py".
Proof. reflexivity. Qed.

(** ** Watching the submitted job *)

Lemma watch_spec (job : nat -> NativeMonitor.Poll) fuel : forall i,
  match NativeMonitor.watch fuel i job with
  | (polls, seen, slept) =>
      polls <= fuel /\ slept <= polls /\
      (forall k, S k < polls -> NativeMonitor.terminal (job (i + k)) = false) /\
      match seen with
      | NativeMonitor.GaveUp =>
          polls = fuel /\
          forall k, k < fuel -> NativeMonitor.terminal (job (i + k)) = false
      | NativeMonitor.SawComplete =>
          exists out, 0 < polls /\
            job (i + (polls - 1)) = NativeMonitor.Status out /\
            contains "Complete" out = true
      | NativeMonitor.SawFailed =>
          exists out, 0 < polls /\
            job (i + (polls - 1)) = NativeMonitor.Status out /\
            contains "Complete" out = false /\ contains "Failed" out = true
      end
  end.
Proof.
  induction fuel as [|fuel IH]; intros i; cbn [NativeMonitor.watch].
  - repeat split; try lia; intros k Hk; lia.
  - specialize (IH (S i)).
    destruct (job i) as [out|] eqn:Ej.
    + destruct (contains "Complete" out) eqn:Ec.
      * split; [lia|]. split; [lia|]. split; [intros k Hk; lia|].
        exists out. rewrite Nat.add_0_r. repeat split; [lia|assumption..].
      * destruct (contains "Failed" out) eqn:Ef.
        -- split; [lia|]. split; [lia|]. split; [intros k Hk; lia|].
           exists out. rewrite Nat.add_0_r. repeat split; [lia|assumption..].
        -- destruct (NativeMonitor.watch fuel (S i) job) as [[polls seen] slept].
           destruct IH as (Hp & Hs & Hb & Hseen).
           assert (Hi : NativeMonitor.terminal (job i) = false)
             by (rewrite Ej; cbn; now rewrite Ec, Ef).
           split; [lia|]. split; [lia|]. split.
           ++ intros [|k] Hk; [now rewrite Nat.add_0_r|].
              replace (i + S k) with (S i + k) by lia. apply Hb. lia.
           ++ destruct seen.
              ** destruct Hseen as (o & H0 & Hj & Ho). exists o.
                 split; [lia|]. split; [|exact Ho].
                 replace (i + (S polls - 1)) with (S i + (polls - 1)) by lia.
                 exact Hj.
              ** destruct Hseen as (o & H0 & Hj & Ho). exists o.
                 split; [lia|]. split; [|exact Ho].
                 replace (i + (S polls - 1)) with (S i + (polls - 1)) by lia.
                 exact Hj.
              ** destruct Hseen as (-> & Hall). split; [reflexivity|].
                 intros [|k] Hk; [now rewrite Nat.add_0_r|].
                 replace (i + S k) with (S i + k) by lia. apply Hall. lia.
    + destruct (NativeMonitor.watch fuel (S i) job) as [[polls seen] slept].
      destruct IH as (Hp & Hs & Hb & Hseen).
      assert (Hi : NativeMonitor.terminal (job i) = false)
        by (now rewrite Ej).
      split; [lia|]. split; [lia|]. split.
      * intros [|k] Hk; [now rewrite Nat.add_0_r|].
        replace (i + S k) with (S i + k) by lia. apply Hb. lia.
      * destruct seen.
        -- destruct Hseen as (o & H0 & Hj & Ho). exists o.
           split; [lia|]. split; [|exact Ho].
           replace (i + (S polls - 1)) with (S i + (polls - 1)) by lia.
           exact Hj.
        -- destruct Hseen as (o & H0 & Hj & Ho). exists o.
           split; [lia|]. split; [|exact Ho].
           replace (i + (S polls - 1)) with (S i + (polls - 1)) by lia.
           exact Hj.
        -- destruct Hseen as (-> & Hall). split; [reflexivity|].
           intros [|k] Hk; [now rewrite Nat.add_0_r|].
           replace (i + S k) with (S i + k) by lia. apply Hall. lia.
Qed.

(** X11.  The monitoring loop of [submit_to_meshroom_cluster] asks for the
    job's condition at most 60 times and sleeps at most once per poll; it
    stops at the first answer that contains [Complete] or [Failed]
    ([Complete] is looked for first), and it gives up after exactly 60
    polls when no answer does. *)
Theorem monitor_stops_at_the_first_verdict (job : nat -> NativeMonitor.Poll) :
  match NativeMonitor.monitor job with
  | (polls, seen, slept) =>
      polls <= 60 /\ slept <= polls /\
      (forall k, S k < polls -> NativeMonitor.terminal (job k) = false) /\
      match seen with
      | NativeMonitor.GaveUp =>
          polls = 60 /\
          forall k, k < 60 -> NativeMonitor.terminal (job k) = false
      | NativeMonitor.SawComplete =>
          exists out, 0 < polls /\
            job (polls - 1) = NativeMonitor.Status out /\
            contains "Complete" out = true
      | NativeMonitor.SawFailed =>
          exists out, 0 < polls /\
            job (polls - 1) = NativeMonitor.Status out /\
            contains "Complete" out = false /\ contains "Failed" out = true
      end
  end.
Proof. exact (watch_spec job 60 0). Qed.

Lemma same_refl {A} (m : M A) : same_outcome m m.
Proof. split; reflexivity. Qed.

(** Sequencing respects [same_outcome]. *)
Lemma same_bind {A B} (m1 m2 : M A) (k1 k2 : A -> M B) :
  same_outcome m1 m2 -> (forall a, same_outcome (k1 a) (k2 a)) ->
  same_outcome (bind m1 k1) (bind m2 k2).
Proof.
  destruct m1 as [es1 [e1|a1]], m2 as [es2 [e2|a2]];
    intros [Hs Hw] Hk; cbn in Hs, Hw; try discriminate Hs.
  - injection Hs as ->. split; [reflexivity|exact Hw].
  - injection Hs as ->. specialize (Hk a2).
    unfold bind. destruct (k1 a2) as [es1' r1], (k2 a2) as [es2' r2].
    destruct Hk as [Hs' Hw']. cbn in Hs', Hw'. split; [exact Hs'|].
    cbn [fst]. rewrite !filter_app. now rewrite Hw, Hw'.
Qed.

Lemma submit_same w job log_output :
  same_outcome
    (NativeMonitor.submit_to_meshroom_cluster w job
       (NativeMonitor.Status log_output))
    (NativeMain.submit_to_meshroom_cluster w).
Proof.
  unfold NativeMonitor.submit_to_meshroom_cluster,
    NativeMain.submit_to_meshroom_cluster.
  apply same_bind; [apply same_refl|intros _].
  apply same_bind; [apply same_refl|intros _].
  destruct (apply_job w); try apply same_refl.
  destruct (NativeMonitor.monitor job) as [[polls seen] slept].
  split; [reflexivity|]. cbn [bind emit ret fst snd app].
  rewrite !filter_app. cbn [filter is_write app].
  induction polls as [|k IH]; [reflexivity|exact IH].
Qed.

(** X12.  What the job reports does not reach the result of the run:
    after a successful [kubectl apply], and provided [kubectl logs] can be
    run, meshroom-native-processing completes and writes the same files,
    whether the job completed, failed or never answered.  Its writes and
    its ending are those of the model without the loop. *)
Theorem job_verdict_does_not_change_the_run
    (w : World) (job : nat -> NativeMonitor.Poll) (log_output : string) :
  let run := NativeMonitor.main w job (NativeMonitor.Status log_output) in
  ending run = ending (NativeMain.main w) /\
  writes run = writes (NativeMain.main w) /\
  (nas_reachable w = true -> launched (pods w) = true ->
   0 < List.length (photos w) -> (exists out, apply_job w = Report out) ->
   ending run = Completed).
Proof.
  cbv zeta.
  assert (Hsame : same_outcome
            (NativeMonitor.main w job (NativeMonitor.Status log_output))
            (NativeMain.main w)).
  { unfold NativeMonitor.main, NativeMain.main.
    apply same_bind; [apply same_refl|intros ready].
    apply same_bind; [apply same_refl|intros _].
    apply same_bind; [apply same_refl|intros _].
    apply same_bind; [apply same_refl|intros _].
    destruct (photos w); [apply same_refl|].
    apply same_bind; [apply same_refl|intros _].
    apply same_bind; [apply submit_same|intros b; apply same_refl]. }
  destruct Hsame as [He Hw].
  split; [unfold ending; now rewrite He|]. split; [exact Hw|].
  intros Hn Hl Hp [out Ha]. unfold ending. rewrite He.
  unfold NativeMain.main, check_cluster_status, create_session_folder,
    NativeMain.submit_to_meshroom_cluster.
  rewrite Hn, Ha. destruct (photos w); [inversion Hp|].
  destruct (pods w) as [o| |]; [| |discriminate Hl].
  - destruct (Nat.leb 2 (count o "Running")); reflexivity.
  - reflexivity.
Qed.

Lemma job_verdict_does_not_change_the_run_witness :
  ending (NativeMonitor.main Samples.healthy NativeMonitor.failing_job
            (NativeMonitor.Status "")) = Completed.
Proof.
  destruct (job_verdict_does_not_change_the_run Samples.healthy
              NativeMonitor.failing_job "") as (_ & _ & H).
  apply H; [reflexivity|reflexivity|simpl; lia|].
  eexists. reflexivity.
Defined.

(** ** Ranges with a step *)

Lemma range_from_covers fuel : forall start stop step,
  1 <= step -> stop <= start + fuel ->
  stop <= start + step * List.length (range_from fuel start stop step).
Proof.
  induction fuel as [|fuel IH]; intros start stop step Hs Hf; simpl; [lia|].
  destruct (Nat.ltb_spec start stop) as [Hlt|Hge]; [|simpl; lia].
  cbn [List.length]. rewrite Nat.mul_succ_r.
  specialize (IH (start + step) stop step Hs). lia.
Qed.

Lemma range_from_tight fuel : forall start stop step,
  start < stop ->
  start + step * List.length (range_from fuel start stop step) < stop + step.
Proof.
  induction fuel as [|fuel IH]; intros start stop step Hlt; simpl; [lia|].
  destruct (Nat.ltb_spec start stop) as [_|Hge]; [|lia].
  cbn [List.length]. rewrite Nat.mul_succ_r.
  destruct (Nat.lt_ge_cases (start + step) stop) as [Hn|Hn].
  - specialize (IH (start + step) stop step Hn). lia.
  - replace (range_from fuel (start + step) stop step) with (@nil nat);
      [simpl; lia|].
    destruct fuel; simpl; [reflexivity|].
    destruct (Nat.ltb_spec (start + step) stop); [lia|reflexivity].
Qed.

Lemma range3_covers start stop step :
  1 <= step -> stop <= start + step * List.length (range3 start stop step).
Proof. intros Hs. apply range_from_covers; [exact Hs|lia]. Qed.

Lemma range3_tight start stop step :
  start < stop ->
  start + step * List.length (range3 start stop step) < stop + step.
Proof. apply range_from_tight. Qed.

(** ** The timed simulation *)

Lemma loop_sleep_bounds t step :
  1 <= step -> 0 < t ->
  t <= Simulation.loop_sleep t step /\ Simulation.loop_sleep t step < t + step.
Proof.
  intros Hs Ht. unfold Simulation.loop_sleep.
  pose proof (range3_covers 0 t step Hs).
  pose proof (range3_tight 0 t step Ht). lia.
Qed.

(** X13.  [simulate_realistic_processing] sleeps for at least the sum of
    its six stage times and for less than 195 seconds more (each stage
    but the first is rounded up to its reporting cadence).  For every
    photo count that is at least 1980 seconds, the 33 minutes the
    docstring promises, and always more than the
    [estimate_processing_time] that [main] prints beforehand. *)
Theorem simulation_sleeps_longer_than_estimated (photo_count : nat) :
  Simulation.planned photo_count <= Simulation.seconds_slept photo_count /\
  Simulation.seconds_slept photo_count < Simulation.planned photo_count + 195 /\
  1980 <= Simulation.seconds_slept photo_count /\
  Actual.estimate_processing_time photo_count
    < Simulation.seconds_slept photo_count.
Proof.
  unfold Simulation.seconds_slept, Simulation.planned,
    Actual.estimate_processing_time.
  rewrite length_range.
  assert (Hf := loop_sleep_bounds (Simulation.feature_time photo_count) 30).
  assert (Hm := loop_sleep_bounds (Simulation.match_time photo_count) 30).
  assert (Hs := loop_sleep_bounds (Simulation.sfm_time photo_count) 45).
  assert (Hd := loop_sleep_bounds (Simulation.dense_time photo_count) 60).
  assert (He := loop_sleep_bounds (Simulation.mesh_time photo_count) 30).
  unfold Simulation.init_time, Simulation.feature_time, Simulation.match_time,
    Simulation.sfm_time, Simulation.dense_time, Simulation.mesh_time in *.
  lia.
Qed.

(** ** How many faces the realistic mesh really has *)

(** X14.  The header of the realistic OBJ file announces
    [mesh_faces = 1000 * n] faces, but the face loop runs over
    [range(1, vertex_count - 2, 3)] with [vertex_count = 500 * n]: the
    number [F] of face records written satisfies
    [500 * n - 3 <= 3 * F < 500 * n], less than a fifth of the announced
    count. *)
Theorem realistic_mesh_has_fewer_faces_than_announced
    (d : Numerics) (time_text : string) (n : nat) :
  1 <= n ->
  let st := Realistic.stats_of time_text n in
  let written := count_f (Realistic.obj_records d st) in
  500 * n - 3 <= 3 * written /\
  3 * written < 500 * n /\
  5 * written < Realistic.mesh_faces st.
Proof.
  intros Hn. cbv zeta. rewrite realistic_count_f.
  assert (H3 : 1 <= 3) by lia.
  pose proof (range3_covers 1 (500 * n - 2) 3 H3) as Hc.
  assert (Ht : 1 < 500 * n - 2) by lia.
  pose proof (range3_tight 1 (500 * n - 2) 3 Ht) as Hu.
  unfold Realistic.stats_of. cbn [Realistic.mesh_faces]. lia.
Qed.

Lemma realistic_mesh_has_fewer_faces_than_announced_witness :
  3 * count_f (Realistic.obj_records run_a (Realistic.stats_of "32.0" 1))
    < 500 * 1.
Proof.
  refine (proj1 (proj2 (realistic_mesh_has_fewer_faces_than_announced
                          run_a "32.0" 1 _))). lia.
Defined.

(** ** Texture and normal indices *)

Lemma index_within_spec seen i t :
  Texture.index_within seen i = true -> i = Some t -> 1 <= t <= seen.
Proof.
  intros H ->. unfold Texture.index_within in H.
  rewrite andb_true_iff, !Nat.leb_le in H. exact H.
Qed.

Lemma backed_sound rs : forall seen_vt seen_vn,
  Texture.backed seen_vt seen_vn rs = true ->
  forall pre a b c post, rs = (pre ++ OF a b c :: post)%list ->
  forall k, In k [a; b; c] ->
    (forall t, cvt k = Some t -> 1 <= t <= seen_vt + Texture.count_vt pre) /\
    (forall m, cvn k = Some m -> 1 <= m <= seen_vn + Texture.count_vn pre).
Proof.
  induction rs as [|r rs IH]; intros svt svn Hw pre a b c post E k Hk.
  - now destruct pre.
  - destruct pre as [|p pre]; simpl in E; injection E as -> ->.
    + simpl in Hw. rewrite !andb_true_iff in Hw.
      destruct Hw as [[[Ha Hb] Hc] _].
      unfold Texture.corner_backed in Ha, Hb, Hc.
      rewrite andb_true_iff in Ha, Hb, Hc.
      unfold Texture.count_vt, Texture.count_vn. simpl. rewrite !Nat.add_0_r.
      destruct Hk as [<-|[<-|[<-|[]]]]; split; intros i Hi;
        eapply index_within_spec; try eassumption;
        first [apply Ha|apply Hb|apply Hc].
    + destruct p as [f|f|f|a' b' c']; simpl in Hw.
      * exact (IH svt svn Hw pre a b c post eq_refl k Hk).
      * destruct (IH (S svt) svn Hw pre a b c post eq_refl k Hk) as [H1 H2].
        unfold Texture.count_vt, Texture.count_vn in *. simpl.
        split; intros i Hi; [specialize (H1 i Hi)|specialize (H2 i Hi)]; lia.
      * destruct (IH svt (S svn) Hw pre a b c post eq_refl k Hk) as [H1 H2].
        unfold Texture.count_vt, Texture.count_vn in *. simpl.
        split; intros i Hi; [specialize (H1 i Hi)|specialize (H2 i Hi)]; lia.
      * rewrite !andb_true_iff in Hw. destruct Hw as [_ Hw].
        exact (IH svt svn Hw pre a b c post eq_refl k Hk).
Qed.

Lemma backed_v (f : nat -> string) xs rest svt svn :
  Texture.backed svt svn (map (fun i => OV (f i)) xs ++ rest)
    = Texture.backed svt svn rest.
Proof. induction xs as [|x xs IH]; simpl; [reflexivity|exact IH]. Qed.

Lemma backed_vt (f : nat -> string) xs rest svt svn :
  Texture.backed svt svn (map (fun i => OVt (f i)) xs ++ rest)
    = Texture.backed (svt + List.length xs) svn rest.
Proof.
  revert svt. induction xs as [|x xs IH]; intros svt; simpl.
  - now rewrite Nat.add_0_r.
  - rewrite IH. f_equal. lia.
Qed.

Lemma backed_vn (f : nat -> string) xs rest svt svn :
  Texture.backed svt svn (map (fun i => OVn (f i)) xs ++ rest)
    = Texture.backed svt (svn + List.length xs) rest.
Proof.
  revert svn. induction xs as [|x xs IH]; intros svn; simpl.
  - now rewrite Nat.add_0_r.
  - rewrite IH. f_equal. lia.
Qed.

Lemma backed_triples (mk : nat -> Corner) xs svt svn :
  (forall i, In i xs ->
     Texture.corner_backed svt svn (mk i) = true /\
     Texture.corner_backed svt svn (mk (i + 1)) = true /\
     Texture.corner_backed svt svn (mk (i + 2)) = true) ->
  Texture.backed svt svn
    (map (fun i => OF (mk i) (mk (i + 1)) (mk (i + 2))) xs) = true.
Proof.
  induction xs as [|x xs IH]; intros Hb; simpl; [reflexivity|].
  destruct (Hb x (or_introl eq_refl)) as (H1 & H2 & H3).
  rewrite H1, H2, H3. simpl. apply IH. intros i Hi. apply Hb. now right.
Qed.

(** X15.  In the meshes of [create_realistic_output_files] and
    [create_output_files] every face corner also names a texture
    coordinate (and, in the native script, a normal) that has been written
    earlier in the file: the [vt] and [vn] indices of a face lie between 1
    and the number of [vt] / [vn] records that precede it. *)
Theorem obj_faces_reference_earlier_textures
    (d : Numerics) (time_text : string) (n : nat) :
  Texture.no_forward_texture
    (Realistic.obj_records d (Realistic.stats_of time_text n)) /\
  Texture.no_forward_texture (Native.obj_records d n) /\
  (forall a b c k,
     In (OF a b c) (Realistic.obj_records d (Realistic.stats_of time_text n)) ->
     In k [a; b; c] -> cvt k = Some (cv k) /\ cvn k = None) /\
  (forall a b c k, In (OF a b c) (Native.obj_records d n) ->
     In k [a; b; c] -> cvt k = Some (cv k) /\ cvn k = Some (cv k)).
Proof.
  assert (Hr : Texture.backed 0 0
                 (Realistic.obj_records d (Realistic.stats_of time_text n))
               = true).
  { unfold Realistic.obj_records.
    rewrite backed_v, backed_vt, length_range.
    apply backed_triples.
    intros i Hi. apply range3_bounds in Hi.
    unfold Texture.corner_backed, Texture.index_within, Realistic.textured.
    cbn [cvt cvn].
    rewrite !andb_true_r, !andb_true_iff, !Nat.leb_le. lia. }
  assert (Hn : Texture.backed 0 0 (Native.obj_records d n) = true).
  { unfold Native.obj_records.
    rewrite backed_v, backed_vt, backed_vn, !length_range.
    apply backed_triples.
    intros i Hi. apply range3_bounds in Hi.
    unfold Texture.corner_backed, Texture.index_within, Native.full.
    cbn [cvt cvn].
    rewrite !andb_true_iff, !Nat.leb_le. lia. }
  split; [|split; [|split]].
  - intros pre a b c post E k Hk.
    exact (backed_sound _ 0 0 Hr pre a b c post E k Hk).
  - intros pre a b c post E k Hk.
    exact (backed_sound _ 0 0 Hn pre a b c post E k Hk).
  - intros a b c k Hin Hk. unfold Realistic.obj_records in Hin.
    rewrite !in_app_iff, !in_map_iff in Hin.
    destruct Hin as [(i & E & _)|[(i & E & _)|(i & E & _)]];
      try discriminate E.
    injection E as <- <- <-.
    destruct Hk as [<-|[<-|[<-|[]]]]; split; reflexivity.
  - intros a b c k Hin Hk. unfold Native.obj_records in Hin.
    rewrite !in_app_iff, !in_map_iff in Hin.
    destruct Hin as [(i & E & _)|[(i & E & _)|[(i & E & _)|(i & E & _)]]];
      try discriminate E.
    injection E as <- <- <-.
    destruct Hk as [<-|[<-|[<-|[]]]]; split; reflexivity.
Qed.

(** ** What the session listing contains *)

Lemma collect_sound es : forall found,
  Sessions.collect es = Some found ->
  List.length found = List.length (filter Sessions.is_session es) /\
  forall s, In s found ->
    exists e, In e es /\ Sessions.is_session e = true /\
      Sessions.name s = Sessions.item e /\
      Sessions.path s = path_join NAS_OUTPUT_BASE (Sessions.item e) /\
      Sessions.date e = Some (Sessions.modified s) /\
      Sessions.files s = Sessions.file_count e.
Proof.
  induction es as [|e es IH]; intros found; simpl.
  - intros E. injection E as <-. split; [reflexivity|intros s []].
  - destruct (Sessions.is_session e) eqn:Es.
    + destruct (Sessions.date e) as [dt|] eqn:Ed; [|discriminate].
      destruct (Sessions.collect es) as [rest|]; [|discriminate].
      intros E. injection E as <-. destruct (IH rest eq_refl) as [Hl Hin].
      split; [simpl; now rewrite Hl|].
      intros s [<-|Hs].
      * exists e. repeat split; auto.
      * destruct (Hin s Hs) as (e' & He' & Hrest).
        exists e'. split; [now right|exact Hrest].
    + intros E. destruct (IH found E) as [Hl Hin]. split; [exact Hl|].
      intros s Hs. destruct (Hin s Hs) as (e' & He' & Hrest).
      exists e'. split; [now right|exact Hrest].
Qed.

(** X16.  Everything [list_previous_sessions] returns is a directory of
    the output base whose name starts with [meshroom_session_], with that
    entry's name, path, printed modification date and file count; other
    files and folders never appear, and the list is never longer than the
    number of session folders. *)
Theorem listed_sessions_are_session_folders (ls : Sessions.Listing) :
  (forall s, In s (Sessions.list_previous_sessions ls) ->
     exists es e, Sessions.base_items ls = Some es /\ In e es /\
       Sessions.is_dir e = true /\
       startswith (Sessions.item e) "meshroom_session_" = true /\
       Sessions.name s = Sessions.item e /\
       Sessions.path s = path_join NAS_OUTPUT_BASE (Sessions.item e) /\
       Sessions.date e = Some (Sessions.modified s) /\
       Sessions.files s = Sessions.file_count e) /\
  (forall es, Sessions.base_items ls = Some es ->
     List.length (Sessions.list_previous_sessions ls)
       <= List.length (filter Sessions.is_session es)) /\
  (Sessions.base_exists ls = false -> Sessions.list_previous_sessions ls = []).
Proof.
  unfold Sessions.list_previous_sessions.
  split; [|split].
  - intros s Hs. destruct (Sessions.base_exists ls); [|destruct Hs].
    destruct (Sessions.base_items ls) as [es|]; [|destruct Hs].
    destruct (Sessions.collect es) as [found|] eqn:Ec; [|destruct Hs].
    apply (Permutation_in _ (Permutation_sym (sort_perm found))) in Hs.
    destruct (collect_sound es found Ec) as [_ Hin].
    destruct (Hin s Hs) as (e & He & Hsess & Hrest).
    unfold Sessions.is_session in Hsess. apply andb_true_iff in Hsess.
    exists es, e. split; [reflexivity|]. split; [exact He|].
    split; [apply Hsess|]. split; [apply Hsess|exact Hrest].
  - intros es ->. destruct (Sessions.base_exists ls); [|simpl; lia].
    destruct (Sessions.collect es) as [found|] eqn:Ec; [|simpl; lia].
    rewrite <- (Permutation_length (sort_perm found)).
    destruct (collect_sound es found Ec) as [-> _]. lia.
  - now intros ->.
Qed.

(** ** The command line of the control panel *)

Lemma item_within (h : list string) (i : Z) :
  (0 <= i < Z.of_nat (List.length h))%Z ->
  exists c, History.item h i = Some c /\ In c h /\
            nth_error h (Z.to_nat i) = Some c.
Proof.
  intros Hi. unfold History.item.
  replace ((0 <=? i)%Z) with true by (symmetry; apply Z.leb_le; lia).
  replace ((i <? Z.of_nat (List.length h))%Z) with true
    by (symmetry; apply Z.ltb_lt; lia).
  cbn [andb].
  destruct (nth_error h (Z.to_nat i)) as [c|] eqn:E.
  - exists c. split; [reflexivity|]. split; [|reflexivity].
    exact (nth_error_In _ _ E).
  - apply nth_error_None in E. lia.
Qed.


Lemma known_In (c : string) (h : list string) :
  History.known c h = true <-> In c h.
Proof.
  unfold History.known. rewrite existsb_exists. split.
  - intros (x & Hx & E). apply String.eqb_eq in E. subst x. exact Hx.
  - intros Hc. exists c. split; [exact Hc | apply String.eqb_refl].
Qed.

Lemma execute_command_kept (s : History.State) :
  History.well_kept s ->
  History.well_kept (fst (History.execute_command s)) /\
  exists extra,
    History.command_history (fst (History.execute_command s)) =
    (History.command_history s ++ extra)%list.
Proof.
  intros (Hi & Hnd & Hne). unfold History.execute_command.
  destruct (String.eqb (History.strip (History.command_entry s)) "") eqn:E.
  - cbn [fst]. split; [exact (conj Hi (conj Hnd Hne))|].
    exists []. symmetry. apply app_nil_r.
  - cbn [fst]. apply String.eqb_neq in E.
    destruct (History.known (History.strip (History.command_entry s))
                (History.command_history s)) eqn:K.
    + split.
      * unfold History.well_kept. cbn [History.command_history History.history_index].
        split; [lia|]. split; [exact Hnd | exact Hne].
      * exists []. cbn [History.command_history]. symmetry. apply app_nil_r.
    + split.
      * unfold History.well_kept. cbn [History.command_history History.history_index].
        split; [lia|]. split.
        -- apply NoDup_app; [exact Hnd | apply NoDup_cons; [intros [] | apply NoDup_nil] |].
           intros x Hx [Hc | []]. subst x.
           apply known_In in Hx. rewrite Hx in K. discriminate K.
        -- intros Hin. apply in_app_or in Hin. destruct Hin as [Hin | [Hin | []]].
           ++ exact (Hne Hin).
           ++ exact (E Hin).
      * exists [History.strip (History.command_entry s)]. reflexivity.
Qed.

Lemma history_up_kept (s : History.State) :
  History.well_kept s ->
  exists s', History.history_up s = Some s' /\ History.well_kept s' /\
             History.command_history s' = History.command_history s.
Proof.
  intros (Hi & Hnd & Hne). unfold History.history_up.
  destruct (History.command_history s) as [|c0 h0] eqn:Eh.
  - exists s. split; [reflexivity|]. split; [|exact Eh].
    unfold History.well_kept. rewrite Eh. exact (conj Hi (conj Hnd Hne)).
  - destruct (0 <? History.history_index s)%Z eqn:Ep.
    + apply Z.ltb_lt in Ep.
      destruct (item_within (c0 :: h0) (History.history_index s - 1))
        as (c & -> & _ & _); [lia|].
      cbn [option_map]. eexists. split; [reflexivity|].
      unfold History.well_kept.
      cbn [History.command_history History.history_index].
      split; [|reflexivity]. split; [lia|]. split; [exact Hnd | exact Hne].
    + exists s. split; [reflexivity|]. split; [|exact Eh].
      unfold History.well_kept. rewrite Eh. exact (conj Hi (conj Hnd Hne)).
Qed.

Lemma history_down_kept (s : History.State) :
  History.well_kept s ->
  exists s', History.history_down s = Some s' /\ History.well_kept s' /\
             History.command_history s' = History.command_history s.
Proof.
  intros (Hi & Hnd & Hne). unfold History.history_down.
  destruct (History.command_history s) as [|c0 h0] eqn:Eh.
  - cbn [List.length] in *.
    replace ((Z.of_nat 0 - 1 <=? History.history_index s)%Z) with true
      by (symmetry; apply Z.leb_le; lia).
    eexists. split; [reflexivity|].
    unfold History.well_kept.
    cbn [History.command_history History.history_index List.length].
    split; [|reflexivity]. split; [lia|]. split; [exact Hnd | exact Hne].
  - destruct (History.history_index s <? Z.of_nat (List.length (c0 :: h0)) - 1)%Z eqn:Ep.
    + apply Z.ltb_lt in Ep.
      destruct (item_within (c0 :: h0) (History.history_index s + 1))
        as (c & -> & _ & _); [lia|].
      cbn [option_map]. eexists. split; [reflexivity|].
      unfold History.well_kept.
      cbn [History.command_history History.history_index].
      split; [|reflexivity]. split; [lia|]. split; [exact Hnd | exact Hne].
    + apply Z.ltb_ge in Ep.
      replace ((Z.of_nat (List.length (c0 :: h0)) - 1 <=? History.history_index s)%Z)
        with true by (symmetry; apply Z.leb_le; lia).
      eexists. split; [reflexivity|].
      unfold History.well_kept.
      cbn [History.command_history History.history_index].
      split; [|reflexivity]. split; [lia|]. split; [exact Hnd | exact Hne].
Qed.

Lemma press_kept (k : History.Key) (s : History.State) :
  History.well_kept s ->
  exists s', History.press k s = Some s' /\ History.well_kept s' /\
             exists extra, History.command_history s' =
                           (History.command_history s ++ extra)%list.
Proof.
  intros Hs. destruct k as [text| | |]; cbn [History.press].
  - eexists. split; [reflexivity|]. split.
    + exact Hs.
    + exists []. cbn [History.command_history]. symmetry. apply app_nil_r.
  - destruct (execute_command_kept s Hs) as (Hk & He).
    eexists. split; [reflexivity|]. split; [exact Hk | exact He].
  - destruct (history_up_kept s Hs) as (s' & E & Hk & Hh).
    exists s'. split; [exact E|]. split; [exact Hk|].
    exists []. rewrite Hh. symmetry. apply app_nil_r.
  - destruct (history_down_kept s Hs) as (s' & E & Hk & Hh).
    exists s'. split; [exact E|]. split; [exact Hk|].
    exists []. rewrite Hh. symmetry. apply app_nil_r.
Qed.

(** X17.  Whatever the operator types and whichever of Enter, Up and Down
    they press, in any order, the command line never raises an
    [IndexError]: the index stays between 0 and the length of the history,
    no command is stored twice, no empty command is stored, and the
    commands already stored are never dropped or reordered (the history
    only grows at its end). *)
Theorem command_line_never_fails (keys : list History.Key) (s : History.State) :
  History.well_kept s ->
  exists s', History.session keys s = Some s' /\ History.well_kept s' /\
             exists extra, History.command_history s' =
                           (History.command_history s ++ extra)%list.
Proof.
  revert s. induction keys as [|k keys IH]; intros s Hs.
  - exists s. split; [reflexivity|]. split; [exact Hs|].
    exists []. symmetry. apply app_nil_r.
  - destruct (press_kept k s Hs) as (s1 & E1 & H1 & (e1 & He1)).
    destruct (IH s1 H1) as (s2 & E2 & H2 & (e2 & He2)).
    exists s2. cbn [History.session]. rewrite E1.
    split; [exact E2|]. split; [exact H2|].
    exists (e1 ++ e2)%list. rewrite He2, He1. symmetry. apply app_assoc.
Qed.

Lemma command_line_never_fails_witness :
  History.well_kept History.initial /\
  exists s', History.session
               [History.Up; History.Typed " kubectl get pods "; History.Enter;
                History.Down; History.Up; History.Up]
               History.initial = Some s' /\
             History.well_kept s' /\
             exists extra, History.command_history s' =
                           (History.command_history History.initial ++ extra)%list.
Proof.
  assert (H : History.well_kept History.initial).
  { unfold History.well_kept, History.initial.
    cbn [History.command_history History.history_index List.length].
    split; [lia|]. split; [apply NoDup_nil | intros []]. }
  split; [exact H|].
  exact (command_line_never_fails _ History.initial H).
Defined.



(** X19.  Up followed by Down is a round trip on the index: when there is
    an earlier command to go back to, the index returns to where it was;
    the entry then shows the command at that index, or is cleared when the
    index is past the last command. *)
Theorem history_up_then_down_returns (s : History.State) :
  History.well_kept s ->
  (0 < History.history_index s)%Z ->
  exists s1 s2,
    History.history_up s = Some s1 /\
    History.history_down s1 = Some s2 /\
    History.command_history s2 = History.command_history s /\
    History.history_index s1 = (History.history_index s - 1)%Z /\
    History.history_index s2 = History.history_index s /\
    History.item (History.command_history s) (History.history_index s - 1)
      = Some (History.command_entry s1) /\
    History.command_entry s2 =
      match nth_error (History.command_history s)
                      (Z.to_nat (History.history_index s)) with
      | Some c => c
      | None => ""
      end.
Proof.
  intros (Hi & Hnd & Hne) Hp.
  unfold History.history_up.
  destruct (History.command_history s) as [|c0 h0] eqn:Eh.
  { cbn [List.length] in Hi. lia. }
  rewrite <- Eh in *.
  replace ((0 <? History.history_index s)%Z) with true
    by (symmetry; apply Z.ltb_lt; lia).
  destruct (item_within (History.command_history s) (History.history_index s - 1))
    as (c & Ec & _ & _); [lia|].
  rewrite Ec. cbn [option_map].
  exists {| History.command_history := History.command_history s;
            History.history_index := History.history_index s - 1;
            History.command_entry := c |}.
  unfold History.history_down.
  cbn [History.command_history History.history_index History.command_entry].
  rewrite Eh. rewrite <- Eh.
  destruct (History.history_index s - 1 <?
            Z.of_nat (List.length (History.command_history s)) - 1)%Z eqn:Ep.
  - apply Z.ltb_lt in Ep.
    replace (History.history_index s - 1 + 1)%Z with (History.history_index s) by lia.
    destruct (item_within (History.command_history s) (History.history_index s))
      as (d & Ed & _ & En); [lia|].
    rewrite Ed, En. cbn [option_map].
    eexists. split; [reflexivity|].
    split; [reflexivity|].
    cbn [History.command_history History.history_index History.command_entry].
    split; [reflexivity|]. split; [reflexivity|]. split; [reflexivity|].
    split; [reflexivity|]. reflexivity.
  - apply Z.ltb_ge in Ep.
    replace ((Z.of_nat (List.length (History.command_history s)) - 1 <=?
              History.history_index s - 1)%Z) with true
      by (symmetry; apply Z.leb_le; lia).
    eexists. split; [reflexivity|].
    split; [reflexivity|].
    cbn [History.command_history History.history_index History.command_entry].
    split; [reflexivity|]. split; [reflexivity|]. split; [lia|].
    split; [reflexivity|].
    destruct (nth_error (History.command_history s)
                (Z.to_nat (History.history_index s))) eqn:En; [|reflexivity].
    assert (Hlt : Z.to_nat (History.history_index s) <
                  List.length (History.command_history s)).
    { apply nth_error_Some. rewrite En. discriminate. }
    lia.
Qed.

Lemma history_up_then_down_returns_witness :
  let s := {| History.command_history := ["kubectl get pods"; "kubectl get nodes"];
              History.history_index := 1;
              History.command_entry := "kubectl get nodes" |} in
  exists s1 s2,
    History.history_up s = Some s1 /\
    History.history_down s1 = Some s2 /\
    History.history_index s2 = 1%Z /\
    History.command_entry s1 = "kubectl get pods" /\
    History.command_entry s2 = "kubectl get nodes".
Proof.
  intros s.
  assert (Hk : History.well_kept s).
  { unfold History.well_kept, s.
    cbn [History.command_history History.history_index List.length].
    split; [lia|]. split.
    - apply NoDup_cons; [intros [E | []]; discriminate E|].
      apply NoDup_cons; [intros [] | apply NoDup_nil].
    - intros [E | [E | []]]; discriminate E. }
  assert (Hp : (0 < History.history_index s)%Z) by (cbn; lia).
  destruct (history_up_then_down_returns s Hk Hp)
    as (s1 & s2 & E1 & E2 & _ & _ & Hi & He1 & He2).
  exists s1, s2. split; [exact E1|]. split; [exact E2|].
  split; [exact Hi|]. split.
  - vm_compute in He1. injection He1 as He1. symmetry. exact He1.
  - exact He2.
Defined.

(** ** The artifacts of the native script, for every photo count *)

Lemma filter_map_all (p : ObjRecord -> bool) (g : nat -> ObjRecord) xs :
  (forall i, p (g i) = true) ->
  List.length (filter p (map g xs)) = List.length xs.
Proof.
  intros Hp. induction xs as [|x xs IH]; cbn [map filter]; [reflexivity|].
  rewrite Hp. cbn [List.length]. now rewrite IH.
Qed.

Lemma filter_map_none (p : ObjRecord -> bool) (g : nat -> ObjRecord) xs :
  (forall i, p (g i) = false) ->
  List.length (filter p (map g xs)) = 0.
Proof.
  intros Hp. induction xs as [|x xs IH]; cbn [map filter]; [reflexivity|].
  now rewrite Hp.
Qed.

Lemma native_count_by (p : ObjRecord -> bool) d n :
  List.length (filter p (Native.obj_records d n)) =
  List.length (filter p (map (fun i => OV (obj_v_fields d i)) (range (n * 100))))
  + List.length (filter p (map (fun i => OVt (obj_vt_fields d i)) (range (n * 100))))
  + List.length (filter p (map (fun i => OVn (obj_vn_fields d i)) (range (n * 100))))
  + List.length (filter p (map (fun i => OF (Native.full i) (Native.full (i + 1))
                                            (Native.full (i + 2)))
                             (range3 1 (n * 95) 3))).
Proof.
  unfold Native.obj_records. rewrite !filter_app, !length_app. lia.
Qed.

Lemma native_ply_emitted d n :
  well_rendered d ->
  emitted_vertex_records (Native.ply_file d n) = n * 2000.
Proof.
  intros Hd. unfold emitted_vertex_records.
  rewrite native_ply_data_lines by assumption.
  destruct Hd as (Hp & _).
  exact (cloud_emitted (ply_fields d) Hp (n * 2000)).
Qed.

Lemma native_solid_name_no_f n : no_f (Native.solid_name n) = true.
Proof.
  unfold Native.solid_name.
  apply no_f_app; [reflexivity|].
  apply no_f_app; [apply numeric_no_f, str_numeric|reflexivity].
Qed.

Lemma native_solid_name_no_LF n : no_LF (Native.solid_name n) = true.
Proof.
  unfold Native.solid_name.
  apply no_LF_app; [reflexivity|].
  apply no_LF_app; [apply str_no_LF|reflexivity].
Qed.

Lemma realistic_solid_name_no_LF n : no_LF (Realistic.solid_name n) = true.
Proof.
  unfold Realistic.solid_name.
  apply no_LF_app; [reflexivity|].
  apply no_LF_app; [apply str_no_LF|reflexivity].
Qed.

(** X20.  For every photo count [n] and whatever the random numbers are,
    the artifacts of [create_output_files] hold: a point cloud that
    announces and writes [2000 * n] vertex records; a mesh with [100 * n]
    records each of [v], [vt] and [vn] and [F] faces where
    [95 * n - 1 <= 3 * F <= 95 * n + 1]; and a solid with [50 * n] facets. *)
Theorem native_artifact_counts (d : Numerics) (n : nat) :
  well_rendered d ->
  let mesh := Native.obj_records d n in
  declared_vertex_count (Native.ply_file d n) = Some (2000 * n) /\
  emitted_vertex_records (Native.ply_file d n) = 2000 * n /\
  count_v mesh = 100 * n /\
  Texture.count_vt mesh = 100 * n /\
  Texture.count_vn mesh = 100 * n /\
  95 * n - 1 <= 3 * count_f mesh /\
  3 * count_f mesh <= 95 * n + 1 /\
  Stl.facet_blocks (Native.stl_file d n) = 50 * n.
Proof.
  intros Hd. cbv zeta.
  split; [rewrite native_ply_declared by exact Hd; f_equal; apply Nat.mul_comm|].
  split; [rewrite native_ply_emitted by exact Hd; apply Nat.mul_comm|].
  split; [apply native_count_v|].
  split.
  { unfold Texture.count_vt. rewrite native_count_by.
    rewrite (filter_map_none is_vt (fun i => OV (obj_v_fields d i))) by reflexivity.
    rewrite (filter_map_all is_vt (fun i => OVt (obj_vt_fields d i))) by reflexivity.
    rewrite (filter_map_none is_vt (fun i => OVn (obj_vn_fields d i))) by reflexivity.
    rewrite filter_map_none by reflexivity.
    rewrite length_range. lia. }
  split.
  { unfold Texture.count_vn. rewrite native_count_by.
    rewrite (filter_map_none is_vn (fun i => OV (obj_v_fields d i))) by reflexivity.
    rewrite (filter_map_none is_vn (fun i => OVt (obj_vt_fields d i))) by reflexivity.
    rewrite (filter_map_all is_vn (fun i => OVn (obj_vn_fields d i))) by reflexivity.
    rewrite filter_map_none by reflexivity.
    rewrite length_range. lia. }
  assert (Hf : count_f (Native.obj_records d n)
               = List.length (range3 1 (n * 95) 3)).
  { unfold count_f. rewrite native_count_by.
    rewrite (filter_map_none is_f (fun i => OV (obj_v_fields d i))) by reflexivity.
    rewrite (filter_map_none is_f (fun i => OVt (obj_vt_fields d i))) by reflexivity.
    rewrite (filter_map_none is_f (fun i => OVn (obj_vn_fields d i))) by reflexivity.
    rewrite filter_map_all by reflexivity. reflexivity. }
  rewrite Hf.
  assert (H3 : 1 <= 3) by lia.
  pose proof (range3_covers 1 (n * 95) 3 H3) as Hc.
  split; [lia|]. split.
  - destruct (Nat.lt_ge_cases 1 (n * 95)) as [Hlt|Hge].
    + pose proof (range3_tight 1 (n * 95) 3 Hlt) as Hu. lia.
    + assert (Hn : n = 0) by lia. subst n. cbn. lia.
  - rewrite native_stl_text.
    rewrite solid_facet_blocks
      by (exact Hd || apply native_solid_name_no_f).
    rewrite length_range. apply Nat.mul_comm.
Qed.

Lemma native_artifact_counts_witness :
  well_rendered run_b /\
  Stl.facet_blocks (Native.stl_file run_b 3) = 50 * 3.
Proof.
  split; [exact run_b_rendered|].
  destruct (native_artifact_counts run_b 3 run_b_rendered)
    as (_ & _ & _ & _ & _ & _ & _ & H).
  exact H.
Defined.

(** X21.  At every photo count, not only at one: each record of the
    generated point clouds and each piece of the generated solids is closed
    by backslash and n, so a point cloud's announced vertex count equals
    its number of data lines only when there are no photos at all, and a
    generated solid is a single physical line whose last line never is the
    [endsolid] line, whatever facet count is expected. *)
Theorem generated_files_are_one_line_at_every_count
    (d : Numerics) (n : nat) (session time_text : string) :
  well_rendered d ->
  no_LF session = true ->
  let st := Realistic.stats_of time_text n in
  (header_matches_data_lines (Actual.create_valid_ply_file d n) <-> n = 0) /\
  (header_matches_data_lines (Realistic.ply_file d n session st) <-> n = 0) /\
  (header_matches_data_lines (Native.ply_file d n) <-> n = 0) /\
  List.length (lines (Realistic.stl_file d n st)) = 1 /\
  List.length (lines (Native.stl_file d n)) = 1 /\
  (forall expected,
     ~ Stl.well_formed (Realistic.stl_file d n st) (Realistic.solid_name n) expected) /\
  (forall expected,
     ~ Stl.well_formed (Native.stl_file d n) (Native.solid_name n) expected).
Proof.
  intros Hd Hs. cbv zeta. unfold header_matches_data_lines.
  rewrite actual_ply_declared, actual_ply_data_lines by exact Hd.
  rewrite realistic_ply_declared, realistic_ply_data_lines
    by (exact Hd || exact Hs).
  rewrite native_ply_declared, native_ply_data_lines by exact Hd.
  unfold Realistic.stats_of. cbn [Realistic.dense_points Realistic.mesh_faces].
  assert (Hone : forall m, (m = 0 <-> n = 0) -> (m = 1 -> False) ->
                 (Some m = Some (List.length
                    match m with
                    | 0 => @nil string
                    | _ => [flat (map (fun i => ply_fields d i ++ esc_n) (range m))]
                    end) <-> n = 0)).
  { intros m Hm H1. destruct m as [|m].
    - split; [intros _; apply Hm; reflexivity | reflexivity].
    - cbn [List.length]. split.
      + intros E. injection E as E. exfalso. apply H1. rewrite E. reflexivity.
      + intros E. apply Hm in E. discriminate E. }
  split.
  { apply Hone; unfold Actual.num_points; lia. }
  split.
  { apply Hone; lia. }
  split.
  { apply Hone; lia. }
  rewrite realistic_stl_text, native_stl_text.
  cbn [Realistic.mesh_faces].
  split.
  { rewrite solid_lines by (exact Hd || apply realistic_solid_name_no_LF).
    reflexivity. }
  split.
  { rewrite solid_lines by (exact Hd || apply native_solid_name_no_LF).
    reflexivity. }
  split.
  - intros expected. apply solid_not_well_formed;
      [exact Hd | apply realistic_solid_name_no_LF].
  - intros expected. apply solid_not_well_formed;
      [exact Hd | apply native_solid_name_no_LF].
Qed.

Lemma generated_files_are_one_line_at_every_count_witness :
  well_rendered run_b /\ no_LF sample_session = true /\
  (header_matches_data_lines (Native.ply_file run_b 4) <-> 4 = 0).
Proof.
  assert (Hs : no_LF sample_session = true) by reflexivity.
  split; [exact run_b_rendered|]. split; [exact Hs|].
  destruct (generated_files_are_one_line_at_every_count
              run_b 4 sample_session "32.0" run_b_rendered Hs)
    as (_ & _ & H & _).
  exact H.
Defined.

(** ** The pods indicator and the scripts' cluster check *)

Lemma prefix_empty_text c p : String.prefix (String c p) "" = false.
Proof. reflexivity. Qed.

Lemma count_positive_contains c p s :
  Nat.leb 1 (count s (String c p)) = contains (String c p) s.
Proof.
  unfold count. induction s as [|a s IH].
  - reflexivity.
  - rewrite count_skip_here. cbn [contains].
    destruct (String.prefix (String c p) (String a s)).
    + reflexivity.
    + cbn [orb]. exact IH.
Qed.

(** X22.  For one and the same answer of [kubectl get pods -n meshroom],
    the pods indicator of the control panel turns to [Running] exactly
    when the cluster check of the realistic script passes (at least one
    occurrence of the word).  The check of the other scripts asks for two
    occurrences: when it passes the indicator shows [Running], but with a
    single running pod the indicator is green while those scripts find
    the cluster not ready. *)
Theorem pods_indicator_agrees_with_the_lenient_check (rc : Z) (out : string) :
  let shown := Indicators.pods_status (Indicators.Returned rc out) in
  let answer := Indicators.checked rc out in
  (fst shown = "Running" <-> cluster_ready 1 answer = true) /\
  (cluster_ready 2 answer = true -> shown = ("Running", Indicators.green)) /\
  (rc = 0%Z -> count out "Running" = 1 ->
   shown = ("Running", Indicators.green) /\ cluster_ready 2 answer = false).
Proof.
  cbv zeta. unfold Indicators.pods_status, Indicators.checked, cluster_ready.
  destruct (rc =? 0)%Z eqn:Erc.
  - rewrite (count_positive_contains "R" "unning" out).
    destruct (contains "Running" out) eqn:Ec.
    + split; [split; reflexivity|]. split; [reflexivity|].
      intros _ H1. split; [reflexivity|]. rewrite H1. reflexivity.
    + assert (H0 : count out "Running" = 0).
      { pose proof (count_positive_contains "R" "unning" out) as H.
        rewrite Ec in H. apply Nat.leb_gt in H. lia. }
      split.
      { split; [|intros H; discriminate H].
        destruct (contains "No resources found" out); intros H; discriminate H. }
      split.
      { rewrite H0. intros H. discriminate H. }
      intros _ H1. rewrite H1 in H0. discriminate H0.
  - split; [split; intros H; discriminate H|].
    split; [intros H; discriminate H|].
    intros H0. rewrite H0 in Erc. discriminate Erc.
Qed.
